(** * TextArranger: the line model, the selection rule and the delete
      confirmation lifecycle of [textarranger.js]

    The development embeds the [TextArranger] class.  The object's fields
    ([data], [container], [outputArea], [pendingDeleteIndex]) become a record
    that every method threads explicitly; the part of the DOM the class
    reads back (the children of the container, the checkbox, the editable
    cell and the [dragging] class of every row) is a list of nodes; a
    JavaScript exception is an outcome of its own.

    Numbers: array indices and [forEach] counters are [nat]; an index that a
    caller passes to a public method, and a [lineNumber], is an integer [Z];
    pixel coordinates are IEEE-754 doubles, with the rounding arithmetic of
    the Standard Library's specification of floating point. *)

From Stdlib Require Import String ZArith Bool Arith Lia List.
From Stdlib Require Import Permutation SpecFloat.
Import ListNotations.

Local Open Scope string_scope.
Local Open Scope list_scope.
Local Open Scope nat_scope.

(** ** Data model *)

(** One entry of [data.lines]. *)
Record Line : Type := mkLine {
  lineNumber : Z;
  text : string
}.

(** The value of [this.data]: absent ([null]/[undefined]), an object without
    a [lines] field, or an object whose [lines] is an array of lines. *)
Inductive Data : Type :=
| DataAbsent
| DataNoLines
| DataLines (ls : list Line).

(** A [.list-group-item] element built by [render].  [rowId] is the identity
    of the element object; [rowIndex] is the [index] its click handlers
    closed over; [checkbox] is the [checked] flag of its
    [input[type="checkbox"]] and [colText] the [textContent] of its
    [.col[contenteditable="true"]] cell, [None] when [querySelector] finds
    no such element. *)
Record Row : Type := mkRow {
  rowId : nat;
  rowIndex : nat;
  datasetLineNumber : Z;
  checkbox : option bool;
  colText : option string;
  confirming : bool;
  dragging : bool
}.

(** A child of the container: a divider (with the index [createDivider]
    received) or a row. *)
Inductive Node : Type :=
| Divider (id : nat) (index : nat)
| Item (r : Row).

Definition nodeId (n : Node) : nat :=
  match n with
  | Divider id _ => id
  | Item r => rowId r
  end.

(** The value of the optional output text area: what it held before the
    first update, or the [JSON.stringify] image of a line list. *)
Inductive TextAreaValue : Type :=
| InitialValue
| JsonOf (ls : list Line).

Record TextArranger : Type := mkTextArranger {
  data : Data;
  container : option (list Node);
  outputArea : option TextAreaValue;
  pendingDeleteIndex : option Z;
  console : list string
}.

Inductive Exception : Type :=
| TypeError
| NotFoundError.

(** What a method call leaves behind: it returns, or it throws and the
    handler is abandoned with the object as mutated so far. *)
Inductive Outcome : Type :=
| Ok (s : TextArranger)
| Thrown (e : Exception) (s : TextArranger).

Definition bind (o : Outcome) (k : TextArranger -> Outcome) : Outcome :=
  match o with
  | Ok s => k s
  | Thrown e s => Thrown e s
  end.

Notation "s <- o ;; k" := (bind o (fun s => k))
  (at level 61, o at next level, right associativity).

(** Field updates. *)
Definition setData (d : Data) (s : TextArranger) : TextArranger :=
  mkTextArranger d (container s) (outputArea s) (pendingDeleteIndex s) (console s).

Definition setContainer (c : list Node) (s : TextArranger) : TextArranger :=
  mkTextArranger (data s) (Some c) (outputArea s) (pendingDeleteIndex s) (console s).

Definition setOutputArea (v : TextAreaValue) (s : TextArranger) : TextArranger :=
  mkTextArranger (data s) (container s) (Some v) (pendingDeleteIndex s) (console s).

Definition setPendingDeleteIndex (p : option Z) (s : TextArranger) : TextArranger :=
  mkTextArranger (data s) (container s) (outputArea s) p (console s).

Definition consoleError (msg : string) (s : TextArranger) : TextArranger :=
  mkTextArranger (data s) (container s) (outputArea s) (pendingDeleteIndex s)
                 (console s ++ [msg]).

Definition setCheckbox (b : bool) (r : Row) : Row :=
  mkRow (rowId r) (rowIndex r) (datasetLineNumber r)
        (match checkbox r with Some _ => Some b | None => None end)
        (colText r) (confirming r) (dragging r).

Definition setDragging (b : bool) (r : Row) : Row :=
  mkRow (rowId r) (rowIndex r) (datasetLineNumber r) (checkbox r)
        (colText r) (confirming r) b.

Definition setTextContent (t : string) (r : Row) : Row :=
  mkRow (rowId r) (rowIndex r) (datasetLineNumber r) (checkbox r)
        (match colText r with Some _ => Some t | None => None end)
        (confirming r) (dragging r).

(** ** Arrays *)

(** [Array.prototype.splice(start, deleteCount, ...items)] for an integer
    [start]: a negative [start] counts from the end, and both ends are
    clamped to the array. *)
Definition spliceStart (start : Z) (len : nat) : nat :=
  if (start <? 0)%Z
  then Z.to_nat (Z.max (Z.of_nat len + start) 0)
  else Nat.min (Z.to_nat start) len.

Definition splice {A : Type} (start : Z) (deleteCount : nat) (items l : list A)
  : list A :=
  let a := spliceStart start (length l) in
  firstn a l ++ items ++ skipn (a + deleteCount) l.

(** [lines.forEach((line, i) => { line.lineNumber = i + 1; })], with the
    counter starting at [i]. *)
Fixpoint resequenceFrom (i : nat) (ls : list Line) : list Line :=
  match ls with
  | [] => []
  | line :: rest => mkLine (Z.of_nat i + 1) (text line) :: resequenceFrom (S i) rest
  end.

Definition resequence (ls : list Line) : list Line := resequenceFrom 0 ls.

(** ** Queries on the container *)

(** [container.querySelectorAll('.list-group-item')], in document order. *)
Fixpoint listGroupItems (c : list Node) : list Row :=
  match c with
  | [] => []
  | Divider _ _ :: rest => listGroupItems rest
  | Item r :: rest => r :: listGroupItems rest
  end.

Definition isChecked (r : Row) : bool :=
  match checkbox r with
  | Some b => b
  | None => false
  end.

(** The loop shared by [syncDataFromDOM], the [dragend] handler and
    [updateJsonOutput]: [index] counts every row, and a row without an
    editable cell pushes nothing. *)
Fixpoint collectLines (index : nat) (rows : list Row) : list Line :=
  match rows with
  | [] => []
  | row :: rest =>
      match colText row with
      | Some t => mkLine (Z.of_nat index + 1) t :: collectLines (S index) rest
      | None => collectLines (S index) rest
      end
  end.

(** ** Rendering *)

Definition isPending (pending : option Z) (index : nat) : bool :=
  match pending with
  | Some p => (p =? Z.of_nat index)%Z
  | None => false
  end.

(** The row [render] builds for [item] at [index].  Elements are numbered by
    their place among the children of the freshly filled container: divider
    [k] is child [2k], row [index] is child [2 * index + 1]. *)
Definition renderRow (pending : option Z) (index : nat) (item : Line) : Row :=
  {| rowId := 2 * index + 1;
     rowIndex := index;
     datasetLineNumber := lineNumber item;
     checkbox := Some false;
     colText := Some (text item);
     confirming := isPending pending index;
     dragging := false |}.

Fixpoint renderItems (pending : option Z) (index : nat) (ls : list Line)
  : list Node :=
  match ls with
  | [] => []
  | item :: rest =>
      Item (renderRow pending index item)
        :: Divider (2 * index + 2) (S index)
        :: renderItems pending (S index) rest
  end.

(** The children [render] appends for the lines [ls]. *)
Definition renderedChildren (pending : option Z) (ls : list Line) : list Node :=
  Divider 0 0 :: renderItems pending 0 ls.

(** [render()]: the container is emptied first; then missing data is logged
    and the method returns, otherwise the top divider and one row and one
    divider per line are appended. *)
Definition render (s : TextArranger) : Outcome :=
  match container s with
  | None => Thrown TypeError s
  | Some _ =>
      let s1 := setContainer [] s in
      match data s1 with
      | DataLines ls =>
          Ok (setContainer (renderedChildren (pendingDeleteIndex s1) ls) s1)
      | _ => Ok (consoleError "Invalid data format" s1)
      end
  end.

(** ** Flushing the view into the model *)

(** [syncDataFromDOM()]. *)
Definition syncDataFromDOM (s : TextArranger) : Outcome :=
  match container s with
  | None => Ok s
  | Some c =>
      let lines := collectLines 0 (listGroupItems c) in
      match data s with
      | DataAbsent => Thrown TypeError s
      | DataNoLines =>
          if 0 <? length lines then Ok (setData (DataLines lines) s)
          else Thrown TypeError s
      | DataLines old =>
          if (0 <? length lines) || (length old =? 0)
          then Ok (setData (DataLines lines) s)
          else Ok s
      end
  end.

(** [updateJsonOutput()]. *)
Definition updateJsonOutput (s : TextArranger) : Outcome :=
  match outputArea s with
  | None => Ok s
  | Some _ =>
      match container s with
      | None => Thrown TypeError s
      | Some c => Ok (setOutputArea (JsonOf (collectLines 0 (listGroupItems c))) s)
      end
  end.

(** ** Insert, delete and the confirmation prompt *)

Definition newLine : Line := mkLine 0 "".

(** [addLine(index)].  The deferred [focus()] of the new row changes nothing
    the class reads back and is left out. *)
Definition addLine (index : Z) (s : TextArranger) : Outcome :=
  s1 <- syncDataFromDOM s ;;
  match data s1 with
  | DataLines ls =>
      render (setData (DataLines (resequence (splice index 0 [newLine] ls))) s1)
  | _ => Thrown TypeError s1
  end.

(** [deleteLine(index)]. *)
Definition deleteLine (index : Z) (s : TextArranger) : Outcome :=
  s1 <- syncDataFromDOM s ;;
  match data s1 with
  | DataLines ls =>
      s2 <- render (setPendingDeleteIndex None
                         (setData (DataLines (resequence (splice index 1 [] ls))) s1)) ;;
      updateJsonOutput s2
  | _ => Thrown TypeError s1
  end.

(** [requestDelete(index)]. *)
Definition requestDelete (index : Z) (s : TextArranger) : Outcome :=
  s1 <- syncDataFromDOM s ;;
  render (setPendingDeleteIndex (Some index) s1).

(** [cancelDelete()]. *)
Definition cancelDelete (s : TextArranger) : Outcome :=
  s1 <- syncDataFromDOM s ;;
  render (setPendingDeleteIndex None s1).

(** ** The selection rule *)

(** [allRows.indexOf(changedRow)], counting from [i]; [-1] when the row is
    not among them. *)
Fixpoint indexOfFrom (i : nat) (id : nat) (rows : list Row) : Z :=
  match rows with
  | [] => (-1)%Z
  | r :: rest => if rowId r =? id then Z.of_nat i else indexOfFrom (S i) id rest
  end.

Definition indexOf (id : nat) (rows : list Row) : Z := indexOfFrom 0 id rows.

(** [cb && cb.checked] for the checkbox of [allRows[i]]. *)
Definition checkedAt (rows : list Row) (i : Z) : bool :=
  match nth_error rows (Z.to_nat i) with
  | Some r => isChecked r
  | None => false
  end.

(** [allRows.forEach((row, i) => { if (i !== index) ... cb.checked = false })]
    on the rows, and on the children of the container they live in. *)
Fixpoint uncheckOtherRows (i : nat) (index : Z) (rows : list Row) : list Row :=
  match rows with
  | [] => []
  | r :: rest =>
      (if (Z.of_nat i =? index)%Z then r else setCheckbox false r)
        :: uncheckOtherRows (S i) index rest
  end.

Fixpoint uncheckOthers (i : nat) (index : Z) (c : list Node) : list Node :=
  match c with
  | [] => []
  | Divider id k :: rest => Divider id k :: uncheckOthers i index rest
  | Item r :: rest =>
      Item (if (Z.of_nat i =? index)%Z then r else setCheckbox false r)
        :: uncheckOthers (S i) index rest
  end.

(** [handleToggle(changedCheckbox, changedRow)], given the [checked] flag of
    the checkbox and the identity of the row. *)
Definition handleToggle (changedChecked : bool) (changedRow : nat)
           (c : list Node) : list Node :=
  if negb changedChecked then c
  else
    let allRows := listGroupItems c in
    let index := indexOf changedRow allRows in
    let prevChecked :=
      if (0 <? index)%Z then checkedAt allRows (index - 1) else false in
    let nextChecked :=
      if (index <? Z.of_nat (length allRows) - 1)%Z
      then checkedAt allRows (index + 1) else false in
    if negb prevChecked && negb nextChecked
    then uncheckOthers 0 index c
    else c.

(** Apply [f] to the row whose identity is [id]. *)
Definition updateRow (id : nat) (f : Row -> Row) (c : list Node) : list Node :=
  map (fun n => match n with
                | Item r => if rowId r =? id then Item (f r) else n
                | Divider _ _ => n
                end) c.

(** The [change] event of the checkbox of the row at position [p]: the
    browser flips the flag, then the listener calls [handleToggle]. *)
Definition changeCheckbox (p : nat) (c : list Node) : list Node :=
  match nth_error (listGroupItems c) p with
  | Some r =>
      match checkbox r with
      | Some b =>
          handleToggle (negb b) (rowId r)
                       (updateRow (rowId r) (setCheckbox (negb b)) c)
      | None => c
      end
  | None => c
  end.

(** A run of [change] events, on the rows at the positions [ps]. *)
Definition changeCheckboxes (ps : list nat) (c : list Node) : list Node :=
  fold_left (fun c' p => changeCheckbox p c') ps c.

(** The marks of the rows, by position. *)
Definition marks (c : list Node) : list bool := map isChecked (listGroupItems c).

Definition marked (m : list bool) (i : nat) : Prop := nth i m false = true.

(** The marked positions form one unbroken run (possibly empty). *)
Definition contiguous (m : list bool) : Prop :=
  forall i j k, i < j -> j < k -> marked m i -> marked m k -> marked m j.

(** [c'] is reached from [c] by toggle-on events only: each [change] event
    is on a row whose checkbox was unchecked. *)
Inductive toggledOn (c : list Node) : list Node -> Prop :=
| toggledOn_none : toggledOn c c
| toggledOn_change c' p r :
    toggledOn c c' ->
    nth_error (listGroupItems c') p = Some r ->
    checkbox r = Some false ->
    toggledOn c (changeCheckbox p c').

(** Whether a neighbour of position [p] is marked: what [handleToggle]
    computes as [prevChecked || nextChecked]. *)
Definition neighbourMarked (m : list bool) (p : nat) : bool :=
  (negb (p =? 0) && nth (p - 1) m false) || nth (p + 1) m false.

(** ** Dragging *)

Definition removeChild (id : nat) (c : list Node) : list Node :=
  filter (fun n => negb (nodeId n =? id)) c.

(** [container.appendChild(node)]: a node already in the tree is moved. *)
Definition appendChild (n : Node) (c : list Node) : list Node :=
  removeChild (nodeId n) c ++ [n].

Fixpoint insertAt (n : Node) (ref : nat) (c : list Node) : list Node :=
  match c with
  | [] => []
  | x :: rest =>
      if nodeId x =? ref then n :: x :: rest else x :: insertAt n ref rest
  end.

(** [container.insertBefore(node, ref)]: [NotFoundError] ([None]) when [ref]
    is not a child; a node already in the tree is moved. *)
Definition insertBefore (n : Node) (ref : nat) (c : list Node)
  : option (list Node) :=
  if existsb (fun x => nodeId x =? ref) c
  then if nodeId n =? ref then Some c
       else Some (insertAt n ref (removeChild (nodeId n) c))
  else None.

(** ** Numbers *)

(** A JavaScript number is an IEEE-754 binary64 value.  Pixel coordinates
    are such numbers, and [-], [/] and [<] on them are the operations of the
    Standard Library's specification of floating-point arithmetic at
    precision 53 and maximal exponent 1024: every operation rounds its
    exact result to the nearest double, ties to even. *)
Module Double.

Definition t : Type := spec_float.

Definition prec : Z := 53.

Definition emax : Z := 1024.

(** [x - y], [x / y], [x < y] and [x <= y]. *)
Definition sub (x y : t) : t := SFsub prec emax x y.

Definition div (x y : t) : t := SFdiv prec emax x y.

Definition ltb (x y : t) : bool := SFltb x y.

Definition leb (x y : t) : bool := SFleb x y.

(** The double of an integer literal, and the double [2^e]. *)
Definition ofZ (z : Z) : t := binary_normalize prec emax z 0 false.

Definition pow2 (e : Z) : t := binary_normalize prec emax 1 e false.

Definition NEGATIVE_INFINITY : t := S754_infinity true.

(** A finite double, in the canonical form every operation returns. *)
Definition finite (x : t) : bool :=
  match x with
  | S754_zero _ => true
  | S754_finite _ m e => bounded prec emax m e
  | _ => false
  end.

(** The exact value of a finite double, counted in units of [2^-1074], the
    gap between the smallest doubles: every finite double is a whole number
    of them. *)
Definition ulps (x : t) : Z :=
  match x with
  | S754_finite s m e => cond_Zopp s (Zpos m * 2 ^ (e + 1074))
  | _ => 0%Z
  end.

End Double.

Record DOMRect : Type := mkRect { top : Double.t; height : Double.t }.

(** The accumulator of the [reduce] in [getDragAfterElement]. *)
Record Closest : Type := mkClosest {
  offset : Double.t;
  element : option Row
}.

Definition notDragging (r : Row) : bool := negb (dragging r).

Section Layout.

(** The layout engine: the bounding box of a row at the time of the
    call. *)
Variable getBoundingClientRect : Row -> DOMRect.

Definition closer (y : Double.t) (closest : Closest) (child : Row) : Closest :=
  let box := getBoundingClientRect child in
  let offset' := Double.sub (Double.sub y (top box))
                            (Double.div (height box) (Double.ofZ 2)) in
  if Double.ltb offset' (Double.ofZ 0) && Double.ltb (offset closest) offset'
  then mkClosest offset' (Some child)
  else closest.

(** [getDragAfterElement(y)]. *)
Definition getDragAfterElement (y : Double.t) (c : list Node) : option Row :=
  let draggableElements := filter notDragging (listGroupItems c) in
  element (fold_left (closer y) draggableElements
                     (mkClosest Double.NEGATIVE_INFINITY None)).

(** The offset the [reduce] computes for [r]: [y - box.top - box.height / 2],
    rounded after each of the three operations. *)
Definition offsetOf (y : Double.t) (r : Row) : Double.t :=
  Double.sub (Double.sub y (top (getBoundingClientRect r)))
             (Double.div (height (getBoundingClientRect r)) (Double.ofZ 2)).

(** [r] passes the test of the [reduce] against the initial accumulator:
    its computed offset is negative and above [-Infinity]. *)
Definition eligible (y : Double.t) (r : Row) : bool :=
  Double.ltb (offsetOf y r) (Double.ofZ 0)
  && Double.ltb Double.NEGATIVE_INFINITY (offsetOf y r).

(** [r] is, of the eligible rows of [rows], the one with the greatest
    computed offset, and the first such in the order of [rows]. *)
Definition greatestOffset (y : Double.t) (rows : list Row) (r : Row) : Prop :=
  exists pre post,
    rows = pre ++ r :: post /\ eligible y r = true /\
    (forall r', In r' pre -> eligible y r' = true ->
                Double.ltb (offsetOf y r') (offsetOf y r) = true) /\
    (forall r', In r' post -> eligible y r' = true ->
                Double.leb (offsetOf y r') (offsetOf y r) = true).

(** What the accumulator of the [reduce] holds once the rows [rows] have
    been visited. *)
Definition reduced (y : Double.t) (rows : list Row) (closest : Closest) : Prop :=
  match element closest with
  | None =>
      offset closest = Double.NEGATIVE_INFINITY /\
      forall r, In r rows -> eligible y r = false
  | Some r =>
      offset closest = offsetOf y r /\ greatestOffset y rows r
  end.

(** The geometry the offsets stand for, in exact arithmetic.  Lengths are
    counted in units of [2^-1074] pixels and doubled, so that the midpoint
    of a box is a whole number: [midpoint r] is twice the midpoint
    [top + height / 2] of the box of [r]. *)
Definition midpoint (r : Row) : Z :=
  (2 * Double.ulps (top (getBoundingClientRect r))
   + Double.ulps (height (getBoundingClientRect r)))%Z.

(** The midpoint of [r] is below the pointer. *)
Definition belowPointer (y : Double.t) (r : Row) : Prop :=
  (2 * Double.ulps y < midpoint r)%Z.

(** [r] is, of the rows [rows] whose midpoint is below the pointer, the
    one closest to it, and the first such in the order of [rows]. *)
Definition nearestBelow (y : Double.t) (rows : list Row) (r : Row) : Prop :=
  exists pre post,
    rows = pre ++ r :: post /\ belowPointer y r /\
    (forall r', In r' pre -> belowPointer y r' ->
                (midpoint r < midpoint r')%Z) /\
    (forall r', In r' post -> belowPointer y r' ->
                (midpoint r <= midpoint r')%Z).

(** No rounding happens in the offset of [r]: the pointer, the box and the
    computed offset are finite, and the computed offset is the exact value
    of [y - top - height / 2]. *)
Definition exactOffset (y : Double.t) (r : Row) : Prop :=
  Double.finite y = true /\
  Double.finite (top (getBoundingClientRect r)) = true /\
  Double.finite (height (getBoundingClientRect r)) = true /\
  Double.finite (offsetOf y r) = true /\
  (2 * Double.ulps (offsetOf y r) = 2 * Double.ulps y - midpoint r)%Z.

(** The [forEach] of [handleDragOver] over the dragged rows; [inr c'] when
    [insertBefore] throws with the container as moved so far. *)
Fixpoint moveDraggables (afterElement : option Row) (draggables : list Row)
         (c : list Node) : list Node + list Node :=
  match draggables with
  | [] => inl c
  | draggable :: rest =>
      match afterElement with
      | None => moveDraggables afterElement rest (appendChild (Item draggable) c)
      | Some a =>
          match insertBefore (Item draggable) (rowId a) c with
          | Some c' => moveDraggables afterElement rest c'
          | None => inr c
          end
      end
  end.

(** [handleDragOver(e)] with [e.clientY = y]. *)
Definition handleDragOver (y : Double.t) (s : TextArranger) : Outcome :=
  match container s with
  | None => Thrown TypeError s
  | Some c =>
      let afterElement := getDragAfterElement y c in
      let draggables := filter dragging (listGroupItems c) in
      match moveDraggables afterElement draggables c with
      | inl c' => Ok (setContainer c' s)
      | inr c' => Thrown NotFoundError (setContainer c' s)
      end
  end.

End Layout.

Definition memId (id : nat) (ids : list nat) : bool := existsb (Nat.eqb id) ids.

(** No two children of the container are the same element. *)
Definition distinctNodes (c : list Node) : Prop := NoDup (map nodeId c).

(** The node is a row of the dragged block. *)
Definition draggedNode (n : Node) : bool :=
  match n with
  | Item r => dragging r
  | Divider _ _ => false
  end.

(** Apply [f] to every row. *)
Definition mapRows (f : Row -> Row) (c : list Node) : list Node :=
  map (fun n => match n with
                | Item r => Item (f r)
                | Divider _ _ => n
                end) c.

(** The [dragstart] listener of the row at position [p]. *)
Definition dragStart (p : nat) (s : TextArranger) : Outcome :=
  match container s with
  | None => Ok s
  | Some c =>
      match nth_error (listGroupItems c) p with
      | None => Ok s
      | Some lineDiv =>
          match checkbox lineDiv with
          | None => Thrown TypeError s
          | Some true =>
              Ok (setContainer
                    (mapRows (fun r => if isChecked r then setDragging true r else r) c)
                    s)
          | Some false =>
              Ok (setContainer (updateRow (rowId lineDiv) (setDragging true) c) s)
          end
      end
  end.

(** The [dragend] listener: the drag commit. *)
Definition dragEnd (s : TextArranger) : Outcome :=
  match container s with
  | None => Thrown TypeError s
  | Some c =>
      let c1 := mapRows (setDragging false) c in
      let c2 := mapRows (setCheckbox false) c1 in
      let newLines := collectLines 0 (listGroupItems c2) in
      let s1 := setContainer c2 s in
      match data s1 with
      | DataAbsent => Thrown TypeError s1
      | _ =>
          s2 <- render (setData (DataLines newLines) s1) ;;
          updateJsonOutput s2
      end
  end.

(** ** User gestures *)

(** Typing [t] into the editable cell of the row at position [p]; the
    [keyup] listener then refreshes the output area. *)
Definition editText (p : nat) (t : string) (s : TextArranger) : Outcome :=
  match container s with
  | None => Ok s
  | Some c =>
      match nth_error (listGroupItems c) p with
      | Some r =>
          match colText r with
          | Some _ =>
              updateJsonOutput
                (setContainer (updateRow (rowId r) (setTextContent t) c) s)
          | None => Ok s
          end
      | None => Ok s
      end
  end.

(** A click on the [k]-th child of the container, when it is a divider. *)
Definition clickDivider (k : nat) (s : TextArranger) : Outcome :=
  match container s with
  | None => Ok s
  | Some c =>
      match nth_error c k with
      | Some (Divider _ index) => addLine (Z.of_nat index) s
      | _ => Ok s
      end
  end.

Definition rowAt (p : nat) (s : TextArranger) : option Row :=
  match container s with
  | None => None
  | Some c => nth_error (listGroupItems c) p
  end.

(** Clicks on the buttons of the row at position [p]: the delete button of
    a row without a prompt, the confirm and cancel buttons of a row with
    one. *)
Definition clickDelete (p : nat) (s : TextArranger) : Outcome :=
  match rowAt p s with
  | Some r =>
      if confirming r then Ok s else requestDelete (Z.of_nat (rowIndex r)) s
  | None => Ok s
  end.

Definition clickConfirm (p : nat) (s : TextArranger) : Outcome :=
  match rowAt p s with
  | Some r =>
      if confirming r then deleteLine (Z.of_nat (rowIndex r)) s else Ok s
  | None => Ok s
  end.

Definition clickCancel (p : nat) (s : TextArranger) : Outcome :=
  match rowAt p s with
  | Some r => if confirming r then cancelDelete s else Ok s
  | None => Ok s
  end.

(** The row that shows the confirm and cancel buttons, if any. *)
Definition promptRow (s : TextArranger) : option Row :=
  match container s with
  | None => None
  | Some c => find confirming (listGroupItems c)
  end.

(** [confirm()] and [cancel()] of the confirmation prompt: the clicks on
    the two buttons of the row that shows them; nothing to click when no
    prompt is shown. *)
Definition confirm (s : TextArranger) : Outcome :=
  match promptRow s with
  | Some r => deleteLine (Z.of_nat (rowIndex r)) s
  | None => Ok s
  end.

Definition cancel (s : TextArranger) : Outcome :=
  match promptRow s with
  | Some _ => cancelDelete s
  | None => Ok s
  end.

(** The object after a handler has run, whether it returned or threw. *)
Definition after (o : Outcome) : TextArranger :=
  match o with
  | Ok s => s
  | Thrown _ s => s
  end.

Definition returns (o : Outcome) : bool :=
  match o with
  | Ok _ => true
  | Thrown _ _ => false
  end.

(** ** Predicates of the specification *)

(** The line numbers are exactly [1..N]. *)
Definition numbered (ls : list Line) : Prop :=
  map lineNumber ls = map Z.of_nat (seq 1 (length ls)).

Fixpoint numberedFrom (i : nat) (ls : list Line) : bool :=
  match ls with
  | [] => true
  | l :: rest => (lineNumber l =? Z.of_nat i + 1)%Z && numberedFrom (S i) rest
  end.

(** The lines of the model, [[]] when there are none to speak of. *)
Definition linesOf (s : TextArranger) : list Line :=
  match data s with
  | DataLines ls => ls
  | _ => []
  end.

(** The view holds no edit the model lacks: a flush changes nothing. *)
Definition flushed (s : TextArranger) : Prop := syncDataFromDOM s = Ok s.

(** The model is settled: a line list numbered [1..N] and no unsaved edit
    in the view. *)
Definition settled (s : TextArranger) : Prop :=
  numbered (linesOf s) /\ flushed s.

(** What [syncDataFromDOM] leaves in [data.lines] for a container [c] and
    old lines [old]. *)
Definition flushLines (c : list Node) (old : list Line) : list Line :=
  let lines := collectLines 0 (listGroupItems c) in
  if (0 <? length lines) || (length old =? 0) then lines else old.

(** ** Construction and the documents of the scenarios *)

(** [new TextArranger(data, container, outputArea)] for a container element
    with children [c]. *)
Definition construct (d : Data) (c : list Node) (out : option TextAreaValue)
  : TextArranger :=
  mkTextArranger d (Some c) out None [].

(** [new TextArranger({lines: ls}, container)] on an empty container,
    followed by [render()]. *)
Definition mounted (ls : list Line) : TextArranger :=
  after (render (construct (DataLines ls) [] None)).

Definition docABC : list Line := [mkLine 1 "A"; mkLine 2 "B"; mkLine 3 "C"].

(** A row that has lost its editable cell. *)
Definition staleRow : Row :=
  {| rowId := 1; rowIndex := 0; datasetLineNumber := 1;
     checkbox := Some false; colText := None;
     confirming := false; dragging := false |}.

(** ** Sessions *)

(** What can happen to a mounted component: a call of one of its public
    methods, or a gesture on one of the elements [render] built.  A
    [dragover] event comes with the layout of the rows at that moment. *)
Inductive Event : Type :=
| CallAddLine (index : Z)
| CallDeleteLine (index : Z)
| CallRequestDelete (index : Z)
| CallCancelDelete
| CallRender
| ClickDivider (k : nat)
| ClickDelete (p : nat)
| ClickConfirm (p : nat)
| ClickCancel (p : nat)
| Change (p : nat)
| Edit (p : nat) (t : string)
| DragStart (p : nat)
| DragOver (getBoundingClientRect : Row -> DOMRect) (y : Double.t)
| DragEnd.

Definition dispatch (e : Event) (s : TextArranger) : Outcome :=
  match e with
  | CallAddLine index => addLine index s
  | CallDeleteLine index => deleteLine index s
  | CallRequestDelete index => requestDelete index s
  | CallCancelDelete => cancelDelete s
  | CallRender => render s
  | ClickDivider k => clickDivider k s
  | ClickDelete p => clickDelete p s
  | ClickConfirm p => clickConfirm p s
  | ClickCancel p => clickCancel p s
  | Change p =>
      match container s with
      | Some c => Ok (setContainer (changeCheckbox p c) s)
      | None => Ok s
      end
  | Edit p t => editText p t s
  | DragStart p => dragStart p s
  | DragOver getBoundingClientRect y => handleDragOver getBoundingClientRect y s
  | DragEnd => dragEnd s
  end.

(** The object after the events [es], each handler running to its end. *)
Definition run (es : list Event) (s : TextArranger) : TextArranger :=
  fold_left (fun s' e => after (dispatch e s')) es s.

(** The structural operations. *)
Inductive Structural : Type :=
| Insert (index : Z)
| Delete (index : Z)
| DragCommit.

Definition perform (op : Structural) (s : TextArranger) : Outcome :=
  match op with
  | Insert index => addLine index s
  | Delete index => deleteLine index s
  | DragCommit => dragEnd s
  end.

(** A row as [render] builds it: with its checkbox and its editable cell. *)
Definition intact (r : Row) : Prop := checkbox r <> None /\ colText r <> None.

(** Children as [render] and the gestures leave them: every row intact and
    no element twice. *)
Definition wellBuilt (c : list Node) : Prop :=
  Forall intact (listGroupItems c) /\ distinctNodes c.

(** A mounted component: a container with well-built children, and a model
    with a line list. *)
Definition mountedState (s : TextArranger) : Prop :=
  exists c ls, container s = Some c /\ data s = DataLines ls /\ wellBuilt c.

(** Two layouts for the examples: rows 20 pixels high stacked by identity,
    and rows that all sit at the same place. *)
Definition stackedLayout (r : Row) : DOMRect :=
  mkRect (Double.ofZ (Z.of_nat (rowId r) * 10)) (Double.ofZ 20).

Definition flatLayout (_ : Row) : DOMRect :=
  mkRect (Double.ofZ 0) (Double.ofZ 20).

(** A layout off the pixel grid: rows two pixels high whose top is at
    [2^-60], so that their midpoint is at [1 + 2^-60]. *)
Definition offGridLayout (_ : Row) : DOMRect :=
  mkRect (Double.pow2 (-60)) (Double.ofZ 2).

Definition docA : list Line := [mkLine 1 "A"].

(** The rendered document [A, B, C] with the drag of its first row
    started. *)
Definition draggingA : TextArranger := after (dragStart 0 (mounted docABC)).

(** A document whose line numbers are not [1..N], as a caller may supply
    it. *)
Definition docTens : list Line :=
  [mkLine 10 "A"; mkLine 20 "B"; mkLine 30 "C"].

(** The rendered document [A, B, C] once ["B!"] has been typed into its
    second row. *)
Definition typedIntoB : TextArranger :=
  after (editText 1 "B!" (mounted docABC)).

(** ** Further vocabulary *)

(** The indices the dividers of the container carry, in document order. *)
Fixpoint dividerIndices (c : list Node) : list nat :=
  match c with
  | [] => []
  | Divider _ index :: rest => index :: dividerIndices rest
  | Item _ :: rest => dividerIndices rest
  end.

(** The texts of the lines of the model. *)
Definition textsOf (s : TextArranger) : list string := map text (linesOf s).

(** The texts the editable cells of the rows show, in document order. *)
Definition shownTexts (c : list Node) : list (option string) :=
  map colText (listGroupItems c).

(** What the output area holds once [updateJsonOutput] has run on the
    container [c]: nothing without an output area. *)
Definition mirrored (out : option TextAreaValue) (c : list Node)
  : option TextAreaValue :=
  match out with
  | None => None
  | Some _ => Some (JsonOf (collectLines 0 (listGroupItems c)))
  end.

(** The node is not a row of the dragged block. *)
Definition staysPut (n : Node) : bool := negb (draggedNode n).

(** The children of the container, [[]] without a container. *)
Definition childrenOf (s : TextArranger) : list Node :=
  match container s with
  | Some c => c
  | None => []
  end.

(** A run of [dragover] events, each with the layout and the pointer
    position of its moment; the run stops at the first handler that
    throws. *)
Fixpoint dragOvers (moves : list ((Row -> DOMRect) * Double.t)) (s : TextArranger)
  : Outcome :=
  match moves with
  | [] => Ok s
  | (getBoundingClientRect, y) :: rest =>
      s1 <- handleDragOver getBoundingClientRect y s ;;
      dragOvers rest s1
  end.

(** How many rows of the container show the confirm and cancel buttons. *)
Definition promptCount (c : list Node) : nat :=
  length (filter confirming (listGroupItems c)).

(** ** The style sheet *)

(** An element of the page that carries an [id]; for a [style] element,
    its text. *)
Record PageElement : Type := mkPageElement {
  elementId : string;
  elementText : string
}.

(** The document, as far as [injectStyles] looks at it: the children of
    [document.head] and the other elements that carry an [id]. *)
Record Page : Type := mkPage {
  pageHead : list PageElement;
  pageBody : list PageElement
}.

Definition hasId (id : string) (e : PageElement) : bool :=
  String.eqb (elementId e) id.

(** [document.getElementById(id)]. *)
Definition getElementById (id : string) (pg : Page) : option PageElement :=
  find (hasId id) (pageHead pg ++ pageBody pg).

(** The text [injectStyles] gives the [style] element. *)
Definition styleSheet : string := "
            .text-arranger-divider {
                height: 12px;
                position: relative;
                cursor: pointer;
                opacity: 0;
                transition: opacity 0.2s;
            }
            .text-arranger-divider:hover {
                opacity: 1;
            }
            .text-arranger-divider::before {
                content: '';
                position: absolute;
                top: 50%;
                left: 0;
                right: 0;
                border-top: 2px dashed #0d6efd;
                z-index: 0;
            }
            .text-arranger-divider-btn {
                position: absolute;
                top: 50%;
                left: 50%;
                transform: translate(-50%, -50%);
                width: 20px;
                height: 20px;
                background: #0d6efd;
                color: white;
                border-radius: 50%;
                font-size: 16px;
                line-height: 18px;
                text-align: center;
                z-index: 1;
                pointer-events: none; /* Let the parent click handle it */
            }
            .text-arranger-delete-btn {
                width: 24px;
                height: 24px;
                padding: 0;
                display: flex;
                align-items: center;
                justify-content: center;
                color: #dc3545;
                background: transparent;
                border: none;
                cursor: pointer;
                opacity: 0.5;
                transition: opacity 0.2s;
            }
            .text-arranger-delete-btn:hover {
                opacity: 1;
                background: rgba(220, 53, 69, 0.1);
                border-radius: 4px;
            }
            .text-arranger-confirm-btn {
                color: #198754;
            }
            .text-arranger-confirm-btn:hover {
                background: rgba(25, 135, 84, 0.1);
                border-radius: 4px;
                opacity: 1;
            }
            .text-arranger-cancel-btn {
                 color: #6c757d;
            }
            .text-arranger-cancel-btn:hover {
                background: rgba(108, 117, 125, 0.1);
                border-radius: 4px;
                opacity: 1;
            }
        ".

(** [injectStyles()]. *)
Definition injectStyles (pg : Page) : Page :=
  match getElementById "text-arranger-styles" pg with
  | Some _ => pg
  | None =>
      mkPage (pageHead pg ++ [mkPageElement "text-arranger-styles" styleSheet])
             (pageBody pg)
  end.

(** [new TextArranger(data, container, outputArea)] on the page [pg]: the
    object, and the page after [injectStyles]. *)
Definition constructOn (pg : Page) (d : Data) (c : list Node)
           (out : option TextAreaValue) : TextArranger * Page :=
  (construct d c out, injectStyles pg).

(** The page after one component has been constructed for each entry of
    [args]. *)
Fixpoint constructAll (args : list (Data * list Node * option TextAreaValue))
         (pg : Page) : Page :=
  match args with
  | [] => pg
  | (d, c, out) :: rest => constructAll rest (snd (constructOn pg d c out))
  end.

(** ** The earlier version of the class *)

Definition setDatasetLineNumber (n : Z) (r : Row) : Row :=
  mkRow (rowId r) (rowIndex r) n (checkbox r) (colText r) (confirming r)
        (dragging r).

(** [textarranger.js], the version of the class without dividers and delete
    buttons.  Its [handleDragOver], [getDragAfterElement], [handleToggle],
    [updateJsonOutput] and its [dragstart] and [keyup] listeners are those
    of the later version, word for word, and are shared here; [render] and
    the [dragend] listener differ.  The row has no buttons, so no prompt
    and no index in a closure; the [id] of the checkbox and the text of the
    label, which [dragend] rewrites beside [dataset.lineNumber] and which
    nothing reads, are not part of [Row]. *)
Module Legacy.

Definition renderRow (position : nat) (item : Line) : Row :=
  {| rowId := position;
     rowIndex := position;
     datasetLineNumber := lineNumber item;
     checkbox := Some false;
     colText := Some (text item);
     confirming := false;
     dragging := false |}.

Fixpoint renderItems (position : nat) (ls : list Line) : list Node :=
  match ls with
  | [] => []
  | item :: rest =>
      Item (renderRow position item) :: renderItems (S position) rest
  end.

(** [render()]. *)
Definition render (s : TextArranger) : Outcome :=
  match container s with
  | None => Thrown TypeError s
  | Some _ =>
      let s1 := setContainer [] s in
      match data s1 with
      | DataLines ls => Ok (setContainer (renderItems 0 ls) s1)
      | _ => Ok (consoleError "Invalid data format" s1)
      end
  end.

(** [currentRows.forEach((row, index) => { row.dataset.lineNumber = index + 1; ... })]. *)
Fixpoint resequenceRows (index : nat) (c : list Node) : list Node :=
  match c with
  | [] => []
  | Divider id k :: rest => Divider id k :: resequenceRows index rest
  | Item r :: rest =>
      Item (setDatasetLineNumber (Z.of_nat index + 1) r)
        :: resequenceRows (S index) rest
  end.

(** The [dragend] listener: the rows are renumbered where they are, and
    [data.lines] is not written. *)
Definition dragEnd (s : TextArranger) : Outcome :=
  match container s with
  | None => Thrown TypeError s
  | Some c =>
      let c1 := mapRows (setDragging false) c in
      let c2 := mapRows (setCheckbox false) c1 in
      updateJsonOutput (setContainer (resequenceRows 0 c2) s)
  end.

End Legacy.

(** The document of the block-drag scenario, and its view once rows [Y] and
    [Z] are marked and the drag of row [Y] has started. *)
Definition docWXYZ : list Line :=
  [mkLine 1 "W"; mkLine 2 "X"; mkLine 3 "Y"; mkLine 4 "Z"].

Definition draggingYZ : TextArranger :=
  after (dragStart 2
           (setContainer (changeCheckboxes [2; 3] (renderedChildren None docWXYZ))
                         (mounted docWXYZ))).

(** A page with nothing on it. *)
Definition emptyPage : Page := mkPage [] [].


(** ** Basic facts *)

Lemma setData_same (s : TextArranger) : setData (data s) s = s.
Proof. destruct s; reflexivity. Qed.

Lemma syncDataFromDOM_lines (s : TextArranger) c ls :
  container s = Some c -> data s = DataLines ls ->
  syncDataFromDOM s = Ok (setData (DataLines (flushLines c ls)) s).
Proof.
  intros Hc Hd. unfold syncDataFromDOM, flushLines. rewrite Hc, Hd.
  destruct ((0 <? length (collectLines 0 (listGroupItems c))) || (length ls =? 0));
    [reflexivity|].
  rewrite <- Hd, setData_same. reflexivity.
Qed.

Lemma resequenceFrom_length i ls : length (resequenceFrom i ls) = length ls.
Proof. revert i; induction ls; simpl; intros; [|rewrite IHls]; reflexivity. Qed.

Lemma resequenceFrom_text i ls : map text (resequenceFrom i ls) = map text ls.
Proof. revert i; induction ls; simpl; intros; [|rewrite IHls]; reflexivity. Qed.

Lemma resequenceFrom_lineNumber i ls :
  map lineNumber (resequenceFrom i ls) = map Z.of_nat (seq (S i) (length ls)).
Proof.
  revert i; induction ls as [|l ls IH]; simpl; intros; [reflexivity|].
  rewrite IH. f_equal. lia.
Qed.

Lemma resequence_numbered ls : numbered (resequence ls).
Proof.
  unfold numbered, resequence.
  rewrite resequenceFrom_lineNumber, resequenceFrom_length. reflexivity.
Qed.

Lemma resequenceFrom_fixed i ls :
  map lineNumber ls = map Z.of_nat (seq (S i) (length ls)) ->
  resequenceFrom i ls = ls.
Proof.
  revert i; induction ls as [|l ls IH]; simpl; intros i H; [reflexivity|].
  injection H as H1 H2. rewrite IH by assumption.
  destruct l as [n t]; simpl in *. f_equal. f_equal. lia.
Qed.

Lemma resequence_fixed ls : numbered ls -> resequence ls = ls.
Proof. apply resequenceFrom_fixed. Qed.

Lemma resequenceFrom_idem i ls :
  resequenceFrom i (resequenceFrom i ls) = resequenceFrom i ls.
Proof.
  apply resequenceFrom_fixed.
  rewrite resequenceFrom_lineNumber, resequenceFrom_length. reflexivity.
Qed.

Lemma numberedFrom_spec i ls :
  numberedFrom i ls = true <->
  map lineNumber ls = map Z.of_nat (seq (S i) (length ls)).
Proof.
  revert i; induction ls as [|l ls IH]; simpl; intros i; [tauto|].
  rewrite andb_true_iff, IH, Z.eqb_eq. split.
  - intros [H1 H2]. rewrite H1, H2. f_equal. lia.
  - intros H. injection H as H1 H2. split; [lia | assumption].
Qed.

(** [numberedFrom 0] decides [numbered]. *)
Lemma numbered_decide ls : numberedFrom 0 ls = true <-> numbered ls.
Proof. apply numberedFrom_spec. Qed.


(** Rows built by [render]. *)
Lemma listGroupItems_renderItems pd i ls :
  collectLines i (listGroupItems (renderItems pd i ls)) = resequenceFrom i ls.
Proof.
  revert i; induction ls as [|l ls IH]; simpl; intros i; [reflexivity|].
  rewrite IH. reflexivity.
Qed.

Lemma collectLines_rendered pd ls :
  collectLines 0 (listGroupItems (renderedChildren pd ls)) = resequence ls.
Proof. apply listGroupItems_renderItems. Qed.

Lemma resequenceFrom_ext i ls ls' :
  map text ls = map text ls' -> resequenceFrom i ls = resequenceFrom i ls'.
Proof.
  revert i ls'; induction ls as [|l ls IH]; intros i [|l' ls'] H;
    simpl in *; try discriminate; [reflexivity|].
  injection H as H1 H2. rewrite H1, (IH _ _ H2). reflexivity.
Qed.

Lemma splice_map {A B : Type} (f : A -> B) start n items l :
  map f (splice start n items l) = splice start n (map f items) (map f l).
Proof.
  unfold splice. rewrite !map_app, length_map, firstn_map, skipn_map.
  reflexivity.
Qed.

Lemma spliceStart_inside start len :
  (0 <= start <= Z.of_nat len)%Z -> spliceStart start len = Z.to_nat start.
Proof.
  intros H. unfold spliceStart.
  destruct (start <? 0)%Z eqn:E; [apply Z.ltb_lt in E; lia|]. lia.
Qed.

Lemma spliceStart_beyond start len :
  (Z.of_nat len <= start)%Z -> spliceStart start len = len.
Proof.
  intros H. unfold spliceStart.
  destruct (start <? 0)%Z eqn:E; [apply Z.ltb_lt in E; lia|]. lia.
Qed.

(** Deleting at or beyond the end removes nothing. *)
Lemma splice_delete_beyond {A : Type} start (l : list A) :
  (Z.of_nat (length l) <= start)%Z -> splice start 1 [] l = l.
Proof.
  intros H. unfold splice. rewrite spliceStart_beyond by assumption.
  rewrite firstn_all, skipn_all2 by lia. simpl. apply app_nil_r.
Qed.

(** Nothing to delete in an empty array, whatever the index. *)
Lemma splice_delete_empty {A : Type} start : splice start 1 [] (@nil A) = [].
Proof. unfold splice. rewrite firstn_nil, skipn_nil. reflexivity. Qed.

(** Inserting one element at [start] and deleting one at [start]. *)
Lemma splice_insert_delete {A : Type} start (x : A) (l : list A) :
  (0 <= start <= Z.of_nat (length l))%Z ->
  splice start 1 [] (splice start 0 [x] l) = l.
Proof.
  intros H. unfold splice at 2. rewrite spliceStart_inside by assumption.
  set (a := Z.to_nat start). assert (Ha : a <= length l) by lia.
  unfold splice. rewrite !length_app, length_firstn, length_skipn. simpl.
  rewrite spliceStart_inside by lia. fold a.
  rewrite Nat.add_0_r.
  rewrite firstn_app, firstn_firstn, length_firstn.
  replace (Nat.min a a) with a by lia.
  replace (a - Nat.min a (length l)) with 0 by lia. simpl. rewrite app_nil_r.
  rewrite skipn_app, length_firstn.
  replace (a + 1 - Nat.min a (length l)) with 1 by lia. simpl.
  rewrite skipn_all2 by (rewrite length_firstn; lia). simpl.
  apply firstn_skipn.
Qed.

Lemma render_lines s c ls :
  container s = Some c -> data s = DataLines ls ->
  render s = Ok (setContainer (renderedChildren (pendingDeleteIndex s) ls) s).
Proof.
  intros Hc Hd. unfold render. rewrite Hc. simpl. rewrite Hd. reflexivity.
Qed.

Lemma flushLines_rendered pd ls :
  flushLines (renderedChildren pd ls) ls = resequence ls.
Proof.
  unfold flushLines. rewrite collectLines_rendered.
  unfold resequence. rewrite resequenceFrom_length.
  destruct ls; reflexivity.
Qed.

Lemma addLine_lines s c ls index :
  container s = Some c -> data s = DataLines ls ->
  addLine index s =
  let ls1 := resequence (splice index 0 [newLine] (flushLines c ls)) in
  Ok (setContainer (renderedChildren (pendingDeleteIndex s) ls1)
                   (setData (DataLines ls1) s)).
Proof.
  intros Hc Hd. unfold addLine.
  rewrite (syncDataFromDOM_lines _ _ _ Hc Hd). simpl.
  erewrite render_lines; [reflexivity | simpl; eassumption | reflexivity].
Qed.

Lemma updateJsonOutput_ok s c :
  container s = Some c ->
  exists s', updateJsonOutput s = Ok s' /\ data s' = data s /\
             container s' = container s /\
             pendingDeleteIndex s' = pendingDeleteIndex s /\
             console s' = console s.
Proof.
  intros Hc. unfold updateJsonOutput. rewrite Hc.
  destruct (outputArea s); eexists; (split; [reflexivity|]); simpl; auto.
Qed.

Lemma deleteLine_lines s c ls index :
  container s = Some c -> data s = DataLines ls ->
  let ls1 := resequence (splice index 1 [] (flushLines c ls)) in
  exists s', deleteLine index s = Ok s' /\ data s' = DataLines ls1 /\
             container s' = Some (renderedChildren None ls1) /\
             pendingDeleteIndex s' = None /\ console s' = console s.
Proof.
  intros Hc Hd ls1. unfold deleteLine.
  rewrite (syncDataFromDOM_lines _ _ _ Hc Hd). simpl.
  erewrite render_lines; [| simpl; eassumption | reflexivity]. simpl.
  fold ls1.
  edestruct updateJsonOutput_ok as (s' & E & H1 & H2 & H3 & H4);
    [| exists s'; split; [exact E|]].
  - reflexivity.
  - rewrite H1, H2, H3, H4. simpl. auto.
Qed.

Lemma requestDelete_lines s c ls index :
  container s = Some c -> data s = DataLines ls ->
  requestDelete index s =
  Ok (setContainer (renderedChildren (Some index) (flushLines c ls))
        (setPendingDeleteIndex (Some index)
           (setData (DataLines (flushLines c ls)) s))).
Proof.
  intros Hc Hd. unfold requestDelete.
  rewrite (syncDataFromDOM_lines _ _ _ Hc Hd). simpl.
  erewrite render_lines; [reflexivity | simpl; eassumption | reflexivity].
Qed.

Lemma cancelDelete_lines s c ls :
  container s = Some c -> data s = DataLines ls ->
  cancelDelete s =
  Ok (setContainer (renderedChildren None (flushLines c ls))
        (setPendingDeleteIndex None
           (setData (DataLines (flushLines c ls)) s))).
Proof.
  intros Hc Hd. unfold cancelDelete.
  rewrite (syncDataFromDOM_lines _ _ _ Hc Hd). simpl.
  erewrite render_lines; [reflexivity | simpl; eassumption | reflexivity].
Qed.


(** ** The flush *)

Lemma collectLines_In i rows l :
  In l (collectLines i rows) <->
  exists p r, nth_error rows p = Some r /\ colText r = Some (text l) /\
              lineNumber l = (Z.of_nat (i + p) + 1)%Z.
Proof.
  revert i; induction rows as [|r rows IH]; intros i; simpl.
  - split; [tauto|]. intros (p & r & H & _). destruct p; discriminate.
  - assert (Hrest :
      In l (collectLines (S i) rows) <->
      exists p r', nth_error (r :: rows) (S p) = Some r' /\
                   colText r' = Some (text l) /\
                   lineNumber l = (Z.of_nat (i + S p) + 1)%Z).
    { rewrite IH. split; intros (p & r' & H1 & H2 & H3); exists p, r';
        simpl in *; repeat split; auto; rewrite H3; f_equal; lia. }
    destruct (colText r) as [t|] eqn:E; simpl; rewrite ?Hrest.
    + split.
      * intros [H | (p & r' & H)].
        -- exists 0, r. subst l. simpl. rewrite E, Nat.add_0_r. auto.
        -- exists (S p), r'. exact H.
      * intros ([|p] & r' & H1 & H2 & H3).
        -- left. simpl in H1. injection H1 as <-. rewrite E in H2.
           injection H2 as ->. rewrite Nat.add_0_r in H3.
           destruct l; simpl in *. subst. reflexivity.
        -- right. exists p, r'. auto.
    + split.
      * intros (p & r' & H). exists (S p), r'. exact H.
      * intros ([|p] & r' & H1 & H2 & H3).
        -- simpl in H1. injection H1 as <-. congruence.
        -- exists p, r'. auto.
Qed.

Lemma collectLines_none i rows :
  (forall r, In r rows -> colText r = None) -> collectLines i rows = [].
Proof.
  revert i; induction rows as [|r rows IH]; intros i H; simpl; [reflexivity|].
  rewrite (H r) by (left; reflexivity). apply IH. intros; apply H; right; auto.
Qed.

Lemma flushLines_nonempty c ls : ls <> [] -> flushLines c ls <> [].
Proof.
  intros Hls. unfold flushLines.
  destruct ls as [|l ls]; [congruence|]. simpl. rewrite orb_false_r.
  destruct (collectLines 0 (listGroupItems c)); simpl; congruence.
Qed.

(** C10.  A flush ([syncDataFromDOM], the first step of [addLine],
    [deleteLine], [requestDelete] and [cancelDelete]) of a non-empty model:
    the lines it collects are exactly those of the rows that have an
    editable cell, each numbered by the position of its row, rows without
    one being passed over; when no row has an editable cell the object is
    left as it was and the four callers carry on from the old lines; and it
    always returns with a non-empty line list. *)
Theorem syncDataFromDOM_never_empties (s : TextArranger) (c : list Node)
        (ls : list Line) :
  container s = Some c -> data s = DataLines ls -> ls <> [] ->
  (forall l, In l (collectLines 0 (listGroupItems c)) <->
             exists p r, nth_error (listGroupItems c) p = Some r /\
                         colText r = Some (text l) /\
                         lineNumber l = (Z.of_nat p + 1)%Z) /\
  ((forall r, In r (listGroupItems c) -> colText r = None) ->
   syncDataFromDOM s = Ok s /\
   (forall i, addLine i s =
              render (setData (DataLines (resequence (splice i 0 [newLine] ls))) s)) /\
   (forall i, exists s', deleteLine i s = Ok s' /\
              data s' = DataLines (resequence (splice i 1 [] ls))) /\
   (forall i, requestDelete i s = render (setPendingDeleteIndex (Some i) s)) /\
   cancelDelete s = render (setPendingDeleteIndex None s)) /\
  (exists s' ls', syncDataFromDOM s = Ok s' /\ data s' = DataLines ls' /\
                  ls' <> []).
Proof.
  intros Hc Hd Hls. split; [|split].
  - intros l. rewrite collectLines_In. simpl. tauto.
  - intros Hnone.
    assert (Hf : flushLines c ls = ls).
    { unfold flushLines. rewrite (collectLines_none _ _ Hnone).
      destruct ls; [congruence | reflexivity]. }
    assert (Hs : syncDataFromDOM s = Ok s).
    { rewrite (syncDataFromDOM_lines _ _ _ Hc Hd), Hf, <- Hd. f_equal.
      apply setData_same. }
    split; [exact Hs|]. repeat split.
    + intros i. unfold addLine. rewrite Hs. simpl. rewrite Hd. reflexivity.
    + intros i. destruct (deleteLine_lines s c ls i Hc Hd) as (s' & E & D & _).
      exists s'. rewrite Hf in D. auto.
    + intros i. unfold requestDelete. rewrite Hs. reflexivity.
    + unfold cancelDelete. rewrite Hs. reflexivity.
  - eexists. exists (flushLines c ls).
    split; [apply (syncDataFromDOM_lines _ _ _ Hc Hd)|].
    split; [reflexivity | apply flushLines_nonempty; assumption].
Qed.

Lemma syncDataFromDOM_never_empties_witness :
  syncDataFromDOM (construct (DataLines docABC) [Item staleRow] None)
  = Ok (construct (DataLines docABC) [Item staleRow] None).
Proof.
  apply (syncDataFromDOM_never_empties
           (construct (DataLines docABC) [Item staleRow] None)
           [Item staleRow] docABC).
  - reflexivity.
  - reflexivity.
  - discriminate.
  - simpl. intros r [<- | []]. reflexivity.
Defined.

(** ** The confirmation prompt *)

Lemma find_prompt_none k ls :
  find confirming (listGroupItems (renderItems None k ls)) = None.
Proof. revert k; induction ls; simpl; intros; auto. Qed.

Lemma find_prompt_some pd k ls i l :
  nth_error ls i = Some l -> pd = Some (Z.of_nat (k + i)) ->
  find confirming (listGroupItems (renderItems pd k ls))
  = Some (renderRow pd (k + i) l).
Proof.
  intros Hn ->. revert k i Hn; induction ls as [|x ls IH]; intros k i Hn.
  - destruct i; discriminate.
  - destruct i as [|i]; simpl in *.
    + injection Hn as ->. rewrite Nat.add_0_r, Z.eqb_refl. reflexivity.
    + destruct (Z.eqb_spec (Z.of_nat (k + S i)) (Z.of_nat k)) as [E|_]; [lia|].
      replace (k + S i) with (S k + i) by lia. apply IH. exact Hn.
Qed.

Lemma promptRow_requested s c ls i l :
  container s = Some c -> data s = DataLines ls ->
  nth_error (flushLines c ls) i = Some l ->
  promptRow (after (requestDelete (Z.of_nat i) s))
  = Some (renderRow (Some (Z.of_nat i)) i l).
Proof.
  intros Hc Hd Hn. rewrite (requestDelete_lines _ _ _ _ Hc Hd).
  unfold promptRow. simpl. apply (find_prompt_some _ 0 _ _ _ Hn). reflexivity.
Qed.

(** Renumbering [ls0] gives back [ls] exactly when [ls] is numbered [1..N]
    and has the texts of [ls0]. *)
Lemma resequence_restores ls ls0 :
  resequence ls0 = ls <-> numbered ls /\ map text ls = map text ls0.
Proof.
  split.
  - intros <-. split; [apply resequence_numbered|].
    apply resequenceFrom_text.
  - intros [Hn Ht]. rewrite <- (resequence_fixed ls Hn).
    unfold resequence. apply resequenceFrom_ext. symmetry. exact Ht.
Qed.

Lemma data_restored s ls ls0 d :
  data s = DataLines ls -> d = DataLines (resequence ls0) ->
  (d = data s <-> numbered ls /\ map text ls = map text ls0).
Proof.
  intros -> ->. rewrite <- resequence_restores.
  split; [intros E; injection E as E; exact E | intros ->; reflexivity].
Qed.

(** ** Round trips *)

Section AnyView.

Variables (s : TextArranger) (c : list Node) (ls : list Line).
Hypothesis Hcontainer : container s = Some c.
Hypothesis Hdata : data s = DataLines ls.

Lemma after_addLine_deleteLine index :
  (0 <= index <= Z.of_nat (length (flushLines c ls)))%Z ->
  exists s1 s2,
    addLine index s = Ok s1 /\
    data s1
    = DataLines (resequence (splice index 0 [newLine] (flushLines c ls))) /\
    deleteLine index s1 = Ok s2 /\
    data s2 = DataLines (resequence (flushLines c ls)) /\
    pendingDeleteIndex s2 = None.
Proof.
  intros Hi. rewrite (addLine_lines _ _ _ index Hcontainer Hdata).
  cbv zeta.
  set (ls1 := resequence (splice index 0 [newLine] (flushLines c ls))).
  eexists.
  edestruct (deleteLine_lines
               (setContainer (renderedChildren (pendingDeleteIndex s) ls1)
                             (setData (DataLines ls1) s))
               _ ls1 index eq_refl eq_refl) as (s2 & E & D & _ & P & _).
  exists s2. split; [reflexivity|]. split; [reflexivity|].
  split; [exact E|]. split; [|exact P].
  rewrite D. f_equal. rewrite flushLines_rendered.
  unfold resequence. apply resequenceFrom_ext.
  rewrite splice_map. unfold ls1, resequence.
  rewrite resequenceFrom_idem, resequenceFrom_text, splice_map.
  simpl map at 1 2. apply splice_insert_delete.
  rewrite length_map. exact Hi.
Qed.

Lemma after_deleteLine_beyond index :
  flushLines c ls = [] \/ (Z.of_nat (length (flushLines c ls)) <= index)%Z ->
  exists s', deleteLine index s = Ok s' /\
             data s' = DataLines (resequence (flushLines c ls)) /\
             pendingDeleteIndex s' = None /\ console s' = console s.
Proof.
  intros Hi.
  destruct (deleteLine_lines s c ls index Hcontainer Hdata)
    as (s' & E & D & _ & P & L).
  exists s'.
  assert (Hs : splice index 1 [] (flushLines c ls) = flushLines c ls).
  { destruct Hi as [-> | Hi];
      [apply splice_delete_empty | apply splice_delete_beyond, Hi]. }
  rewrite Hs in D. auto.
Qed.

Lemma after_requestDelete_cancelDelete index :
  exists s1 s2,
    requestDelete index s = Ok s1 /\
    data s1 = DataLines (flushLines c ls) /\
    pendingDeleteIndex s1 = Some index /\
    cancelDelete s1 = Ok s2 /\
    data s2 = DataLines (resequence (flushLines c ls)) /\
    pendingDeleteIndex s2 = None /\ promptRow s2 = None /\
    console s2 = console s.
Proof.
  rewrite (requestDelete_lines _ _ _ index Hcontainer Hdata).
  eexists. eexists. split; [reflexivity|].
  split; [reflexivity|]. split; [reflexivity|].
  erewrite cancelDelete_lines; [|reflexivity|reflexivity].
  split; [reflexivity|]. rewrite flushLines_rendered. simpl.
  repeat split. unfold promptRow. simpl. apply find_prompt_none.
Qed.

End AnyView.

(** C5 as stated fails.  Every editing method opens with a flush that
    rebuilds [data.lines] from the view, numbering the rows [1..N].  A
    document that a caller supplied with other line numbers comes back from
    [addLine(1)] and [deleteLine(1)] numbered [1, 2, 3]; and with ["B!"]
    typed into the second row of the rendered document [A, B, C], whose
    model still reads [A, B, C], the same two calls leave [A, B!, C]. *)
Lemma addLine_deleteLine_changes_the_document :
  (linesOf (mounted docTens) = docTens /\
   exists s1 s2,
     addLine 1 (mounted docTens) = Ok s1 /\ deleteLine 1 s1 = Ok s2 /\
     linesOf s2 = [mkLine 1 "A"; mkLine 2 "B"; mkLine 3 "C"] /\
     linesOf s2 <> docTens) /\
  (linesOf typedIntoB = docABC /\
   exists s1 s2,
     addLine 1 typedIntoB = Ok s1 /\ deleteLine 1 s1 = Ok s2 /\
     linesOf s2 = [mkLine 1 "A"; mkLine 2 "B!"; mkLine 3 "C"] /\
     linesOf s2 <> docABC).
Proof.
  split; (split; [reflexivity|]); eexists; eexists;
    (split; [reflexivity|]); (split; [reflexivity|]);
    (split; [reflexivity | discriminate]).
Qed.

(** C5, amended.  In any state of a component with a container and a line
    list, and for [0 <= i <= N], where [N] counts the lines once the opening
    flush of [addLine] has captured the view: [addLine(i)] inserts one blank
    line at [i] and [deleteLine(i)] takes it out again, leaving exactly the
    lines that flush captured, in their order, numbered [1..N].  That is the
    document from before the insert exactly when it was numbered [1..N] and
    had the texts the flush captures. *)
Theorem addLine_deleteLine_roundtrip (s : TextArranger) (c : list Node)
        (ls : list Line) (i : Z) :
  container s = Some c -> data s = DataLines ls ->
  (0 <= i <= Z.of_nat (length (flushLines c ls)))%Z ->
  syncDataFromDOM s = Ok (setData (DataLines (flushLines c ls)) s) /\
  exists s1 s2,
    addLine i s = Ok s1 /\
    map text (linesOf s1)
    = firstn (Z.to_nat i) (map text (flushLines c ls))
        ++ "" :: skipn (Z.to_nat i) (map text (flushLines c ls)) /\
    deleteLine i s1 = Ok s2 /\
    data s2 = DataLines (resequence (flushLines c ls)) /\
    map text (linesOf s2) = map text (flushLines c ls) /\
    numbered (linesOf s2) /\
    (data s2 = data s <->
     numbered ls /\ map text ls = map text (flushLines c ls)).
Proof.
  intros Hc Hd Hi. split; [apply syncDataFromDOM_lines; assumption|].
  destruct (after_addLine_deleteLine s c ls Hc Hd i Hi)
    as (s1 & s2 & A & D1 & E & D2 & _).
  exists s1, s2. unfold linesOf. rewrite D1, D2.
  split; [exact A|]. split; [|split; [exact E|]].
  - unfold resequence. rewrite resequenceFrom_text, splice_map.
    unfold splice. rewrite length_map, spliceStart_inside by exact Hi.
    rewrite Nat.add_0_r. reflexivity.
  - split; [reflexivity|].
    split; [apply resequenceFrom_text|].
    split; [apply resequence_numbered|].
    rewrite <- D2. apply (data_restored s ls _ _ Hd D2).
Qed.

Lemma addLine_deleteLine_roundtrip_witness :
  exists s1 s2,
    addLine 1 typedIntoB = Ok s1 /\
    map text (linesOf s1) = ["A"; ""; "B!"; "C"] /\
    deleteLine 1 s1 = Ok s2 /\
    linesOf s2 = [mkLine 1 "A"; mkLine 2 "B!"; mkLine 3 "C"].
Proof.
  destruct (addLine_deleteLine_roundtrip typedIntoB (childrenOf typedIntoB)
              docABC 1)
    as (_ & s1 & s2 & A & T & E & D & _); try reflexivity.
  - simpl. lia.
  - exists s1, s2. split; [exact A|]. split; [exact T|]. split; [exact E|].
    unfold linesOf. rewrite D. reflexivity.
Defined.

(** C6 as stated fails: an index below [0] is outside [0 <= i < N], yet
    [deleteLine(-1)] removes the last line. *)
Lemma deleteLine_negative_index_removes_a_line :
  length (linesOf (mounted docABC)) = 3 /\
  ~ (0 <= -1 < 3)%Z /\
  returns (deleteLine (-1) (mounted docABC)) = true /\
  linesOf (after (deleteLine (-1) (mounted docABC)))
  = [mkLine 1 "A"; mkLine 2 "B"] /\
  linesOf (after (deleteLine (-1) (mounted docABC)))
  <> linesOf (mounted docABC).
Proof.
  split; [reflexivity|]. split; [lia|]. split; [reflexivity|].
  split; [reflexivity | discriminate].
Qed.

(** C6, amended.  In any state of a component with a container and a line
    list, [deleteLine(i)] with [N = 0] or [i >= N], where [N] counts the
    lines once the opening flush has captured the view, returns normally and
    removes nothing: it leaves exactly the lines that flush captured, in
    their order, numbered [1..N], which is the document from before the call
    exactly when that was numbered [1..N] and had the texts the flush
    captures; nothing is logged, and no prompt stays pending. *)
Theorem deleteLine_beyond_end_keeps_lines (s : TextArranger) (c : list Node)
        (ls : list Line) (i : Z) :
  container s = Some c -> data s = DataLines ls ->
  length (flushLines c ls) = 0
  \/ (Z.of_nat (length (flushLines c ls)) <= i)%Z ->
  syncDataFromDOM s = Ok (setData (DataLines (flushLines c ls)) s) /\
  exists s',
    deleteLine i s = Ok s' /\
    data s' = DataLines (resequence (flushLines c ls)) /\
    map text (linesOf s') = map text (flushLines c ls) /\
    numbered (linesOf s') /\
    (data s' = data s <->
     numbered ls /\ map text ls = map text (flushLines c ls)) /\
    console s' = console s /\
    pendingDeleteIndex s' = None.
Proof.
  intros Hc Hd Hi. split; [apply syncDataFromDOM_lines; assumption|].
  assert (Hi' : flushLines c ls = []
                \/ (Z.of_nat (length (flushLines c ls)) <= i)%Z).
  { destruct Hi as [Hi | Hi]; [left | right; exact Hi].
    destruct (flushLines c ls); [reflexivity | discriminate]. }
  destruct (after_deleteLine_beyond s c ls Hc Hd i Hi')
    as (s' & E & D & P & L).
  exists s'. unfold linesOf. rewrite D.
  split; [exact E|]. split; [reflexivity|].
  split; [apply resequenceFrom_text|].
  split; [apply resequence_numbered|].
  split; [|auto].
  rewrite <- D. apply (data_restored s ls _ _ Hd D).
Qed.

Lemma deleteLine_beyond_end_keeps_lines_witness :
  exists s',
    deleteLine 3 typedIntoB = Ok s' /\
    linesOf s' = [mkLine 1 "A"; mkLine 2 "B!"; mkLine 3 "C"] /\
    console s' = console typedIntoB /\
    pendingDeleteIndex s' = None.
Proof.
  destruct (deleteLine_beyond_end_keeps_lines typedIntoB
              (childrenOf typedIntoB) docABC 3)
    as (_ & s' & E & D & _ & _ & _ & L & P); try reflexivity.
  - right. simpl. lia.
  - exists s'. split; [exact E|]. unfold linesOf. rewrite D.
    split; [reflexivity|]. split; [exact L | exact P].
Defined.

(** C7 as stated fails: indices are 0-based, so [requestDelete(2)] then
    [confirm()] deletes the third line, ["C"], not ["B"]. *)
Lemma requestDelete_2_confirm_is_not_A_C :
  linesOf (after (confirm (after (requestDelete 2 (mounted docABC)))))
  <> [mkLine 1 "A"; mkLine 2 "C"].
Proof. discriminate. Qed.

(** C7, amended.  For the document [{1,"A"},{2,"B"},{3,"C"}],
    [requestDelete(2)] shows the prompt on the third row and [confirm()]
    then yields [{1,"A"},{2,"B"}] with no delete pending; it is
    [requestDelete(1)] then [confirm()] that yields [{1,"A"},{2,"C"}]. *)
Theorem requestDelete_confirm_scenario :
  (exists s1 s2,
     requestDelete 2 (mounted docABC) = Ok s1 /\
     pendingDeleteIndex s1 = Some 2%Z /\
     option_map colText (promptRow s1) = Some (Some "C") /\
     confirm s1 = Ok s2 /\
     data s2 = DataLines [mkLine 1 "A"; mkLine 2 "B"] /\
     pendingDeleteIndex s2 = None) /\
  (exists s1 s2,
     requestDelete 1 (mounted docABC) = Ok s1 /\
     confirm s1 = Ok s2 /\
     data s2 = DataLines [mkLine 1 "A"; mkLine 2 "C"] /\
     pendingDeleteIndex s2 = None).
Proof.
  split.
  - eexists. eexists. split; [reflexivity|]. split; [reflexivity|].
    split; [reflexivity|]. split; [reflexivity|]. split; reflexivity.
  - eexists. eexists. split; [reflexivity|]. split; [reflexivity|].
    split; reflexivity.
Qed.

(** C8 as stated fails.  [requestDelete] opens with the flush, and so does
    [cancelDelete]: the pair is not a view-only change.  A document that a
    caller supplied with other line numbers comes back numbered [1, 2, 3];
    and with ["B!"] typed into the second row of the rendered document
    [A, B, C], whose model still reads [A, B, C], the pair leaves
    [A, B!, C]. *)
Lemma requestDelete_cancel_changes_the_document :
  (linesOf (mounted docTens) = docTens /\
   exists s1 s2,
     requestDelete 2 (mounted docTens) = Ok s1 /\ cancel s1 = Ok s2 /\
     linesOf s2 = [mkLine 1 "A"; mkLine 2 "B"; mkLine 3 "C"] /\
     linesOf s2 <> docTens) /\
  (linesOf typedIntoB = docABC /\
   exists s1 s2,
     requestDelete 2 typedIntoB = Ok s1 /\ cancel s1 = Ok s2 /\
     linesOf s2 = [mkLine 1 "A"; mkLine 2 "B!"; mkLine 3 "C"] /\
     linesOf s2 <> docABC).
Proof.
  split; (split; [reflexivity|]); eexists; eexists;
    (split; [reflexivity|]); (split; [reflexivity|]);
    (split; [reflexivity | discriminate]).
Qed.

(** C8, amended.  In any state of a component with a container and a line
    list, and for a row index [i < N], where [N] counts the lines once the
    opening flush of [requestDelete] has captured the view:
    [requestDelete(i)] stores the lines that flush captured and shows the
    prompt on row [i]; [cancel()] then returns with no delete pending and no
    prompt shown, and leaves exactly those lines, in their order, numbered
    [1..N].  That is the document from before the request exactly when it
    was numbered [1..N] and had the texts the flush captures. *)
Theorem requestDelete_cancel_restores (s : TextArranger) (c : list Node)
        (ls : list Line) (i : nat) :
  container s = Some c -> data s = DataLines ls ->
  i < length (flushLines c ls) ->
  syncDataFromDOM s = Ok (setData (DataLines (flushLines c ls)) s) /\
  exists s1 s2,
    requestDelete (Z.of_nat i) s = Ok s1 /\
    data s1 = DataLines (flushLines c ls) /\
    pendingDeleteIndex s1 = Some (Z.of_nat i) /\
    option_map rowIndex (promptRow s1) = Some i /\
    cancel s1 = Ok s2 /\
    cancelDelete s1 = Ok s2 /\
    data s2 = DataLines (resequence (flushLines c ls)) /\
    map text (linesOf s2) = map text (flushLines c ls) /\
    numbered (linesOf s2) /\
    (data s2 = data s <->
     numbered ls /\ map text ls = map text (flushLines c ls)) /\
    pendingDeleteIndex s2 = None /\
    promptRow s2 = None.
Proof.
  intros Hc Hd Hi. split; [apply syncDataFromDOM_lines; assumption|].
  destruct (after_requestDelete_cancelDelete s c ls Hc Hd (Z.of_nat i))
    as (s1 & s2 & R & D1 & P1 & C & D2 & P2 & Q2 & _).
  destruct (nth_error (flushLines c ls) i) as [l|] eqn:Hn;
    [| apply nth_error_None in Hn; lia].
  pose proof (promptRow_requested s c ls i l Hc Hd Hn) as Hp.
  rewrite R in Hp. simpl in Hp.
  exists s1, s2. unfold cancel. rewrite Hp. unfold linesOf. rewrite D2.
  repeat (split; [first [assumption | reflexivity]|]).
  split; [apply resequenceFrom_text|].
  split; [apply resequence_numbered|].
  split; [|auto].
  rewrite <- D2. apply (data_restored s ls _ _ Hd D2).
Qed.

Lemma requestDelete_cancel_restores_witness :
  exists s1 s2,
    requestDelete 2 typedIntoB = Ok s1 /\
    option_map rowIndex (promptRow s1) = Some 2 /\
    cancel s1 = Ok s2 /\
    linesOf s2 = [mkLine 1 "A"; mkLine 2 "B!"; mkLine 3 "C"] /\
    pendingDeleteIndex s2 = None /\
    promptRow s2 = None.
Proof.
  destruct (requestDelete_cancel_restores typedIntoB (childrenOf typedIntoB)
              docABC 2)
    as (_ & s1 & s2 & R & _ & _ & Q1 & C & _ & D & _ & _ & _ & P & Q2);
    try reflexivity.
  - simpl. lia.
  - exists s1, s2. split; [exact R|]. split; [exact Q1|]. split; [exact C|].
    unfold linesOf. rewrite D. split; [reflexivity|]. auto.
Defined.

(** C9 as stated fails: [render()] empties the container before it looks at
    the data, so the rows of the previous render are gone. *)
Lemma render_invalid_data_clears_view :
  listGroupItems (renderedChildren None docABC) <> [] /\
  container (setData DataAbsent (mounted docABC))
  = Some (renderedChildren None docABC) /\
  returns (render (setData DataAbsent (mounted docABC))) = true /\
  container (after (render (setData DataAbsent (mounted docABC)))) = Some [] /\
  container (after (render (setData DataAbsent (mounted docABC))))
  <> container (setData DataAbsent (mounted docABC)).
Proof.
  split; [discriminate|]. split; [reflexivity|]. split; [reflexivity|].
  split; [reflexivity | discriminate].
Qed.

(** C9, amended.  When [data] is absent or has no [lines], [render()]
    returns after logging ["Invalid data format"]: nothing is rendered, no
    row and no divider, the container is left empty, and the model is not
    touched. *)
Theorem render_invalid_data_logs_and_aborts (s : TextArranger) (c : list Node) :
  container s = Some c ->
  data s = DataAbsent \/ data s = DataNoLines ->
  exists s',
    render s = Ok s' /\
    console s' = console s ++ ["Invalid data format"] /\
    container s' = Some [] /\
    data s' = data s /\
    pendingDeleteIndex s' = pendingDeleteIndex s /\
    outputArea s' = outputArea s.
Proof.
  intros Hc Hd. unfold render. rewrite Hc. simpl.
  destruct Hd as [Hd | Hd]; rewrite Hd; eexists;
    (split; [reflexivity|]); simpl; rewrite ?Hd; auto.
Qed.

Lemma render_invalid_data_logs_and_aborts_witness :
  exists s',
    render (setData DataAbsent (mounted docABC)) = Ok s' /\
    console s' = console (setData DataAbsent (mounted docABC))
                 ++ ["Invalid data format"] /\
    container s' = Some [] /\
    data s' = data (setData DataAbsent (mounted docABC)) /\
    pendingDeleteIndex s' = pendingDeleteIndex (setData DataAbsent (mounted docABC)) /\
    outputArea s' = outputArea (setData DataAbsent (mounted docABC)).
Proof.
  apply (render_invalid_data_logs_and_aborts
           (setData DataAbsent (mounted docABC))
           (renderedChildren None docABC)).
  - reflexivity.
  - left. reflexivity.
Defined.

(** ** The insertion anchor *)

(** ** The order of doubles *)

Ltac order_cases :=
  repeat match goal with
  | |- context [Z.compare ?a ?b] => destruct (Z.compare_spec a b); subst
  | H : context [Z.compare ?a ?b] |- _ => destruct (Z.compare_spec a b); subst
  | |- context [Pos.compare_cont Eq ?a ?b] =>
      change (Pos.compare_cont Eq a b) with (Pos.compare a b);
      destruct (Pos.compare_spec a b); subst
  | H : context [Pos.compare_cont Eq ?a ?b] |- _ =>
      change (Pos.compare_cont Eq a b) with (Pos.compare a b) in H;
      destruct (Pos.compare_spec a b); subst
  end.

Ltac by_order_cases :=
  order_cases; simpl in *; try discriminate; try reflexivity; try lia.

Lemma ltb_trans a b c :
  Double.ltb a b = true -> Double.ltb b c = true -> Double.ltb a c = true.
Proof.
  unfold Double.ltb, SFltb, SFcompare.
  destruct a as [[]|[]| |[] m1 e1], b as [[]|[]| |[] m2 e2],
           c as [[]|[]| |[] m3 e3];
    try discriminate; try reflexivity; intros H1 H2; by_order_cases.
Qed.

Lemma leb_ltb_trans a b c :
  Double.leb a b = true -> Double.ltb b c = true -> Double.ltb a c = true.
Proof.
  unfold Double.leb, Double.ltb, SFleb, SFltb, SFcompare.
  destruct a as [[]|[]| |[] m1 e1], b as [[]|[]| |[] m2 e2],
           c as [[]|[]| |[] m3 e3];
    try discriminate; try reflexivity; intros H1 H2; by_order_cases.
Qed.

(** Two numbers below a third are comparable: none of them is [NaN]. *)
Lemma ltb_false_leb a b z :
  Double.ltb a z = true -> Double.ltb b z = true ->
  Double.ltb a b = false -> Double.leb b a = true.
Proof.
  unfold Double.leb, Double.ltb, SFleb, SFltb, SFcompare.
  destruct a as [[]|[]| |[] m1 e1], b as [[]|[]| |[] m2 e2];
    try discriminate; try reflexivity;
    destruct z as [[]|[]| |[] m3 e3];
    try discriminate; try reflexivity; intros H1 H2 H3; by_order_cases.
Qed.

(** ** The value of a finite double *)

Lemma digits2_pos_bounds m :
  (2 ^ (Zpos (digits2_pos m) - 1) <= Zpos m < 2 ^ Zpos (digits2_pos m))%Z.
Proof.
  induction m as [m IH | m IH |]; cbn [digits2_pos].
  - rewrite Pos2Z.inj_succ.
    replace (Z.succ (Zpos (digits2_pos m)) - 1)%Z
      with (Z.succ (Zpos (digits2_pos m) - 1))%Z by lia.
    rewrite !Z.pow_succ_r by lia. lia.
  - rewrite Pos2Z.inj_succ.
    replace (Z.succ (Zpos (digits2_pos m)) - 1)%Z
      with (Z.succ (Zpos (digits2_pos m) - 1))%Z by lia.
    rewrite !Z.pow_succ_r by lia. lia.
  - simpl. lia.
Qed.

(** A canonical mantissa has at most 53 bits, and exactly 53 above the
    smallest exponent. *)
Lemma bounded_mantissa m e :
  bounded Double.prec Double.emax m e = true ->
  (-1074 <= e)%Z /\ (Zpos m < 2 ^ 53)%Z /\
  ((-1074 < e)%Z -> (2 ^ 52 <= Zpos m)%Z).
Proof.
  unfold bounded, canonical_mantissa, fexp, emin, Double.prec, Double.emax.
  intros H. apply andb_true_iff in H. destruct H as [H _].
  apply Z.eqb_eq in H.
  pose proof (digits2_pos_bounds m) as [Hlo Hhi].
  assert (Hd : (Zpos (digits2_pos m) <= 53)%Z) by lia.
  split; [lia|]. split.
  - eapply Z.lt_le_trans; [exact Hhi|].
    apply Z.pow_le_mono_r; lia.
  - intros He. assert (Zpos (digits2_pos m) = 53%Z) as E by lia.
    rewrite E in Hlo. exact Hlo.
Qed.

Lemma ulps_lt_exponent m1 e1 m2 e2 :
  bounded Double.prec Double.emax m1 e1 = true ->
  bounded Double.prec Double.emax m2 e2 = true ->
  (e1 < e2)%Z ->
  (Zpos m1 * 2 ^ (e1 + 1074) < Zpos m2 * 2 ^ (e2 + 1074))%Z.
Proof.
  intros H1 H2 He.
  destruct (bounded_mantissa _ _ H1) as (L1 & U1 & _).
  destruct (bounded_mantissa _ _ H2) as (L2 & _ & N2).
  specialize (N2 ltac:(lia)).
  replace (e2 + 1074)%Z with ((e1 + 1074) + 1 + (e2 - e1 - 1))%Z by lia.
  rewrite (Z.pow_add_r 2 (e1 + 1074 + 1) (e2 - e1 - 1)) by lia.
  rewrite (Z.pow_add_r 2 (e1 + 1074) 1) by lia.
  assert (P : (0 < 2 ^ (e1 + 1074))%Z) by (apply Z.pow_pos_nonneg; lia).
  assert (Q : (1 <= 2 ^ (e2 - e1 - 1))%Z)
    by (apply (Z.pow_le_mono_r 2 0); lia).
  change (2 ^ 1)%Z with 2%Z.
  change (2 ^ 53)%Z with (2 * 2 ^ 52)%Z in U1.
  set (B := (2 ^ 52)%Z) in *.
  set (P' := (2 ^ (e1 + 1074))%Z) in *. set (Q' := (2 ^ (e2 - e1 - 1))%Z) in *.
  assert (S1 : (Zpos m1 * P' < 2 * B * P')%Z) by nia.
  assert (S2 : (2 * B * P' <= Zpos m2 * (P' * 2))%Z) by nia.
  assert (S3 : (Zpos m2 * (P' * 2) * 1 <= Zpos m2 * (P' * 2) * Q')%Z)
    by (apply Z.mul_le_mono_nonneg_l; lia).
  lia.
Qed.

Lemma ulps_positive m e :
  bounded Double.prec Double.emax m e = true ->
  (0 < Zpos m * 2 ^ (e + 1074))%Z.
Proof.
  intros F. destruct (bounded_mantissa _ _ F) as (L & _).
  apply Z.mul_pos_pos; [lia | apply Z.pow_pos_nonneg; lia].
Qed.

Lemma ltb_ulps a b :
  Double.finite a = true -> Double.finite b = true ->
  (Double.ltb a b = true <-> (Double.ulps a < Double.ulps b)%Z).
Proof.
  unfold Double.finite, Double.ltb, SFltb, SFcompare, Double.ulps.
  destruct a as [s1| | |s1 m1 e1], b as [s2| | |s2 m2 e2];
    try discriminate; intros F1 F2.
  - split; [discriminate | lia].
  - pose proof (ulps_positive _ _ F2) as P2.
    set (u2 := (Zpos m2 * 2 ^ (e2 + 1074))%Z) in *.
    destruct s2; unfold cond_Zopp; split; try discriminate; try reflexivity; lia.
  - pose proof (ulps_positive _ _ F1) as P1.
    set (u1 := (Zpos m1 * 2 ^ (e1 + 1074))%Z) in *.
    destruct s1; unfold cond_Zopp; split; try discriminate; try reflexivity; lia.
  - pose proof (ulps_positive _ _ F1) as P1.
    pose proof (ulps_positive _ _ F2) as P2.
    pose proof (ulps_lt_exponent _ _ _ _ F1 F2) as Hlt.
    pose proof (ulps_lt_exponent _ _ _ _ F2 F1) as Hgt.
    assert (Heq : e1 = e2 ->
                  ((Zpos m1 < Zpos m2)%Z <->
                   (Zpos m1 * 2 ^ (e1 + 1074) < Zpos m2 * 2 ^ (e2 + 1074))%Z)).
    { intros <-. apply Z.mul_lt_mono_pos_r, Z.pow_pos_nonneg;
        [lia | destruct (bounded_mantissa _ _ F1); lia]. }
    assert (Heq' : e1 = e2 ->
                   ((Zpos m2 < Zpos m1)%Z <->
                    (Zpos m2 * 2 ^ (e2 + 1074) < Zpos m1 * 2 ^ (e1 + 1074))%Z)).
    { intros <-. apply Z.mul_lt_mono_pos_r, Z.pow_pos_nonneg;
        [lia | destruct (bounded_mantissa _ _ F1); lia]. }
    assert (Hsame : e1 = e2 -> m1 = m2 ->
                    (Zpos m1 * 2 ^ (e1 + 1074) = Zpos m2 * 2 ^ (e2 + 1074))%Z)
      by (intros -> ->; reflexivity).
    set (u1 := (Zpos m1 * 2 ^ (e1 + 1074))%Z) in *.
    set (u2 := (Zpos m2 * 2 ^ (e2 + 1074))%Z) in *.
    change (Pos.compare_cont Eq m1 m2) with (Pos.compare m1 m2).
    destruct s1, s2; unfold cond_Zopp;
      destruct (Z.compare_spec e1 e2) as [E|E|E];
      try (destruct (Pos.compare_spec m1 m2) as [M|M|M]);
      cbn [CompOpp]; split; intros; try discriminate; try reflexivity;
      try lia;
      try (exfalso; specialize (Heq E); specialize (Heq' E);
           try specialize (Hsame E M); lia);
      try (specialize (Heq E); specialize (Heq' E); lia).
Qed.

Lemma leb_ulps a b :
  Double.finite a = true -> Double.finite b = true ->
  Double.leb a b = true -> (Double.ulps a <= Double.ulps b)%Z.
Proof.
  intros Fa Fb H.
  destruct (Z.le_gt_cases (Double.ulps a) (Double.ulps b)) as [L|L];
    [exact L | exfalso].
  apply (ltb_ulps b a Fb Fa) in L. revert H L.
  unfold Double.leb, Double.ltb, SFleb, SFltb, SFcompare.
  destruct a as [[]|[]| |[] m1 e1], b as [[]|[]| |[] m2 e2];
    try discriminate; intros H1 H2; by_order_cases.
Qed.

Lemma finite_above_NEGATIVE_INFINITY x :
  Double.finite x = true -> Double.ltb Double.NEGATIVE_INFINITY x = true.
Proof. destruct x as [[]|[]| |[] m e]; try discriminate; reflexivity. Qed.

Section Anchor.

Variable getBoundingClientRect : Row -> DOMRect.

Local Abbreviation mid := (midpoint getBoundingClientRect).
Local Abbreviation below := (belowPointer getBoundingClientRect).
Local Abbreviation nearest := (nearestBelow getBoundingClientRect).
Local Abbreviation off := (offsetOf getBoundingClientRect).
Local Abbreviation fit := (eligible getBoundingClientRect).
Local Abbreviation greatest := (greatestOffset getBoundingClientRect).
Local Abbreviation exact := (exactOffset getBoundingClientRect).
Local Abbreviation visitedAll := (reduced getBoundingClientRect).
Local Abbreviation step := (closer getBoundingClientRect).

Lemma closer_reduced y rows closest child :
  visitedAll y rows closest ->
  visitedAll y (rows ++ [child]) (step y closest child).
Proof.
  unfold reduced, closer.
  fold (off y child).
  destruct closest as [o [r|]]; cbn [offset element].
  - intros [-> (pre & post & -> & Hr & Hpre & Hpost)].
    pose proof Hr as Hr'. unfold eligible in Hr'.
    apply andb_true_iff in Hr'. destruct Hr' as [Hr0 Hrinf].
    destruct (Double.ltb (off y child) (Double.ofZ 0)) eqn:E1;
      [destruct (Double.ltb (off y r) (off y child)) eqn:E2|];
      cbn [andb offset element].
    + split; [reflexivity|]. exists (pre ++ r :: post), [].
      split; [reflexivity|]. split.
      { unfold eligible. rewrite E1. cbn [andb].
        eapply ltb_trans; eassumption. }
      split; [|intros ? []].
      intros r' Hin Hb. apply in_app_or in Hin.
      destruct Hin as [Hin | [<- | Hin]].
      * eapply ltb_trans; [apply Hpre; assumption | exact E2].
      * exact E2.
      * eapply leb_ltb_trans; [apply Hpost; assumption | exact E2].
    + split; [reflexivity|]. exists pre, (post ++ [child]).
      split; [rewrite <- app_assoc; reflexivity|]. split; [exact Hr|].
      split; [exact Hpre|]. intros r' Hin Hb. apply in_app_or in Hin.
      destruct Hin as [Hin | [<- | []]]; [apply Hpost; assumption|].
      apply (ltb_false_leb _ _ (Double.ofZ 0)); assumption.
    + split; [reflexivity|]. exists pre, (post ++ [child]).
      split; [rewrite <- app_assoc; reflexivity|]. split; [exact Hr|].
      split; [exact Hpre|]. intros r' Hin Hb. apply in_app_or in Hin.
      destruct Hin as [Hin | [<- | []]]; [apply Hpost; assumption|].
      unfold eligible in Hb. rewrite E1 in Hb. discriminate.
  - intros [-> Hnone].
    change (Double.ltb (off y child) (Double.ofZ 0)
            && Double.ltb Double.NEGATIVE_INFINITY (off y child))
      with (fit y child).
    destruct (fit y child) eqn:E; cbn [offset element].
    + split; [reflexivity|]. exists rows, [].
      split; [reflexivity|]. split; [exact E|].
      split; [|intros ? []]. intros r' Hin Hb.
      rewrite (Hnone _ Hin) in Hb. discriminate.
    + split; [reflexivity|]. intros r Hin. apply in_app_or in Hin.
      destruct Hin as [Hin | [<- | []]]; [apply Hnone; assumption | exact E].
Qed.

Lemma fold_closer_reduced y todo :
  forall visited closest,
    visitedAll y visited closest ->
    visitedAll y (visited ++ todo) (fold_left (step y) todo closest).
Proof.
  induction todo as [|child todo IH]; intros visited closest H;
    cbn [fold_left].
  - rewrite app_nil_r. exact H.
  - replace (visited ++ child :: todo) with ((visited ++ [child]) ++ todo)
      by (rewrite <- app_assoc; reflexivity).
    apply IH. apply closer_reduced. exact H.
Qed.

Lemma getDragAfterElement_reduced y c :
  match getDragAfterElement getBoundingClientRect y c with
  | None =>
      forall r, In r (filter notDragging (listGroupItems c)) ->
                fit y r = false
  | Some r => greatest y (filter notDragging (listGroupItems c)) r
  end.
Proof.
  unfold getDragAfterElement.
  pose proof (fold_closer_reduced y (filter notDragging (listGroupItems c))
                [] (mkClosest Double.NEGATIVE_INFINITY None)) as H.
  cbn [app] in H. unfold reduced in H at 1. cbn [offset element] in H.
  specialize (H (conj eq_refl (fun r (F : False) => match F with end))).
  unfold reduced in H.
  destruct (element _); tauto.
Qed.

(** Where no rounding happens, the computed offsets order the rows as
    their midpoints do. *)
Lemma eligible_exact y r : exact y r -> (fit y r = true <-> below y r).
Proof.
  intros (Fy & Ft & Fh & Fo & E). unfold eligible, belowPointer.
  rewrite andb_true_iff, (ltb_ulps _ _ Fo (eq_refl : Double.finite (Double.ofZ 0) = true)).
  rewrite (finite_above_NEGATIVE_INFINITY _ Fo).
  change (Double.ulps (Double.ofZ 0)) with 0%Z.
  split; [intros [H _] | intros H; split; [|reflexivity]]; lia.
Qed.

Lemma offsets_exact_lt y r r' :
  exact y r -> exact y r' ->
  Double.ltb (off y r') (off y r) = true -> (mid r < mid r')%Z.
Proof.
  intros (_ & _ & _ & Fo & E) (_ & _ & _ & Fo' & E') H.
  apply (ltb_ulps _ _ Fo' Fo) in H. lia.
Qed.

Lemma offsets_exact_le y r r' :
  exact y r -> exact y r' ->
  Double.leb (off y r') (off y r) = true -> (mid r <= mid r')%Z.
Proof.
  intros (_ & _ & _ & Fo & E) (_ & _ & _ & Fo' & E') H.
  apply (leb_ulps _ _ Fo' Fo) in H. lia.
Qed.

Lemma greatestOffset_nearestBelow y rows r :
  (forall r', In r' rows -> exact y r') ->
  greatest y rows r -> nearest y rows r.
Proof.
  intros Hex (pre & post & -> & Hr & Hpre & Hpost).
  assert (Er : exact y r) by (apply Hex, in_elt).
  exists pre, post. split; [reflexivity|].
  split; [apply eligible_exact; assumption|]. split.
  - intros r' Hin Hb.
    assert (Er' : exact y r') by (apply Hex, in_or_app; auto).
    apply (offsets_exact_lt y r r' Er Er'), Hpre; [exact Hin|].
    apply eligible_exact; assumption.
  - intros r' Hin Hb.
    assert (Er' : exact y r') by (apply Hex, in_or_app; simpl; auto).
    apply (offsets_exact_le y r r' Er Er'), Hpost; [exact Hin|].
    apply eligible_exact; assumption.
Qed.

End Anchor.

(** ** Moving the dragged block *)

Lemma filter_filter_and {A : Type} (p q : A -> bool) l :
  filter p (filter q l) = filter (fun x => q x && p x) l.
Proof.
  induction l as [|x l IH]; simpl; [reflexivity|].
  destruct (q x); simpl; [destruct (p x)|]; rewrite ?IH; reflexivity.
Qed.

Lemma NoDup_map_injective {A B : Type} (f : A -> B) l a b :
  NoDup (map f l) -> In a l -> In b l -> f a = f b -> a = b.
Proof.
  induction l as [|x l IH]; simpl; intros Hnd Ha Hb E; [tauto|].
  inversion Hnd as [|? ? Hx Hl]; subst.
  destruct Ha as [-> | Ha], Hb as [-> | Hb]; auto.
  - exfalso. apply Hx. rewrite E. apply in_map. exact Hb.
  - exfalso. apply Hx. rewrite <- E. apply in_map. exact Ha.
Qed.

Lemma NoDup_map_filter {A B : Type} (f : A -> B) p l :
  NoDup (map f l) -> NoDup (map f (filter p l)).
Proof.
  induction l as [|x l IH]; simpl; intros H; [constructor|].
  inversion H as [|? ? Hx Hl]; subst.
  destruct (p x); simpl; auto. constructor; auto.
  intros Hin. apply Hx. apply in_map_iff in Hin.
  destruct Hin as (z & E & Hz). apply filter_In in Hz.
  rewrite <- E. apply in_map. tauto.
Qed.

Lemma listGroupItems_In r c : In r (listGroupItems c) <-> In (Item r) c.
Proof.
  induction c as [|[id k | r'] c IH]; simpl; [tauto | |].
  - rewrite IH. split; [auto | intros [H | H]; [discriminate | auto]].
  - rewrite IH. split; intros [H | H]; auto; left; congruence.
Qed.

Lemma rowIds_incl c id :
  In id (map rowId (listGroupItems c)) -> In id (map nodeId c).
Proof.
  rewrite !in_map_iff. intros (r & E & H). exists (Item r).
  rewrite <- listGroupItems_In. auto.
Qed.

Lemma distinctNodes_rows c :
  distinctNodes c -> NoDup (map rowId (listGroupItems c)).
Proof.
  unfold distinctNodes.
  induction c as [|[id k | r] c IH]; simpl; intros H; [constructor | |];
    inversion H as [|? ? Hx Hl]; subst; auto.
  constructor; auto. intros Hin. apply Hx. apply rowIds_incl. exact Hin.
Qed.

Lemma draggedNode_filter c :
  map Item (filter dragging (listGroupItems c)) = filter draggedNode c.
Proof.
  induction c as [|[id k | r] c IH]; simpl; auto.
  destruct (dragging r); simpl; rewrite IH; reflexivity.
Qed.

Lemma memId_In id ids : memId id ids = true <-> In id ids.
Proof.
  unfold memId. rewrite existsb_exists. split.
  - intros (x & H & E). apply Nat.eqb_eq in E. subst. exact H.
  - intros H. exists id. split; [exact H | apply Nat.eqb_refl].
Qed.

Lemma moveDraggables_append ds :
  forall c, NoDup (map rowId ds) ->
  moveDraggables None ds c
  = inl (filter (fun n => negb (memId (nodeId n) (map rowId ds))) c
           ++ map Item ds).
Proof.
  induction ds as [|d ds IH]; intros c Hnd; simpl.
  - rewrite filter_true, app_nil_r. reflexivity.
  - inversion Hnd as [|? ? Hd Hds]; subst.
    rewrite IH by exact Hds. f_equal.
    unfold appendChild, removeChild. rewrite filter_app, filter_filter_and.
    simpl. replace (memId (rowId d) (map rowId ds)) with false
      by (symmetry; apply not_true_iff_false; rewrite memId_In; exact Hd).
    simpl. rewrite <- app_assoc. simpl. f_equal.
    apply filter_ext. intros n. rewrite negb_orb. reflexivity.
Qed.

Lemma dragged_ids c n :
  distinctNodes c -> In n c ->
  memId (nodeId n) (map rowId (filter dragging (listGroupItems c)))
  = draggedNode n.
Proof.
  intros Hnd Hn. apply eq_true_iff_eq. rewrite memId_In, in_map_iff. split.
  - intros (r & E & Hr). apply filter_In in Hr. destruct Hr as [Hr Hdr].
    apply listGroupItems_In in Hr.
    assert (n = Item r) as ->
        by (apply (NoDup_map_injective nodeId c); auto).
    exact Hdr.
  - destruct n as [id k | r]; simpl; [discriminate|]. intros Hdr.
    exists r. split; [reflexivity|]. apply filter_In.
    rewrite listGroupItems_In. auto.
Qed.

Section AnchorClaim.

Variable getBoundingClientRect : Row -> DOMRect.

(** C4, amended.  For each row that is not being dragged,
    [getDragAfterElement(y)] computes the offset [y - top - height / 2] in
    double arithmetic.  Among those rows, in document order, it returns the
    first of the rows whose computed offset is negative (and above
    [-Infinity]) and greatest; it returns nothing exactly when no such row
    has a computed offset of that kind, and [handleDragOver] then moves the
    dragged rows, in their order, to the end of the container.  Whenever
    no rounding happens in the offsets, the row returned is the first of
    those whose midpoint is below the pointer and closest to it, and nothing
    is returned exactly when no midpoint is below the pointer. *)
Theorem getDragAfterElement_greatest_computed_offset
        (y : Double.t) (c : list Node) :
  let rows := filter notDragging (listGroupItems c) in
  (forall r, getDragAfterElement getBoundingClientRect y c = Some r ->
             greatestOffset getBoundingClientRect y rows r) /\
  (getDragAfterElement getBoundingClientRect y c = None <->
   forall r, In r rows -> eligible getBoundingClientRect y r = false) /\
  (forall s, container s = Some c -> distinctNodes c ->
             getDragAfterElement getBoundingClientRect y c = None ->
             handleDragOver getBoundingClientRect y s
             = Ok (setContainer
                     (filter (fun n => negb (draggedNode n)) c
                        ++ filter draggedNode c) s)) /\
  ((forall r, In r rows -> exactOffset getBoundingClientRect y r) ->
   (forall r, getDragAfterElement getBoundingClientRect y c = Some r ->
              nearestBelow getBoundingClientRect y rows r) /\
   (getDragAfterElement getBoundingClientRect y c = None <->
    forall r, In r rows -> ~ belowPointer getBoundingClientRect y r)).
Proof.
  intros rows.
  pose proof (getDragAfterElement_reduced getBoundingClientRect y c) as H.
  fold rows in H.
  assert (Hnone : getDragAfterElement getBoundingClientRect y c = None <->
                  forall r, In r rows ->
                            eligible getBoundingClientRect y r = false).
  { destruct (getDragAfterElement getBoundingClientRect y c) as [r|].
    - split; [discriminate|]. intros Hno. exfalso.
      destruct H as (pre & post & E & Hb & _).
      rewrite (Hno r) in Hb; [discriminate|]. rewrite E. apply in_elt.
    - tauto. }
  split; [|split; [exact Hnone|split]].
  - intros r E. rewrite E in H. exact H.
  - intros s Hc Hnd E. unfold handleDragOver. rewrite Hc, E.
    rewrite moveDraggables_append
      by (apply NoDup_map_filter, distinctNodes_rows; exact Hnd).
    rewrite draggedNode_filter. do 2 f_equal. f_equal.
    apply filter_ext_in. intros n Hn. rewrite dragged_ids; auto.
  - intros Hex. split.
    + intros r E. rewrite E in H.
      apply greatestOffset_nearestBelow; assumption.
    + rewrite Hnone. split; intros Hno r Hin.
      * intros Hb. apply (eligible_exact _ _ _ (Hex r Hin)) in Hb.
        rewrite (Hno r Hin) in Hb. discriminate.
      * apply not_true_is_false. intros Hb.
        apply (Hno r Hin), (eligible_exact _ _ _ (Hex r Hin)), Hb.
Qed.

End AnchorClaim.

(** C4 as stated fails.  One row, not dragged, two pixels high with its top
    at [2^-60]: its midpoint [1 + 2^-60] is below a pointer at [y = 1].  The
    code computes [1 - 2^-60], which rounds to [1], then [2 / 2 = 1], then
    [1 - 1 = 0], which is not negative: no anchor is returned although a
    midpoint is below the pointer. *)
Lemma getDragAfterElement_misses_a_midpoint_below :
  let y := Double.ofZ 1 in
  let rows := filter notDragging (listGroupItems (renderedChildren None docA)) in
  Double.finite y = true /\
  (forall r, In r rows ->
             Double.finite (top (offGridLayout r)) = true /\
             Double.finite (height (offGridLayout r)) = true /\
             belowPointer offGridLayout y r /\
             offsetOf offGridLayout y r = Double.ofZ 0) /\
  length rows = 1 /\
  getDragAfterElement offGridLayout y (renderedChildren None docA) = None.
Proof.
  split; [reflexivity|]. split; [|split; reflexivity].
  intros r [<- | []]. repeat split.
Qed.

Lemma getDragAfterElement_greatest_computed_offset_witness :
  exists r,
    getDragAfterElement stackedLayout (Double.ofZ 25) (childrenOf draggingA)
    = Some r /\
    colText r = Some "B" /\
    nearestBelow stackedLayout (Double.ofZ 25)
      (filter notDragging (listGroupItems (childrenOf draggingA))) r.
Proof.
  destruct (getDragAfterElement_greatest_computed_offset stackedLayout
              (Double.ofZ 25) (childrenOf draggingA)) as (_ & _ & _ & H).
  destruct H as [H _].
  - intros r Hin. vm_compute in Hin.
    destruct Hin as [<- | [<- | []]]; repeat split.
  - eexists. split; [vm_compute; reflexivity|]. split; [reflexivity|].
    apply H. vm_compute. reflexivity.
Defined.

(** The anchor on the rendered document [A, B, C] while row [A] is dragged:
    the nearest row below the pointer, the first row on a tie, and no anchor
    below the last row, where the dragged row moves to the end. *)
Example getDragAfterElement_examples :
  option_map colText
    (getDragAfterElement stackedLayout (Double.ofZ 15)
       (renderedChildren None docABC))
  = Some (Some "A") /\
  (forall c, container draggingA = Some c ->
     option_map colText (getDragAfterElement stackedLayout (Double.ofZ 25) c)
     = Some (Some "B") /\
     option_map colText (getDragAfterElement stackedLayout (Double.ofZ 45) c)
     = Some (Some "C") /\
     option_map colText (getDragAfterElement flatLayout (Double.ofZ 5) c)
     = Some (Some "B") /\
     getDragAfterElement stackedLayout (Double.ofZ 70) c = None) /\
  option_map (fun c => map colText (listGroupItems c))
    (container (after (handleDragOver stackedLayout (Double.ofZ 70) draggingA)))
  = Some [Some "B"; Some "C"; Some "A"].
Proof.
  split; [vm_compute; reflexivity|]. split; [|vm_compute; reflexivity].
  intros c E. injection E as <-. repeat split; vm_compute; reflexivity.
Qed.

(** ** The marks after a [change] event *)

Lemma listGroupItems_updateRow id f c :
  listGroupItems (updateRow id f c)
  = map (fun r => if rowId r =? id then f r else r) (listGroupItems c).
Proof.
  induction c as [|[i k | r] c IH]; simpl; auto.
  destruct (rowId r =? id); simpl; rewrite IH; reflexivity.
Qed.

Lemma listGroupItems_uncheckOthers i index c :
  listGroupItems (uncheckOthers i index c)
  = uncheckOtherRows i index (listGroupItems c).
Proof.
  revert i; induction c as [|[id k | r] c IH]; intros i; simpl; auto.
  rewrite IH. reflexivity.
Qed.

Lemma nth_error_uncheckOtherRows i index rows j :
  nth_error (uncheckOtherRows i index rows) j
  = option_map (fun r => if (Z.of_nat (i + j) =? index)%Z then r
                         else setCheckbox false r)
               (nth_error rows j).
Proof.
  revert i j; induction rows as [|r rows IH]; intros i [|j]; simpl; auto.
  - rewrite Nat.add_0_r. reflexivity.
  - rewrite IH. replace (S i + j) with (i + S j) by lia. reflexivity.
Qed.

Lemma indexOfFrom_nth i rows p r :
  NoDup (map rowId rows) -> nth_error rows p = Some r ->
  indexOfFrom i (rowId r) rows = Z.of_nat (i + p).
Proof.
  revert i p; induction rows as [|x rows IH]; intros i [|p] Hnd Hn;
    simpl in *; try discriminate.
  - injection Hn as ->. rewrite Nat.eqb_refl, Nat.add_0_r. reflexivity.
  - inversion Hnd as [|? ? Hx Hrows]; subst.
    destruct (Nat.eqb_spec (rowId x) (rowId r)) as [E|_].
    + exfalso. apply Hx. rewrite E. apply in_map.
      eapply nth_error_In; eassumption.
    + rewrite (IH (S i) p) by assumption. f_equal. lia.
Qed.

Lemma nth_error_update_row rows p r f :
  NoDup (map rowId rows) -> nth_error rows p = Some r ->
  forall j,
    nth_error (map (fun x => if rowId x =? rowId r then f x else x) rows) j
    = if j =? p then Some (f r) else nth_error rows j.
Proof.
  intros Hnd Hp j. rewrite nth_error_map.
  destruct (Nat.eqb_spec j p) as [-> | Hne].
  - rewrite Hp. simpl. rewrite Nat.eqb_refl. reflexivity.
  - destruct (nth_error rows j) as [x|] eqn:Hj; simpl; [|reflexivity].
    destruct (Nat.eqb_spec (rowId x) (rowId r)) as [E|_]; [|reflexivity].
    exfalso. apply Hne.
    apply (proj1 (NoDup_nth_error (map rowId rows)) Hnd).
    + rewrite length_map. apply nth_error_Some. congruence.
    + rewrite !nth_error_map, Hj, Hp. simpl. congruence.
Qed.

Lemma marks_nth c j :
  nth j (marks c) false
  = match nth_error (listGroupItems c) j with
    | Some r => isChecked r
    | None => false
    end.
Proof.
  unfold marks. generalize (listGroupItems c) as rows.
  intros rows; revert j; induction rows; intros [|j]; simpl; auto.
Qed.

Lemma checkedAt_nth c i :
  checkedAt (listGroupItems c) i = nth (Z.to_nat i) (marks c) false.
Proof. unfold checkedAt. rewrite marks_nth. reflexivity. Qed.

Lemma isChecked_setCheckbox b r :
  isChecked (setCheckbox b r) = match checkbox r with Some _ => b | None => false end.
Proof. unfold isChecked, setCheckbox. simpl. destruct (checkbox r); reflexivity. Qed.

Lemma nodeId_updateRow id f c :
  (forall r, rowId (f r) = rowId r) ->
  map nodeId (updateRow id f c) = map nodeId c.
Proof.
  intros Hf. induction c as [|[i k | r] c IH]; simpl; auto.
  - rewrite IH. reflexivity.
  - rewrite IH. destruct (rowId r =? id); simpl; rewrite ?Hf; reflexivity.
Qed.

Lemma nodeId_uncheckOthers i index c :
  map nodeId (uncheckOthers i index c) = map nodeId c.
Proof.
  revert i; induction c as [|[id k | r] c IH]; intros i; simpl;
    rewrite ?IH; auto.
  destruct (Z.of_nat i =? index)%Z; reflexivity.
Qed.

Lemma nodeId_handleToggle b id c :
  map nodeId (handleToggle b id c) = map nodeId c.
Proof.
  unfold handleToggle. destruct (negb b); [reflexivity|].
  destruct (_ && _); [apply nodeId_uncheckOthers | reflexivity].
Qed.

Lemma nodeId_changeCheckbox p c :
  map nodeId (changeCheckbox p c) = map nodeId c.
Proof.
  unfold changeCheckbox.
  destruct (nth_error (listGroupItems c) p) as [r|]; [|reflexivity].
  destruct (checkbox r); [|reflexivity].
  rewrite nodeId_handleToggle. apply nodeId_updateRow. reflexivity.
Qed.

Lemma distinctNodes_changeCheckbox p c :
  distinctNodes c -> distinctNodes (changeCheckbox p c).
Proof. unfold distinctNodes. rewrite nodeId_changeCheckbox. auto. Qed.

Lemma marks_updateRow c p r b b0 :
  distinctNodes c -> nth_error (listGroupItems c) p = Some r ->
  checkbox r = Some b0 ->
  forall j,
    nth j (marks (updateRow (rowId r) (setCheckbox b) c)) false
    = if j =? p then b else nth j (marks c) false.
Proof.
  intros Hnd Hp Hb j. rewrite !marks_nth, listGroupItems_updateRow.
  rewrite (nth_error_update_row _ p r _ (distinctNodes_rows _ Hnd) Hp).
  destruct (j =? p); [|reflexivity].
  rewrite isChecked_setCheckbox, Hb. reflexivity.
Qed.

Lemma handleToggle_marks c p r :
  distinctNodes c -> nth_error (listGroupItems c) p = Some r ->
  isChecked r = true ->
  forall j,
    nth j (marks (handleToggle true (rowId r) c)) false
    = if neighbourMarked (marks c) p then nth j (marks c) false else j =? p.
Proof.
  intros Hnd Hp Hr j. unfold handleToggle. simpl negb. cbv iota zeta.
  unfold indexOf.
  rewrite (indexOfFrom_nth 0 _ p r (distinctNodes_rows _ Hnd) Hp). simpl Nat.add.
  assert (Hlen : p < length (listGroupItems c))
    by (apply nth_error_Some; congruence).
  assert (Hprev : (if (0 <? Z.of_nat p)%Z
                   then checkedAt (listGroupItems c) (Z.of_nat p - 1)
                   else false)
                  = negb (p =? 0) && nth (p - 1) (marks c) false).
  { destruct (Nat.eqb_spec p 0) as [-> | Hne]; [reflexivity|].
    destruct (Z.ltb_spec 0 (Z.of_nat p)); [|lia].
    rewrite checkedAt_nth.
    replace (Z.to_nat (Z.of_nat p - 1)) with (p - 1) by lia. reflexivity. }
  assert (Hnext : (if (Z.of_nat p <? Z.of_nat (length (listGroupItems c)) - 1)%Z
                   then checkedAt (listGroupItems c) (Z.of_nat p + 1)
                   else false)
                  = nth (p + 1) (marks c) false).
  { destruct (Z.ltb_spec (Z.of_nat p) (Z.of_nat (length (listGroupItems c)) - 1)).
    - rewrite checkedAt_nth.
      replace (Z.to_nat (Z.of_nat p + 1)) with (p + 1) by lia. reflexivity.
    - symmetry. apply nth_overflow. unfold marks. rewrite length_map. lia. }
  rewrite Hprev, Hnext, <- negb_orb. fold (neighbourMarked (marks c) p).
  destruct (neighbourMarked (marks c) p); simpl; [reflexivity|].
  rewrite marks_nth, listGroupItems_uncheckOthers, nth_error_uncheckOtherRows.
  simpl Nat.add.
  destruct (Nat.eqb_spec j p) as [-> | Hne].
  - rewrite Hp. simpl. rewrite Z.eqb_refl. exact Hr.
  - destruct (nth_error (listGroupItems c) j); simpl; [|reflexivity].
    destruct (Z.eqb_spec (Z.of_nat j) (Z.of_nat p)); [lia|].
    rewrite isChecked_setCheckbox. destruct (checkbox r0); reflexivity.
Qed.

(** The marks after the [change] event of the row at [p], whose checkbox
    held [b] before the click. *)
Lemma changeCheckbox_marks c p r b :
  distinctNodes c -> nth_error (listGroupItems c) p = Some r ->
  checkbox r = Some b ->
  forall j,
    nth j (marks (changeCheckbox p c)) false
    = if b then negb (j =? p) && nth j (marks c) false
      else if neighbourMarked (marks c) p
           then (j =? p) || nth j (marks c) false
           else j =? p.
Proof.
  intros Hnd Hp Hb j. unfold changeCheckbox. rewrite Hp, Hb.
  pose proof (marks_updateRow c p r (negb b) b Hnd Hp Hb) as Hupd.
  destruct b; simpl negb in *.
  - unfold handleToggle. simpl. rewrite Hupd. destruct (j =? p); reflexivity.
  - set (c1 := updateRow (rowId r) (setCheckbox true) c) in *.
    assert (Hnd1 : distinctNodes c1)
      by (unfold distinctNodes, c1; rewrite nodeId_updateRow; auto).
    assert (Hp1 : nth_error (listGroupItems c1) p = Some (setCheckbox true r)).
    { unfold c1. rewrite listGroupItems_updateRow.
      rewrite (nth_error_update_row _ p r _ (distinctNodes_rows _ Hnd) Hp).
      rewrite Nat.eqb_refl. reflexivity. }
    assert (Hr1 : isChecked (setCheckbox true r) = true)
      by (rewrite isChecked_setCheckbox, Hb; reflexivity).
    pose proof (handleToggle_marks c1 p _ Hnd1 Hp1 Hr1 j) as H.
    simpl rowId in H. rewrite H.
    assert (Hnb : neighbourMarked (marks c1) p = neighbourMarked (marks c) p).
    { unfold neighbourMarked. rewrite !Hupd.
      destruct (Nat.eqb_spec p 0) as [-> | Hne]; simpl.
      - reflexivity.
      - destruct (Nat.eqb_spec (p - 1) p); [lia|].
        destruct (Nat.eqb_spec (p + 1) p); [lia|]. reflexivity. }
    rewrite Hnb, Hupd.
    destruct (neighbourMarked (marks c) p); [|reflexivity].
    destruct (j =? p); reflexivity.
Qed.

(** ** Contiguity of the marks *)

Lemma contiguous_unmarked m :
  (forall j, nth j m false = false) -> contiguous m.
Proof. intros H i j k _ _ Hi. unfold marked in Hi. rewrite H in Hi. discriminate. Qed.

Lemma neighbourMarked_false m p :
  neighbourMarked m p = false <->
  (p = 0 \/ ~ marked m (p - 1)) /\ ~ marked m (p + 1).
Proof.
  unfold neighbourMarked, marked. rewrite orb_false_iff, andb_false_iff.
  rewrite negb_false_iff, Nat.eqb_eq, !not_true_iff_false. tauto.
Qed.

Lemma contiguous_toggle_on m m' p :
  contiguous m ->
  (forall j, nth j m' false
             = if neighbourMarked m p then (j =? p) || nth j m false
               else j =? p) ->
  contiguous m'.
Proof.
  intros Hm Hm' i j k Hij Hjk. unfold marked. rewrite !Hm'.
  destruct (neighbourMarked m p) eqn:Hnb.
  - rewrite !orb_true_iff, !Nat.eqb_eq. intros Hi Hk.
    destruct (Nat.eq_dec j p) as [|Hjp]; [left; assumption | right].
    unfold neighbourMarked in Hnb.
    rewrite orb_true_iff, andb_true_iff, negb_true_iff, Nat.eqb_neq in Hnb.
    destruct Hi as [-> | Hi], Hk as [-> | Hk]; try lia.
    + destruct Hnb as [[Hp0 Hprev] | Hnext].
      * apply (Hm (p - 1) j k); auto; lia.
      * destruct (Nat.eq_dec j (p + 1)) as [-> | ?]; [exact Hnext|].
        apply (Hm (p + 1) j k); auto; lia.
    + destruct Hnb as [[Hp0 Hprev] | Hnext].
      * destruct (Nat.eq_dec j (p - 1)) as [-> | ?]; [exact Hprev|].
        apply (Hm i j (p - 1)); auto; lia.
      * apply (Hm i j (p + 1)); auto; lia.
    + apply (Hm i j k); auto.
  - rewrite !Nat.eqb_eq. lia.
Qed.

Lemma contiguous_toggle_off m m' p :
  contiguous m ->
  (forall j, nth j m' false = negb (j =? p) && nth j m false) ->
  contiguous m' <-> ~ (0 < p /\ marked m (p - 1) /\ marked m (p + 1)).
Proof.
  intros Hm Hm'.
  assert (Hiff : forall j, marked m' j <-> j <> p /\ marked m j).
  { intros j. unfold marked. rewrite Hm', andb_true_iff, negb_true_iff.
    rewrite Nat.eqb_neq. tauto. }
  split.
  - intros Hc (Hp & Hprev & Hnext).
    assert (H : marked m' p).
    { apply (Hc (p - 1) p (p + 1)); try lia; apply Hiff; split; auto; lia. }
    apply Hiff in H. tauto.
  - intros Hno i j k Hij Hjk Hi Hk. apply Hiff in Hi, Hk. apply Hiff.
    destruct Hi as [Hip Hi], Hk as [Hkp Hk].
    split; [|apply (Hm i j k); auto].
    intros ->. apply Hno. split; [lia|]. split.
    + destruct (Nat.eq_dec i (p - 1)) as [<- | ?]; [exact Hi|].
      apply (Hm i (p - 1) k); auto; lia.
    + destruct (Nat.eq_dec k (p + 1)) as [<- | ?]; [exact Hk|].
      apply (Hm i (p + 1) k); auto; lia.
Qed.

Lemma toggledOn_invariant c0 c :
  distinctNodes c0 -> contiguous (marks c0) -> toggledOn c0 c ->
  distinctNodes c /\ contiguous (marks c).
Proof.
  intros Hnd Hc H. induction H as [|c' p r _ [IHnd IHc] Hp Hb]; [auto|].
  split; [apply distinctNodes_changeCheckbox; exact IHnd|].
  apply (contiguous_toggle_on (marks c') _ p IHc).
  intros j. rewrite (changeCheckbox_marks c' p r false IHnd Hp Hb). reflexivity.
Qed.

(** C2.  Starting from a view with no row marked, after any run of
    toggle-on events the marked positions form one contiguous run; and a
    toggle-on of a row with neither its predecessor nor its successor
    marked leaves exactly that row marked. *)
Theorem toggle_on_keeps_selection_contiguous (c0 c : list Node) :
  distinctNodes c0 ->
  (forall j, ~ marked (marks c0) j) ->
  toggledOn c0 c ->
  contiguous (marks c) /\
  (forall p r,
      nth_error (listGroupItems c) p = Some r ->
      checkbox r = Some false ->
      (p = 0 \/ ~ marked (marks c) (p - 1)) ->
      ~ marked (marks c) (p + 1) ->
      forall j, marked (marks (changeCheckbox p c)) j <-> j = p).
Proof.
  intros Hnd H0 Ht.
  assert (Hc0 : contiguous (marks c0)).
  { apply contiguous_unmarked. intros j. apply not_true_iff_false, H0. }
  destruct (toggledOn_invariant c0 c Hnd Hc0 Ht) as [Hndc Hc].
  split; [exact Hc|].
  intros p r Hp Hb Hprev Hnext j. unfold marked.
  rewrite (changeCheckbox_marks c p r false Hndc Hp Hb).
  rewrite (proj2 (neighbourMarked_false (marks c) p) (conj Hprev Hnext)).
  apply Nat.eqb_eq.
Qed.

Lemma renderItems_ids pd i ls :
  map nodeId (renderItems pd i ls) = seq (2 * i + 1) (2 * length ls).
Proof.
  revert i; induction ls as [|l ls IH]; intros i; simpl; [reflexivity|].
  rewrite IH. replace (length ls + S (length ls + 0)) with (S (2 * length ls)) by lia.
  simpl. repeat f_equal; lia.
Qed.

(** What [render] builds has no element twice. *)
Lemma rendered_distinct pd ls : distinctNodes (renderedChildren pd ls).
Proof.
  unfold distinctNodes, renderedChildren. simpl. rewrite renderItems_ids.
  simpl. apply (seq_NoDup (S (2 * length ls)) 0).
Qed.

Lemma toggle_on_keeps_selection_contiguous_witness :
  contiguous (marks (changeCheckbox 2 (renderedChildren None docABC))) /\
  (forall j,
      marked (marks (changeCheckbox 0 (changeCheckbox 2 (renderedChildren None docABC)))) j
      <-> j = 0).
Proof.
  destruct (toggle_on_keeps_selection_contiguous
              (renderedChildren None docABC)
              (changeCheckbox 2 (renderedChildren None docABC)))
    as [H1 H2].
  - unfold distinctNodes. simpl. repeat constructor; simpl; lia.
  - intros [|[|[|[|j]]]]; unfold marked; simpl; discriminate.
  - eapply toggledOn_change; [apply toggledOn_none | reflexivity | reflexivity].
  - split; [exact H1|].
    eapply (H2 0); [reflexivity | reflexivity | left; reflexivity |].
    unfold marked. simpl. discriminate.
Defined.

(** C3 as stated fails: after toggle-on of rows 1, 2 and 3, the toggle-off of
    row 2 leaves rows 1 and 3 marked, and a drag started on row 1 then picks
    up these two separate rows. *)
Lemma toggle_off_interior_row_splits_selection :
  marks (changeCheckboxes [0; 1; 2] (renderedChildren None docABC))
  = [true; true; true] /\
  marks (changeCheckboxes [0; 1; 2; 1] (renderedChildren None docABC))
  = [true; false; true] /\
  ~ contiguous (marks (changeCheckboxes [0; 1; 2; 1] (renderedChildren None docABC))) /\
  option_map (fun c => map dragging (listGroupItems c))
    (container
       (after (dragStart 0
                 (setContainer
                    (changeCheckboxes [0; 1; 2; 1] (renderedChildren None docABC))
                    (mounted docABC)))))
  = Some [true; false; true].
Proof.
  split; [reflexivity|]. split; [reflexivity|]. split; [|reflexivity].
  intros H. specialize (H 0 1 2). unfold marked in H. simpl in H.
  assert (false = true) by (apply H; auto). discriminate.
Qed.

(** C3, amended.  A toggle-off event on a marked row of a contiguous
    selection unmarks that row and no other, with no re-validation; the
    marked positions are still one contiguous run exactly when the row did
    not have both its predecessor and its successor marked, that is, when it
    was at an end of the run. *)
Theorem toggle_off_keeps_contiguity_at_the_ends (c : list Node) (p : nat) (r : Row) :
  distinctNodes c ->
  contiguous (marks c) ->
  nth_error (listGroupItems c) p = Some r ->
  checkbox r = Some true ->
  (forall j, marked (marks (changeCheckbox p c)) j
             <-> j <> p /\ marked (marks c) j) /\
  (contiguous (marks (changeCheckbox p c))
   <-> ~ (0 < p /\ marked (marks c) (p - 1) /\ marked (marks c) (p + 1))).
Proof.
  intros Hnd Hc Hp Hb.
  pose proof (changeCheckbox_marks c p r true Hnd Hp Hb) as Hm. simpl in Hm.
  split.
  - intros j. unfold marked. rewrite Hm, andb_true_iff, negb_true_iff.
    rewrite Nat.eqb_neq. tauto.
  - apply contiguous_toggle_off; assumption.
Qed.

Lemma toggle_off_keeps_contiguity_at_the_ends_witness :
  contiguous
    (marks (changeCheckbox 2
              (changeCheckboxes [0; 1; 2] (renderedChildren None docABC)))).
Proof.
  apply (toggle_off_keeps_contiguity_at_the_ends
           (changeCheckboxes [0; 1; 2] (renderedChildren None docABC)) 2
           (setCheckbox true (renderRow None 2 (mkLine 3 "C")))).
  - unfold distinctNodes. simpl. repeat constructor; simpl; lia.
  - intros i j k Hij Hjk _ Hk. unfold marked in *. simpl in *.
    destruct j as [|[|[|j]]]; try reflexivity.
    destruct k as [|[|[|[|k]]]]; try lia; simpl in Hk; discriminate.
  - reflexivity.
  - reflexivity.
  - unfold marked. simpl. intros (_ & _ & H). discriminate.
Defined.

(** ** Sessions: what every handler preserves *)

Lemma numberedFrom_nth k ls :
  map lineNumber ls = map Z.of_nat (seq k (length ls)) ->
  forall i l, nth_error ls i = Some l -> lineNumber l = Z.of_nat (k + i).
Proof.
  revert k; induction ls as [|x ls IH]; intros k H [|i] l Hn;
    simpl in *; try discriminate.
  - injection Hn as <-. injection H as H _. rewrite Nat.add_0_r. exact H.
  - injection H as _ H. rewrite (IH (S k) H i l Hn). f_equal. lia.
Qed.

Lemma numbered_position ls :
  numbered ls ->
  forall i l, nth_error ls i = Some l -> lineNumber l = (Z.of_nat i + 1)%Z.
Proof.
  intros H i l Hn. rewrite (numberedFrom_nth 1 ls H i l Hn). lia.
Qed.

Lemma collectLines_intact i rows :
  Forall intact rows ->
  map lineNumber (collectLines i rows)
  = map Z.of_nat (seq (S i) (length (collectLines i rows))).
Proof.
  intros H; revert i; induction H as [|r rows [_ Hr] _ IH]; intros i;
    simpl; [reflexivity|].
  destruct (colText r); [|congruence]. simpl. rewrite IH. f_equal. lia.
Qed.

Lemma renderItems_intact pd i ls :
  Forall intact (listGroupItems (renderItems pd i ls)).
Proof.
  revert i; induction ls as [|l ls IH]; intros i; simpl; constructor; auto.
  split; discriminate.
Qed.

Lemma rendered_intact pd ls :
  Forall intact (listGroupItems (renderedChildren pd ls)).
Proof. apply renderItems_intact. Qed.

Lemma Forall_rows_incl (P : Row -> Prop) c c' :
  (forall r, In (Item r) c' -> In (Item r) c) ->
  Forall P (listGroupItems c) -> Forall P (listGroupItems c').
Proof.
  intros Hincl H. rewrite Forall_forall in *. intros r Hr.
  apply H. apply listGroupItems_In, Hincl, listGroupItems_In, Hr.
Qed.

Lemma intact_setCheckbox b r : intact r -> intact (setCheckbox b r).
Proof.
  unfold intact, setCheckbox. simpl. intros [H1 H2]. split; [|exact H2].
  destruct (checkbox r); congruence.
Qed.

Lemma intact_setDragging b r : intact r -> intact (setDragging b r).
Proof. unfold intact. simpl. auto. Qed.

Lemma intact_setTextContent t r : intact r -> intact (setTextContent t r).
Proof.
  unfold intact, setTextContent. simpl. intros [H1 H2]. split; [exact H1|].
  destruct (colText r); congruence.
Qed.

Lemma listGroupItems_mapRows f c :
  listGroupItems (mapRows f c) = map f (listGroupItems c).
Proof.
  induction c as [|[id k | r] c IH]; simpl; rewrite ?IH; reflexivity.
Qed.

Lemma intact_mapRows f c :
  (forall r, intact r -> intact (f r)) ->
  Forall intact (listGroupItems c) ->
  Forall intact (listGroupItems (mapRows f c)).
Proof.
  intros Hf H. rewrite listGroupItems_mapRows. rewrite Forall_forall in *.
  intros r Hr. apply in_map_iff in Hr. destruct Hr as (x & <- & Hx). auto.
Qed.

Lemma intact_updateRow id f c :
  (forall r, intact r -> intact (f r)) ->
  Forall intact (listGroupItems c) ->
  Forall intact (listGroupItems (updateRow id f c)).
Proof.
  intros Hf H. rewrite listGroupItems_updateRow. rewrite Forall_forall in *.
  intros r Hr. apply in_map_iff in Hr. destruct Hr as (x & <- & Hx).
  destruct (rowId x =? id); auto.
Qed.

Lemma intact_uncheckOthers i index c :
  Forall intact (listGroupItems c) ->
  Forall intact (listGroupItems (uncheckOthers i index c)).
Proof.
  rewrite listGroupItems_uncheckOthers. generalize (listGroupItems c) as rows.
  intros rows H; revert i; induction H as [|r rows Hr _ IH]; intros i; simpl;
    constructor; auto.
  destruct (Z.of_nat i =? index)%Z; [exact Hr | apply intact_setCheckbox, Hr].
Qed.

Lemma intact_changeCheckbox p c :
  Forall intact (listGroupItems c) ->
  Forall intact (listGroupItems (changeCheckbox p c)).
Proof.
  intros H. unfold changeCheckbox.
  destruct (nth_error (listGroupItems c) p) as [r|]; [|exact H].
  destruct (checkbox r) as [b|]; [|exact H].
  unfold handleToggle. destruct (negb (negb b)).
  - apply intact_updateRow; [apply intact_setCheckbox | exact H].
  - destruct (_ && _).
    + apply intact_uncheckOthers, intact_updateRow;
        [apply intact_setCheckbox | exact H].
    + apply intact_updateRow; [apply intact_setCheckbox | exact H].
Qed.

Lemma In_insertAt n ref l x :
  In x (insertAt n ref l) -> x = n \/ In x l.
Proof.
  induction l as [|y l IH]; simpl; [tauto|].
  destruct (nodeId y =? ref); simpl; intuition.
Qed.

Lemma insertAt_keeps n ref l x : In x l -> In x (insertAt n ref l).
Proof.
  induction l as [|y l IH]; simpl; [tauto|].
  destruct (nodeId y =? ref); simpl; intuition.
Qed.

Lemma removeChild_distinct id c :
  distinctNodes c ->
  distinctNodes (removeChild id c) /\ ~ In id (map nodeId (removeChild id c)).
Proof.
  intros H. split; [apply NoDup_map_filter, H|].
  intros Hin. apply in_map_iff in Hin. destruct Hin as (x & E & Hx).
  apply filter_In in Hx. destruct Hx as [_ Hx].
  apply negb_true_iff, Nat.eqb_neq in Hx. contradiction.
Qed.

Lemma appendChild_distinct n c :
  distinctNodes c -> distinctNodes (appendChild n c).
Proof.
  intros H. destruct (removeChild_distinct (nodeId n) c H) as [H1 H2].
  unfold distinctNodes, appendChild in *. rewrite map_app. simpl.
  apply NoDup_app; [exact H1 | constructor; [intros [] | constructor] |].
  intros a Ha [<- | []]. contradiction.
Qed.

Lemma insertAt_distinct n ref l :
  distinctNodes l -> ~ In (nodeId n) (map nodeId l) ->
  distinctNodes (insertAt n ref l).
Proof.
  unfold distinctNodes. induction l as [|x l IH]; simpl; intros Hnd Hn; [exact Hnd|].
  inversion Hnd as [|? ? Hx Hl]; subst.
  destruct (nodeId x =? ref); simpl.
  - constructor; [exact Hn | exact Hnd].
  - constructor; [|apply IH; tauto].
    intros Hin. apply in_map_iff in Hin. destruct Hin as (z & E & Hz).
    apply In_insertAt in Hz. destruct Hz as [-> | Hz]; [apply Hn; left; congruence|].
    apply Hx. rewrite <- E. apply in_map, Hz.
Qed.

Lemma insertBefore_ok n ref c :
  existsb (fun x => nodeId x =? ref) c = true ->
  exists c', insertBefore n ref c = Some c' /\
             existsb (fun x => nodeId x =? ref) c' = true /\
             (forall x, In x c' -> x = n \/ In x c) /\
             (distinctNodes c -> distinctNodes c').
Proof.
  intros H. unfold insertBefore. rewrite H.
  destruct (Nat.eqb_spec (nodeId n) ref) as [E | Hne].
  - exists c. auto.
  - eexists. split; [reflexivity|]. split; [|split].
    + apply existsb_exists in H. destruct H as (a & Ha & Ea).
      apply existsb_exists. exists a. split; [|exact Ea].
      apply insertAt_keeps. unfold removeChild. apply filter_In.
      split; [exact Ha|]. apply Nat.eqb_eq in Ea.
      apply negb_true_iff, Nat.eqb_neq. congruence.
    + intros x Hx. apply In_insertAt in Hx. destruct Hx as [-> | Hx]; auto.
      right. unfold removeChild in Hx. apply filter_In in Hx. tauto.
    + intros Hnd. apply insertAt_distinct; apply removeChild_distinct, Hnd.
Qed.

Lemma moveDraggables_ok afterElement ds :
  forall c,
    (forall a, afterElement = Some a ->
               existsb (fun x => nodeId x =? rowId a) c = true) ->
    exists c', moveDraggables afterElement ds c = inl c' /\
               (forall x, In x c' -> In x c \/ In x (map Item ds)) /\
               (distinctNodes c -> distinctNodes c').
Proof.
  induction ds as [|d ds IH]; intros c Hanchor; simpl.
  - exists c. auto.
  - destruct afterElement as [a|].
    + destruct (insertBefore_ok (Item d) (rowId a) c (Hanchor a eq_refl))
        as (c1 & -> & Hex & Hin & Hnd).
      destruct (IH c1) as (c' & E & Hin' & Hnd').
      { intros a' Ha'. injection Ha' as <-. exact Hex. }
      exists c'. split; [exact E|]. split; [|auto]. intros x Hx.
      destruct (Hin' x Hx) as [H | H]; [|auto].
      destruct (Hin x H) as [-> | H']; auto.
    + destruct (IH (appendChild (Item d) c)) as (c' & E & Hin' & Hnd');
        [discriminate|].
      exists c'. split; [exact E|]. split.
      * intros x Hx. destruct (Hin' x Hx) as [H | H]; [|auto].
        unfold appendChild, removeChild in H. apply in_app_or in H.
        destruct H as [H | [<- | []]]; [|auto].
        apply filter_In in H. tauto.
      * intros Hnd. apply Hnd', appendChild_distinct, Hnd.
Qed.

Lemma nodeId_mapRows f c :
  (forall r, rowId (f r) = rowId r) -> map nodeId (mapRows f c) = map nodeId c.
Proof.
  intros Hf. induction c as [|[i k | r] c IH]; simpl; rewrite ?IH, ?Hf; reflexivity.
Qed.

Lemma wellBuilt_rendered pd ls : wellBuilt (renderedChildren pd ls).
Proof. split; [apply rendered_intact | apply rendered_distinct]. Qed.

Lemma wellBuilt_mapRows f c :
  (forall r, intact r -> intact (f r)) -> (forall r, rowId (f r) = rowId r) ->
  wellBuilt c -> wellBuilt (mapRows f c).
Proof.
  intros Hf Hid [H1 H2]. split; [apply intact_mapRows; assumption|].
  unfold distinctNodes. rewrite nodeId_mapRows; assumption.
Qed.

Lemma wellBuilt_updateRow id f c :
  (forall r, intact r -> intact (f r)) -> (forall r, rowId (f r) = rowId r) ->
  wellBuilt c -> wellBuilt (updateRow id f c).
Proof.
  intros Hf Hid [H1 H2]. split; [apply intact_updateRow; assumption|].
  unfold distinctNodes. rewrite nodeId_updateRow; assumption.
Qed.

Lemma wellBuilt_changeCheckbox p c :
  wellBuilt c -> wellBuilt (changeCheckbox p c).
Proof.
  intros [H1 H2].
  split; [apply intact_changeCheckbox, H1 | apply distinctNodes_changeCheckbox, H2].
Qed.

Lemma handleDragOver_mounted getBoundingClientRect y s :
  mountedState s ->
  exists s', handleDragOver getBoundingClientRect y s = Ok s' /\
             mountedState s'.
Proof.
  intros (c & ls & Hc & Hd & Hrows & Hnd). unfold handleDragOver. rewrite Hc.
  destruct (moveDraggables_ok (getDragAfterElement getBoundingClientRect y c)
              (filter dragging (listGroupItems c)) c) as (c' & -> & Hin & Hnd').
  - intros a Ha.
    pose proof (getDragAfterElement_reduced getBoundingClientRect y c) as H.
    rewrite Ha in H. destruct H as (pre & post & E & _).
    assert (Hina : In a (filter notDragging (listGroupItems c)))
      by (rewrite E; apply in_elt).
    apply filter_In in Hina. destruct Hina as [Hina _].
    apply listGroupItems_In in Hina.
    apply existsb_exists. exists (Item a). split; [exact Hina|].
    apply Nat.eqb_refl.
  - eexists. split; [reflexivity|]. exists c', ls.
    split; [reflexivity|]. split; [exact Hd|]. split; [|auto].
    apply (Forall_rows_incl _ c); [|exact Hrows].
    intros r Hr. destruct (Hin _ Hr) as [H | H]; [exact H|].
    apply in_map_iff in H. destruct H as (d & E & Hd').
    injection E as ->. apply filter_In in Hd'.
    apply listGroupItems_In. tauto.
Qed.

Lemma render_mounted s :
  mountedState s -> exists s', render s = Ok s' /\ mountedState s'.
Proof.
  intros (c & ls & Hc & Hd & _). rewrite (render_lines s c ls Hc Hd).
  eexists. split; [reflexivity|]. eexists. exists ls.
  split; [reflexivity|]. split; [exact Hd | apply wellBuilt_rendered].
Qed.

Lemma addLine_mounted index s :
  mountedState s -> exists s', addLine index s = Ok s' /\ mountedState s'.
Proof.
  intros (c & ls & Hc & Hd & _). rewrite (addLine_lines s c ls index Hc Hd).
  eexists. split; [reflexivity|]. eexists. eexists.
  split; [reflexivity|]. split; [reflexivity | apply wellBuilt_rendered].
Qed.

Lemma deleteLine_mounted index s :
  mountedState s -> exists s', deleteLine index s = Ok s' /\ mountedState s'.
Proof.
  intros (c & ls & Hc & Hd & _).
  destruct (deleteLine_lines s c ls index Hc Hd) as (s' & E & D & C & _).
  exists s'. split; [exact E|]. eexists. eexists.
  split; [exact C|]. split; [exact D | apply wellBuilt_rendered].
Qed.

Lemma requestDelete_mounted index s :
  mountedState s -> exists s', requestDelete index s = Ok s' /\ mountedState s'.
Proof.
  intros (c & ls & Hc & Hd & _). rewrite (requestDelete_lines s c ls index Hc Hd).
  eexists. split; [reflexivity|]. eexists. eexists.
  split; [reflexivity|]. split; [reflexivity | apply wellBuilt_rendered].
Qed.

Lemma cancelDelete_mounted s :
  mountedState s -> exists s', cancelDelete s = Ok s' /\ mountedState s'.
Proof.
  intros (c & ls & Hc & Hd & _). rewrite (cancelDelete_lines s c ls Hc Hd).
  eexists. split; [reflexivity|]. eexists. eexists.
  split; [reflexivity|]. split; [reflexivity | apply wellBuilt_rendered].
Qed.

Lemma updateJsonOutput_mounted s :
  mountedState s -> exists s', updateJsonOutput s = Ok s' /\ mountedState s'.
Proof.
  intros (c & ls & Hc & Hd & Hrows).
  destruct (updateJsonOutput_ok s c Hc) as (s' & E & D & C & _).
  exists s'. split; [exact E|]. exists c, ls.
  rewrite C, D. auto.
Qed.

Lemma setContainer_mounted s c :
  mountedState s -> wellBuilt c -> mountedState (setContainer c s).
Proof.
  intros (c0 & ls & _ & Hd & _) H. exists c, ls. auto.
Qed.

Lemma dragStart_mounted p s :
  mountedState s -> exists s', dragStart p s = Ok s' /\ mountedState s'.
Proof.
  intros Hs. pose proof Hs as (c & ls & Hc & Hd & Hwb).
  unfold dragStart. rewrite Hc.
  destruct (nth_error (listGroupItems c) p) as [r|] eqn:Hp; [|eauto].
  assert (Hr : intact r).
  { destruct Hwb as [Hrows _]. rewrite Forall_forall in Hrows. apply Hrows.
    eapply nth_error_In; eassumption. }
  destruct Hr as [Hcb _]. destruct (checkbox r) as [[|]|]; [| |congruence].
  - eexists. split; [reflexivity|]. apply setContainer_mounted; [exact Hs|].
    apply wellBuilt_mapRows; [| |exact Hwb].
    + intros x Hx. destruct (isChecked x); [apply intact_setDragging|]; exact Hx.
    + intros x. destruct (isChecked x); reflexivity.
  - eexists. split; [reflexivity|]. apply setContainer_mounted; [exact Hs|].
    apply wellBuilt_updateRow;
      [apply intact_setDragging | reflexivity | exact Hwb].
Qed.

(** The drag commit rebuilds the lines from the rows, in their order in the
    container, numbers them [1..N] and renders them. *)
Lemma dragEnd_lines s c ls :
  container s = Some c -> data s = DataLines ls ->
  Forall intact (listGroupItems c) ->
  exists s' ls',
    dragEnd s = Ok s' /\ data s' = DataLines ls' /\ numbered ls' /\
    container s' = Some (renderedChildren (pendingDeleteIndex s) ls').
Proof.
  intros Hc Hd Hrows. unfold dragEnd. rewrite Hc. cbv zeta.
  set (c2 := mapRows (setCheckbox false) (mapRows (setDragging false) c)).
  set (ls' := collectLines 0 (listGroupItems c2)).
  change (data (setContainer c2 s)) with (data s). rewrite Hd.
  erewrite render_lines; [|reflexivity|reflexivity]. unfold bind.
  edestruct updateJsonOutput_ok as (s' & E & D & C & _);
    [| exists s', ls'; split; [exact E|]].
  - reflexivity.
  - rewrite D, C. simpl. split; [reflexivity|]. split; [|reflexivity].
    apply collectLines_intact. unfold c2.
    apply intact_mapRows; [apply intact_setCheckbox|].
    apply intact_mapRows; [apply intact_setDragging | exact Hrows].
Qed.

Lemma dragEnd_mounted s :
  mountedState s -> exists s', dragEnd s = Ok s' /\ mountedState s'.
Proof.
  intros (c & ls & Hc & Hd & Hrows & _).
  destruct (dragEnd_lines s c ls Hc Hd Hrows) as (s' & ls' & E & D & _ & C).
  exists s'. split; [exact E|]. eexists. exists ls'.
  split; [exact C|]. split; [exact D | apply wellBuilt_rendered].
Qed.

Lemma editText_mounted p t s :
  mountedState s -> exists s', editText p t s = Ok s' /\ mountedState s'.
Proof.
  intros Hs. pose proof Hs as (c & ls & Hc & Hd & Hwb).
  unfold editText. rewrite Hc.
  destruct (nth_error (listGroupItems c) p) as [r|]; [|eauto].
  destruct (colText r); [|eauto].
  apply updateJsonOutput_mounted, setContainer_mounted; [exact Hs|].
  apply wellBuilt_updateRow;
    [apply intact_setTextContent | reflexivity | exact Hwb].
Qed.

(** No handler throws on a mounted component, and each leaves it
    mounted. *)
Lemma dispatch_mounted e s :
  mountedState s -> exists s', dispatch e s = Ok s' /\ mountedState s'.
Proof.
  intros Hs. pose proof Hs as (c & ls & Hc & Hd & Hwb).
  destruct e; simpl.
  - apply addLine_mounted, Hs.
  - apply deleteLine_mounted, Hs.
  - apply requestDelete_mounted, Hs.
  - apply cancelDelete_mounted, Hs.
  - apply render_mounted, Hs.
  - unfold clickDivider. rewrite Hc.
    destruct (nth_error c k) as [[id index | r]|]; eauto.
    apply addLine_mounted, Hs.
  - unfold clickDelete. destruct (rowAt p s) as [r|]; [|eauto].
    destruct (confirming r); [eauto | apply requestDelete_mounted, Hs].
  - unfold clickConfirm. destruct (rowAt p s) as [r|]; [|eauto].
    destruct (confirming r); [apply deleteLine_mounted, Hs | eauto].
  - unfold clickCancel. destruct (rowAt p s) as [r|]; [|eauto].
    destruct (confirming r); [apply cancelDelete_mounted, Hs | eauto].
  - rewrite Hc. eexists. split; [reflexivity|].
    apply setContainer_mounted; [exact Hs|].
    apply wellBuilt_changeCheckbox, Hwb.
  - apply editText_mounted, Hs.
  - apply dragStart_mounted, Hs.
  - apply handleDragOver_mounted, Hs.
  - apply dragEnd_mounted, Hs.
Qed.

Lemma run_mounted es :
  forall s, mountedState s -> mountedState (run es s).
Proof.
  unfold run. induction es as [|e es IH]; intros s Hs; simpl; [exact Hs|].
  apply IH. destruct (dispatch_mounted e s Hs) as (s' & -> & Hs'). exact Hs'.
Qed.

Lemma render_construct_mounted ls c out :
  mountedState (after (render (construct (DataLines ls) c out))).
Proof.
  eexists. exists ls. simpl. split; [reflexivity|].
  split; [reflexivity | apply wellBuilt_rendered].
Qed.

(** A view that is the render of a numbered model holds no unsaved edit. *)
Lemma rendered_settled s pd ls :
  container s = Some (renderedChildren pd ls) -> data s = DataLines ls ->
  numbered ls -> settled s.
Proof.
  intros Hc Hd Hn. unfold settled, linesOf. rewrite Hd. split; [exact Hn|].
  unfold flushed. rewrite (syncDataFromDOM_lines s _ ls Hc Hd).
  rewrite flushLines_rendered, (resequence_fixed _ Hn), <- Hd, setData_same.
  reflexivity.
Qed.

Lemma perform_settled op s :
  mountedState s ->
  exists s' ls, perform op s = Ok s' /\ data s' = DataLines ls /\
                numbered ls /\ settled s'.
Proof.
  intros (c & ls & Hc & Hd & Hrows & _). destruct op as [index | index |]; simpl.
  - rewrite (addLine_lines s c ls index Hc Hd).
    eexists. eexists. split; [reflexivity|]. split; [reflexivity|].
    split; [apply resequence_numbered|].
    eapply rendered_settled; [reflexivity | reflexivity | apply resequence_numbered].
  - destruct (deleteLine_lines s c ls index Hc Hd) as (s' & E & D & C & _).
    exists s'. eexists. split; [exact E|]. split; [exact D|].
    split; [apply resequence_numbered|].
    eapply rendered_settled; [exact C | exact D | apply resequence_numbered].
  - destruct (dragEnd_lines s c ls Hc Hd Hrows) as (s' & ls' & E & D & N & C).
    exists s', ls'. split; [exact E|]. split; [exact D|]. split; [exact N|].
    eapply rendered_settled; eassumption.
Qed.

(** After a structural operation, at any point of any session, the model is
    settled: numbered [1..N] and with a view that holds no unsaved edit. *)
Lemma structural_operations_settle (ls0 : list Line) (c0 : list Node)
      (out : option TextAreaValue) (es : list Event) (op : Structural) :
  exists s',
    perform op (run es (after (render (construct (DataLines ls0) c0 out))))
    = Ok s' /\ settled s'.
Proof.
  destruct (perform_settled op _
              (run_mounted es _ (render_construct_mounted ls0 c0 out)))
    as (s' & ls & E & _ & _ & S).
  exists s'. auto.
Qed.

(** C1.  Mount a component on any document, whatever line numbers its lines
    carry, and let any sequence of method calls and gestures happen (inserts,
    deletes, prompts, toggles, edits, drags).  Then every structural
    operation (an insert through [addLine], a delete through [deleteLine], a
    drag commit through the [dragend] listener) returns and leaves a line
    list whose line numbers are exactly [1..N]: the line at position [i]
    has [lineNumber = i + 1]. *)
Theorem structural_operations_renumber (ls0 : list Line) (c0 : list Node)
        (out : option TextAreaValue) (es : list Event) (op : Structural) :
  exists s' ls,
    perform op (run es (after (render (construct (DataLines ls0) c0 out))))
    = Ok s' /\
    data s' = DataLines ls /\
    map lineNumber ls = map Z.of_nat (seq 1 (length ls)) /\
    (forall i l, nth_error ls i = Some l -> lineNumber l = (Z.of_nat i + 1)%Z).
Proof.
  destruct (perform_settled op _
              (run_mounted es _ (render_construct_mounted ls0 c0 out)))
    as (s' & ls & E & D & N & _).
  exists s', ls. split; [exact E|]. split; [exact D|]. split; [exact N|].
  apply numbered_position, N.
Qed.

(** * Further properties of the component *)

(** ** What [render] builds *)

Lemma renderItems_length pd k ls :
  length (renderItems pd k ls) = 2 * length ls.
Proof. revert k; induction ls; intros k; simpl; [|rewrite IHls]; lia. Qed.

Lemma renderItems_colText pd k ls :
  shownTexts (renderItems pd k ls) = map (fun l => Some (text l)) ls.
Proof.
  unfold shownTexts. revert k; induction ls; intros k; simpl; [|rewrite IHls];
    reflexivity.
Qed.

Lemma renderItems_dataset pd k ls :
  map datasetLineNumber (listGroupItems (renderItems pd k ls))
  = map lineNumber ls.
Proof. revert k; induction ls; intros k; simpl; [|rewrite IHls]; reflexivity. Qed.

Lemma renderItems_rowIndex pd k ls :
  map rowIndex (listGroupItems (renderItems pd k ls)) = seq k (length ls).
Proof. revert k; induction ls; intros k; simpl; [|rewrite IHls]; reflexivity. Qed.

Lemma renderItems_dividers pd k ls :
  dividerIndices (renderItems pd k ls) = seq (S k) (length ls).
Proof. revert k; induction ls; intros k; simpl; [|rewrite IHls]; reflexivity. Qed.

Lemma renderItems_fresh pd k ls :
  Forall (fun r => checkbox r = Some false /\ dragging r = false)
         (listGroupItems (renderItems pd k ls)).
Proof. revert k; induction ls; intros k; simpl; constructor; auto. Qed.

Lemma renderItems_nth pd k ls i :
  nth_error (listGroupItems (renderItems pd k ls)) i
  = option_map (renderRow pd (k + i)) (nth_error ls i).
Proof.
  revert k i; induction ls as [|l ls IH]; intros k [|i]; simpl; auto.
  - rewrite Nat.add_0_r. reflexivity.
  - rewrite IH. replace (S k + i) with (k + S i) by lia. reflexivity.
Qed.

Lemma renderItems_child_row pd k ls j l :
  nth_error ls j = Some l ->
  nth_error (renderItems pd k ls) (2 * j) = Some (Item (renderRow pd (k + j) l)).
Proof.
  revert k j; induction ls as [|x ls IH]; intros k [|j] Hn;
    cbn [nth_error] in Hn; try discriminate.
  - injection Hn as ->. change (2 * 0) with 0. cbn [renderItems nth_error].
    rewrite Nat.add_0_r. reflexivity.
  - replace (2 * S j) with (S (S (2 * j))) by lia. cbn [renderItems nth_error].
    rewrite (IH (S k) j Hn). do 3 f_equal. lia.
Qed.

Lemma renderItems_child_divider pd k ls j :
  j < length ls ->
  nth_error (renderItems pd k ls) (2 * j + 1)
  = Some (Divider (2 * (k + j) + 2) (S (k + j))).
Proof.
  revert k j; induction ls as [|x ls IH]; intros k [|j] Hj;
    cbn [length] in Hj; try lia.
  - change (2 * 0 + 1) with 1. cbn [renderItems nth_error].
    rewrite Nat.add_0_r. reflexivity.
  - replace (2 * S j + 1) with (S (S (2 * j + 1))) by lia.
    cbn [renderItems nth_error]. rewrite (IH (S k) j) by lia.
    do 2 f_equal; lia.
Qed.

Lemma rendered_divider pd ls k :
  k <= length ls ->
  exists id, nth_error (renderedChildren pd ls) (2 * k) = Some (Divider id k).
Proof.
  intros Hk. unfold renderedChildren. destruct k as [|k].
  - exists 0. reflexivity.
  - replace (2 * S k) with (S (2 * k + 1)) by lia. cbn [nth_error].
    rewrite renderItems_child_divider by lia. eexists. reflexivity.
Qed.

Lemma rendered_row pd ls p l :
  nth_error ls p = Some l ->
  nth_error (listGroupItems (renderedChildren pd ls)) p
  = Some (renderRow pd p l).
Proof.
  intros Hn. unfold renderedChildren. simpl listGroupItems.
  rewrite renderItems_nth, Hn. reflexivity.
Qed.

Lemma rendered_child_row pd ls k l :
  nth_error ls k = Some l ->
  nth_error (renderedChildren pd ls) (2 * k + 1)
  = Some (Item (renderRow pd k l)).
Proof.
  intros Hn. unfold renderedChildren.
  replace (2 * k + 1) with (S (2 * k)) by lia. cbn [nth_error].
  apply (renderItems_child_row pd 0 ls k l Hn).
Qed.

(** X1.  On a model with a line list, [render()] returns and fills the
    container with [N + 1] dividers and [N] rows, alternating: child [2k] is
    the divider with insertion index [k], for [k] in [0..N], and child
    [2k + 1] is the row of line [k], carrying the index [k], the line number
    and the text of that line; so the dividers carry the indices [0..N] and
    the rows the indices [0..N-1], in the order of the model.  Every row is
    unchecked and not dragged, no element occurs twice, the model is not
    touched, and rendering again changes nothing. *)
Theorem render_shows_the_model (s : TextArranger) (c0 : list Node)
        (ls : list Line) :
  container s = Some c0 -> data s = DataLines ls ->
  exists s' c,
    render s = Ok s' /\ container s' = Some c /\ data s' = data s /\
    length c = 2 * length ls + 1 /\
    (forall k, k <= length ls ->
               exists id, nth_error c (2 * k) = Some (Divider id k)) /\
    (forall k l, nth_error ls k = Some l ->
                 exists r, nth_error c (2 * k + 1) = Some (Item r) /\
                           rowIndex r = k /\
                           datasetLineNumber r = lineNumber l /\
                           colText r = Some (text l)) /\
    dividerIndices c = seq 0 (S (length ls)) /\
    map rowIndex (listGroupItems c) = seq 0 (length ls) /\
    map datasetLineNumber (listGroupItems c) = map lineNumber ls /\
    shownTexts c = map (fun l => Some (text l)) ls /\
    Forall (fun r => checkbox r = Some false /\ dragging r = false)
           (listGroupItems c) /\
    distinctNodes c /\
    render s' = Ok s'.
Proof.
  intros Hc Hd. rewrite (render_lines s c0 ls Hc Hd).
  eexists. eexists. split; [reflexivity|]. split; [reflexivity|].
  split; [reflexivity|].
  split; [unfold renderedChildren; simpl; rewrite renderItems_length; lia|].
  split; [intros k Hk; apply rendered_divider, Hk|].
  split.
  { intros k l Hn. eexists. split; [apply rendered_child_row, Hn|].
    repeat split. }
  unfold renderedChildren.
  split; [simpl; rewrite renderItems_dividers; reflexivity|].
  split; [apply renderItems_rowIndex|].
  split; [apply renderItems_dataset|].
  split; [apply renderItems_colText|].
  split; [apply renderItems_fresh|].
  split; [apply rendered_distinct|].
  erewrite render_lines; [|reflexivity | simpl; exact Hd]. reflexivity.
Qed.

Lemma render_shows_the_model_witness :
  exists s' c,
    render (construct (DataLines docABC) [Item staleRow] None) = Ok s' /\
    container s' = Some c /\
    length c = 7 /\
    (exists id, nth_error c 4 = Some (Divider id 2)) /\
    (exists r, nth_error c 3 = Some (Item r) /\ rowIndex r = 1 /\
               datasetLineNumber r = 2%Z /\ colText r = Some "B") /\
    shownTexts c = [Some "A"; Some "B"; Some "C"].
Proof.
  destruct (render_shows_the_model
              (construct (DataLines docABC) [Item staleRow] None)
              [Item staleRow] docABC)
    as (s' & c & E & C & _ & L & D & R & _ & _ & _ & T & _);
    try reflexivity.
  exists s', c. split; [exact E|]. split; [exact C|]. split; [exact L|].
  split; [apply (D 2); simpl; lia|].
  split; [apply (R 1 (mkLine 2 "B")); reflexivity | exact T].
Defined.

(** X2.  After [render()], the confirm and cancel buttons are on the row
    whose index is [pendingDeleteIndex] and on no other row: at most one
    row shows the prompt, and none does when nothing is pending or the
    pending index is not the index of a row. *)
Theorem render_shows_one_prompt (s : TextArranger) (c0 : list Node)
        (ls : list Line) :
  container s = Some c0 -> data s = DataLines ls ->
  exists s' c,
    render s = Ok s' /\ container s' = Some c /\
    (forall i r, nth_error (listGroupItems c) i = Some r ->
                 (confirming r = true <->
                  pendingDeleteIndex s = Some (Z.of_nat i))) /\
    (forall i j ri rj,
        nth_error (listGroupItems c) i = Some ri ->
        nth_error (listGroupItems c) j = Some rj ->
        confirming ri = true -> confirming rj = true -> i = j) /\
    ((forall i, i < length ls -> pendingDeleteIndex s <> Some (Z.of_nat i)) ->
     promptRow s' = None).
Proof.
  intros Hc Hd. rewrite (render_lines s c0 ls Hc Hd).
  eexists. eexists. split; [reflexivity|]. split; [reflexivity|].
  assert (Hrow : forall i r,
             nth_error (listGroupItems
                          (renderedChildren (pendingDeleteIndex s) ls)) i
             = Some r ->
             (confirming r = true <-> pendingDeleteIndex s = Some (Z.of_nat i))).
  { intros i r Hn. unfold renderedChildren in Hn. simpl in Hn.
    rewrite renderItems_nth in Hn. simpl in Hn.
    destruct (nth_error ls i); [|discriminate]. injection Hn as <-.
    simpl. unfold isPending. destruct (pendingDeleteIndex s) as [p|].
    - rewrite Z.eqb_eq. simpl Nat.add.
      split; [intros ->; reflexivity | intros H; injection H; auto].
    - split; discriminate. }
  split; [exact Hrow|]. split.
  - intros i j ri rj Hi Hj Ci Cj.
    apply (Hrow i ri Hi) in Ci. apply (Hrow j rj Hj) in Cj.
    rewrite Ci in Cj. injection Cj as Cj. lia.
  - intros Hnone. unfold promptRow. cbn [container setContainer].
    destruct (find confirming _) as [r|] eqn:Hf; [|reflexivity].
    exfalso. apply find_some in Hf. destruct Hf as [Hin Hconf].
    apply In_nth_error in Hin. destruct Hin as (i & Hi).
    apply (Hnone i); [|apply (Hrow i r Hi), Hconf].
    assert (Hlen : i < length (listGroupItems
                                 (renderedChildren (pendingDeleteIndex s) ls)))
      by (apply nth_error_Some; congruence).
    unfold renderedChildren in Hlen. simpl in Hlen.
    rewrite <- (length_map rowIndex), renderItems_rowIndex, length_seq in Hlen.
    exact Hlen.
Qed.

Lemma render_shows_one_prompt_witness :
  exists s' c,
    render (setPendingDeleteIndex (Some 7%Z) (mounted docABC)) = Ok s' /\
    container s' = Some c /\
    (forall i r, nth_error (listGroupItems c) i = Some r ->
                 (confirming r = true <->
                  pendingDeleteIndex (setPendingDeleteIndex (Some 7%Z) (mounted docABC))
                  = Some (Z.of_nat i))) /\
    (forall i j ri rj,
        nth_error (listGroupItems c) i = Some ri ->
        nth_error (listGroupItems c) j = Some rj ->
        confirming ri = true -> confirming rj = true -> i = j) /\
    ((forall i, i < length docABC ->
                pendingDeleteIndex (setPendingDeleteIndex (Some 7%Z) (mounted docABC))
                <> Some (Z.of_nat i)) ->
     promptRow s' = None).
Proof.
  apply (render_shows_one_prompt
           (setPendingDeleteIndex (Some 7%Z) (mounted docABC))
           (renderedChildren None docABC) docABC); reflexivity.
Defined.

(** ** Insert and delete at any index *)




Lemma textsOf_resequence s ls :
  data s = DataLines (resequence ls) -> textsOf s = map text ls.
Proof.
  intros H. unfold textsOf, linesOf. rewrite H. apply resequenceFrom_text.
Qed.

Lemma updateJsonOutput_value s c :
  container s = Some c ->
  exists s', updateJsonOutput s = Ok s' /\ data s' = data s /\
             container s' = container s /\
             pendingDeleteIndex s' = pendingDeleteIndex s /\
             console s' = console s /\
             outputArea s' = mirrored (outputArea s) c.
Proof.
  intros Hc. unfold updateJsonOutput, mirrored. rewrite Hc.
  destruct (outputArea s) eqn:E; eexists; (split; [reflexivity|]); simpl;
    repeat split; auto.
Qed.

Lemma mirrored_rendered out pd ls :
  numbered ls ->
  mirrored out (renderedChildren pd ls)
  = match out with None => None | Some _ => Some (JsonOf ls) end.
Proof.
  intros H. unfold mirrored. rewrite collectLines_rendered.
  rewrite (resequence_fixed _ H). reflexivity.
Qed.




Lemma splice_delete_inside {A : Type} start (l : list A) :
  (0 <= start < Z.of_nat (length l))%Z ->
  splice start 1 [] l
  = firstn (Z.to_nat start) l ++ skipn (S (Z.to_nat start)) l.
Proof.
  intros H. unfold splice. rewrite spliceStart_inside by lia.
  rewrite Nat.add_1_r. reflexivity.
Qed.



(** ** The dragged block during a drag *)

Lemma removeChild_fresh id l :
  ~ In id (map nodeId l) -> removeChild id l = l.
Proof.
  intros H. unfold removeChild. apply forallb_filter_id.
  apply forallb_forall. intros x Hx. apply negb_true_iff, Nat.eqb_neq.
  intros E. apply H. rewrite <- E. apply in_map, Hx.
Qed.

Lemma insertAt_middle n ref L x R :
  ~ In ref (map nodeId L) -> nodeId x = ref ->
  insertAt n ref (L ++ x :: R) = L ++ n :: x :: R.
Proof.
  intros HL Hx. induction L as [|y L IH]; simpl.
  - rewrite Hx, Nat.eqb_refl. reflexivity.
  - simpl in HL. destruct (Nat.eqb_spec (nodeId y) ref) as [E|_]; [tauto|].
    rewrite IH by tauto. reflexivity.
Qed.

Lemma moveDraggables_before a ds :
  forall P B Q,
    NoDup (map rowId ds) ->
    ~ In (rowId a) (map nodeId (P ++ B)) ->
    (forall d, In d ds ->
               ~ In (rowId d) (map nodeId B) /\ rowId d <> rowId a) ->
    moveDraggables (Some a) ds (P ++ B ++ Item a :: Q)
    = inl (filter (fun n => negb (memId (nodeId n) (map rowId ds))) P
             ++ B ++ map Item ds
             ++ Item a :: filter (fun n => negb (memId (nodeId n) (map rowId ds))) Q).
Proof.
  induction ds as [|d ds IH]; intros P B Q Hnd Ha Hds.
  - simpl. rewrite !filter_true. reflexivity.
  - inversion Hnd as [|? ? Hd Hnd']; subst.
    destruct (Hds d (or_introl eq_refl)) as [HdB Hda].
    cbn [moveDraggables]. unfold insertBefore.
    assert (Hex : existsb (fun x => nodeId x =? rowId a) (P ++ B ++ Item a :: Q)
                  = true).
    { apply existsb_exists. exists (Item a). split; [|apply Nat.eqb_refl].
      apply in_or_app. right. apply in_or_app. right. left. reflexivity. }
    rewrite Hex. cbn [nodeId].
    destruct (Nat.eqb_spec (rowId d) (rowId a)) as [E|_]; [contradiction|].
    assert (Hrm : removeChild (rowId d) (P ++ B ++ Item a :: Q)
                  = (removeChild (rowId d) P ++ B)
                      ++ Item a :: removeChild (rowId d) Q).
    { unfold removeChild. rewrite !filter_app. cbn [filter nodeId].
      destruct (Nat.eqb_spec (rowId a) (rowId d)) as [E|_]; [congruence|].
      cbn [negb]. fold (removeChild (rowId d) B).
      rewrite (removeChild_fresh _ _ HdB), <- app_assoc. reflexivity. }
    rewrite Hrm, insertAt_middle; [| |reflexivity].
    + rewrite <- app_assoc.
      change (B ++ Item d :: Item a :: removeChild (rowId d) Q)
        with (B ++ [Item d] ++ Item a :: removeChild (rowId d) Q).
      rewrite (app_assoc B [Item d]).
      rewrite IH; [| exact Hnd' | |].
      * unfold removeChild. rewrite !filter_filter_and.
        assert (Hext : forall n,
                   negb (nodeId n =? rowId d)
                   && negb (memId (nodeId n) (map rowId ds))
                   = negb (memId (nodeId n) (map rowId (d :: ds)))).
        { intros n. cbn [memId existsb map]. rewrite negb_orb. reflexivity. }
        rewrite !(filter_ext _ _ Hext), <- !app_assoc. reflexivity.
      * rewrite app_assoc, map_app, in_app_iff. cbn [map nodeId In].
        intros [H | [H | []]]; [|congruence].
        apply Ha. rewrite map_app, in_app_iff in *.
        destruct H as [H | H]; [left | right; exact H].
        apply in_map_iff in H. destruct H as (x & Ex & Hx).
        apply filter_In in Hx. rewrite <- Ex. apply in_map. tauto.
      * intros d' Hd'. destruct (Hds d' (or_intror Hd')) as [H1 H2].
        split; [|exact H2]. rewrite map_app, in_app_iff. cbn [map nodeId In].
        intros [H | [H | []]]; [contradiction|].
        apply Hd. rewrite H. apply in_map, Hd'.
    + rewrite map_app, in_app_iff in *. intros [H | H]; [|tauto].
      apply Ha. left. apply in_map_iff in H. destruct H as (x & Ex & Hx).
      unfold removeChild in Hx. apply filter_In in Hx.
      rewrite <- Ex. apply in_map. tauto.
Qed.

Lemma staysPut_ids c n :
  distinctNodes c -> In n c ->
  negb (memId (nodeId n) (map rowId (filter dragging (listGroupItems c))))
  = staysPut n.
Proof. intros Hnd Hn. unfold staysPut. rewrite dragged_ids; auto. Qed.

Lemma listGroupItems_app c1 c2 :
  listGroupItems (c1 ++ c2) = listGroupItems c1 ++ listGroupItems c2.
Proof.
  induction c1 as [|[id k | r] c1 IH]; simpl; rewrite ?IH; reflexivity.
Qed.

Lemma listGroupItems_staysPut c :
  listGroupItems (filter staysPut c) = filter notDragging (listGroupItems c).
Proof.
  induction c as [|[id k | r] c IH]; simpl; auto.
  unfold staysPut, notDragging in *. simpl.
  destruct (dragging r); simpl; rewrite IH; reflexivity.
Qed.

Lemma listGroupItems_dragged c :
  listGroupItems (filter draggedNode c) = filter dragging (listGroupItems c).
Proof.
  induction c as [|[id k | r] c IH]; simpl; auto.
  destruct (dragging r); simpl; rewrite IH; reflexivity.
Qed.

Lemma filter_partition_permutation {A : Type} (p : A -> bool) l :
  Permutation l (filter (fun x => negb (p x)) l ++ filter p l).
Proof.
  induction l as [|x l IH]; simpl; [constructor|].
  destruct (p x); simpl.
  - apply Permutation_cons_app. exact IH.
  - constructor. exact IH.
Qed.

Section DragOver.

Variable getBoundingClientRect : Row -> DOMRect.

Lemma anchor_in_container y c a :
  getDragAfterElement getBoundingClientRect y c = Some a ->
  In (Item a) c /\ dragging a = false.
Proof.
  intros Ha. pose proof (getDragAfterElement_reduced getBoundingClientRect y c) as H.
  rewrite Ha in H. destruct H as (pre & post & E & _).
  assert (Hin : In a (filter notDragging (listGroupItems c)))
    by (rewrite E; apply in_elt).
  apply filter_In in Hin. destruct Hin as [Hin Hnd].
  split; [apply listGroupItems_In, Hin|].
  unfold notDragging in Hnd. apply negb_true_iff, Hnd.
Qed.

Lemma handleDragOver_to_the_end y s c :
  container s = Some c -> distinctNodes c ->
  getDragAfterElement getBoundingClientRect y c = None ->
  handleDragOver getBoundingClientRect y s
  = Ok (setContainer (filter staysPut c ++ filter draggedNode c) s).
Proof.
  intros Hc Hnd E. unfold handleDragOver. rewrite Hc, E.
  rewrite moveDraggables_append
    by (apply NoDup_map_filter, distinctNodes_rows; exact Hnd).
  rewrite draggedNode_filter. do 2 f_equal. f_equal.
  apply filter_ext_in. intros n Hn. apply staysPut_ids; assumption.
Qed.

Lemma handleDragOver_before_anchor y s c a :
  container s = Some c -> distinctNodes c ->
  getDragAfterElement getBoundingClientRect y c = Some a ->
  exists pre post,
    c = pre ++ Item a :: post /\
    handleDragOver getBoundingClientRect y s
    = Ok (setContainer
            (filter staysPut pre ++ filter draggedNode c
               ++ Item a :: filter staysPut post) s).
Proof.
  intros Hc Hnd Ha.
  destruct (anchor_in_container y c a Ha) as [Hin Hdr].
  destruct (in_split _ _ Hin) as (pre & post & E).
  exists pre, post. split; [exact E|].
  unfold handleDragOver. rewrite Hc, Ha.
  assert (Hids : ~ In (rowId a) (map nodeId (pre ++ post))).
  { unfold distinctNodes in Hnd. rewrite E, map_app in Hnd. simpl in Hnd.
    apply NoDup_remove_2 in Hnd. rewrite map_app. exact Hnd. }
  pose proof (moveDraggables_before a (filter dragging (listGroupItems c))
                pre [] post) as H.
  simpl app in H. rewrite <- E in H. rewrite H.
  - rewrite draggedNode_filter. do 2 f_equal. f_equal; [|do 2 f_equal];
      apply filter_ext_in; intros n Hn; apply staysPut_ids; auto;
      rewrite E; apply in_or_app; [left | right; right]; exact Hn.
  - apply NoDup_map_filter, distinctNodes_rows, Hnd.
  - rewrite app_nil_r. rewrite map_app, in_app_iff in Hids. tauto.
  - intros d Hd. split; [intros []|]. intros Heq.
    apply filter_In in Hd. destruct Hd as [Hd Hdd].
    apply listGroupItems_In in Hd.
    assert (Item d = Item a)
      by (apply (NoDup_map_injective nodeId c); auto).
    congruence.
Qed.

(** X5.  While dragging, when [getDragAfterElement] finds an anchor row,
    [handleDragOver] moves the dragged rows, in their order, to sit together
    immediately before the anchor; every other child of the container
    (rows and dividers alike) keeps its place relative to the others. *)
Theorem handleDragOver_places_block_before_anchor (y : Double.t) (s : TextArranger)
        (c : list Node) (a : Row) :
  container s = Some c -> distinctNodes c ->
  getDragAfterElement getBoundingClientRect y c = Some a ->
  exists pre post,
    c = pre ++ Item a :: post /\
    dragging a = false /\
    handleDragOver getBoundingClientRect y s
    = Ok (setContainer
            (filter staysPut pre ++ filter draggedNode c
               ++ Item a :: filter staysPut post) s).
Proof.
  intros Hc Hnd Ha.
  destruct (handleDragOver_before_anchor y s c a Hc Hnd Ha)
    as (pre & post & E & H).
  exists pre, post. split; [exact E|]. split; [|exact H].
  apply (anchor_in_container y c a Ha).
Qed.

Lemma handleDragOver_rearranges (y : Double.t) (s : TextArranger)
      (c : list Node) :
  container s = Some c -> distinctNodes c ->
  exists c',
    handleDragOver getBoundingClientRect y s = Ok (setContainer c' s) /\
    Permutation c c' /\
    distinctNodes c' /\
    filter staysPut c' = filter staysPut c /\
    filter draggedNode c' = filter draggedNode c.
Proof.
  intros Hc Hnd.
  assert (Hkeep : forall l, filter staysPut (filter staysPut l) = filter staysPut l).
  { intros l. rewrite filter_filter_and. apply filter_ext. intros n.
    destruct (staysPut n); reflexivity. }
  assert (Hdrop : forall l, filter draggedNode (filter staysPut l) = []).
  { intros l. rewrite filter_filter_and. induction l as [|n l IH]; simpl; auto.
    unfold staysPut at 1. destruct (draggedNode n); simpl; exact IH. }
  assert (Hdd : forall l, filter draggedNode (filter draggedNode l) = filter draggedNode l).
  { intros l. rewrite filter_filter_and. apply filter_ext. intros n.
    destruct (draggedNode n); reflexivity. }
  assert (Hsd : forall l, filter staysPut (filter draggedNode l) = []).
  { intros l. rewrite filter_filter_and. induction l as [|n l IH]; simpl; auto.
    unfold staysPut at 1. destruct (draggedNode n); simpl; exact IH. }
  assert (Hfinish : forall c', Permutation c c' -> distinctNodes c').
  { intros c' Hp. unfold distinctNodes in *.
    eapply Permutation_NoDup; [apply Permutation_map, Hp | exact Hnd]. }
  destruct (getDragAfterElement getBoundingClientRect y c) as [a|] eqn:Ha.
  - destruct (handleDragOver_before_anchor y s c a Hc Hnd Ha)
      as (pre & post & E & ->).
    destruct (anchor_in_container y c a Ha) as [_ Hdr].
    assert (Hsa : staysPut (Item a) = true)
      by (unfold staysPut; simpl; rewrite Hdr; reflexivity).
    assert (Hda : draggedNode (Item a) = false) by exact Hdr.
    eexists. split; [reflexivity|].
    assert (Hp : Permutation c (filter staysPut pre ++ filter draggedNode c
                                  ++ Item a :: filter staysPut post)).
    { eapply Permutation_trans;
        [apply (filter_partition_permutation draggedNode c)|].
      change (fun x => negb (draggedNode x)) with staysPut.
      rewrite E at 1. rewrite filter_app. cbn [filter]. rewrite Hsa.
      rewrite <- app_assoc. apply Permutation_app_head.
      apply Permutation_app_comm. }
    split; [exact Hp|]. split; [apply Hfinish, Hp|]. split.
    + rewrite !filter_app. cbn [filter]. rewrite Hsa, Hsd, !Hkeep. cbn [app].
      rewrite E, filter_app. cbn [filter]. rewrite Hsa. reflexivity.
    + rewrite !filter_app. cbn [filter]. rewrite Hda, Hdd, !Hdrop, app_nil_r.
      reflexivity.
  - rewrite (handleDragOver_to_the_end y s c Hc Hnd Ha).
    eexists. split; [reflexivity|].
    assert (Hp : Permutation c (filter staysPut c ++ filter draggedNode c))
      by apply (filter_partition_permutation draggedNode c).
    split; [exact Hp|]. split; [apply Hfinish, Hp|]. split.
    + rewrite filter_app, Hkeep, Hsd, app_nil_r. reflexivity.
    + rewrite filter_app, Hdrop, Hdd. reflexivity.
Qed.

(** X6.  Whatever the pointer position and the layout, [handleDragOver]
    returns and only rearranges the children of the container: the new
    children are a permutation of the old ones, still without repetition;
    the nodes that are not dragged keep their relative order, and so do the
    dragged rows.  The model, the pending delete, the output area and the
    console are not touched. *)
Theorem handleDragOver_only_rearranges (y : Double.t) (s : TextArranger)
        (c : list Node) :
  container s = Some c -> distinctNodes c ->
  exists c',
    handleDragOver getBoundingClientRect y s = Ok (setContainer c' s) /\
    Permutation c c' /\
    distinctNodes c' /\
    filter staysPut c' = filter staysPut c /\
    filter draggedNode c' = filter draggedNode c.
Proof. apply handleDragOver_rearranges. Qed.

End DragOver.

Lemma handleDragOver_places_block_before_anchor_witness :
  exists pre post,
    childrenOf draggingA = pre ++ Item (renderRow None 2 (mkLine 3 "C")) :: post /\
    dragging (renderRow None 2 (mkLine 3 "C")) = false /\
    handleDragOver stackedLayout (Double.ofZ 45) draggingA
    = Ok (setContainer
            (filter staysPut pre ++ filter draggedNode (childrenOf draggingA)
               ++ Item (renderRow None 2 (mkLine 3 "C")) :: filter staysPut post)
            draggingA).
Proof.
  apply (handleDragOver_places_block_before_anchor stackedLayout (Double.ofZ 45) draggingA
           (childrenOf draggingA) (renderRow None 2 (mkLine 3 "C"))).
  - reflexivity.
  - unfold distinctNodes. simpl. repeat constructor; simpl; lia.
  - reflexivity.
Defined.

Lemma handleDragOver_only_rearranges_witness :
  exists c',
    handleDragOver stackedLayout (Double.ofZ 45) draggingA = Ok (setContainer c' draggingA) /\
    Permutation (childrenOf draggingA) c' /\
    distinctNodes c' /\
    filter staysPut c' = filter staysPut (childrenOf draggingA) /\
    filter draggedNode c' = filter draggedNode (childrenOf draggingA).
Proof.
  apply (handleDragOver_only_rearranges stackedLayout (Double.ofZ 45) draggingA
           (childrenOf draggingA)).
  - reflexivity.
  - unfold distinctNodes. simpl. repeat constructor; simpl; lia.
Defined.

Lemma split_unique {A : Type} (a : A) l1 l2 l1' l2' :
  ~ In a l1 -> ~ In a l1' ->
  l1 ++ a :: l2 = l1' ++ a :: l2' -> l1 = l1' /\ l2 = l2'.
Proof.
  revert l1'; induction l1 as [|x l1 IH]; intros [|x' l1'] H1 H1' E;
    simpl in *.
  - injection E as E. auto.
  - injection E as E1 E2. exfalso. apply H1'. left. congruence.
  - injection E as E1 E2. exfalso. apply H1. left. congruence.
  - injection E as E1 E2. subst x'.
    destruct (IH l1') as [-> ->]; auto.
Qed.

Lemma filter_all {A : Type} (p : A -> bool) l :
  Forall (fun x => p x = true) l -> filter p l = l.
Proof.
  intros H. apply forallb_filter_id, forallb_forall.
  rewrite Forall_forall in H. exact H.
Qed.

Lemma filter_none {A : Type} (p : A -> bool) l :
  Forall (fun x => p x = false) l -> filter p l = [].
Proof.
  induction 1 as [|x l Hx _ IH]; simpl; [reflexivity|]. rewrite Hx. exact IH.
Qed.

Section DropInPlace.

Variable getBoundingClientRect : Row -> DOMRect.

(** X7.  Dragging over the block's own place changes nothing: when the
    dragged rows are one run of consecutive rows and the anchor is the row
    that follows the run (or there is no anchor and the run is at the end),
    [handleDragOver] leaves the rows in the order they were in, so that the
    drop commits the same order. *)
Theorem handleDragOver_in_place_keeps_row_order (y : Double.t) (s : TextArranger)
        (c : list Node) (before block following : list Row) :
  container s = Some c -> distinctNodes c ->
  listGroupItems c = before ++ block ++ following ->
  Forall (fun r => dragging r = false) before ->
  Forall (fun r => dragging r = true) block ->
  Forall (fun r => dragging r = false) following ->
  getDragAfterElement getBoundingClientRect y c = hd_error following ->
  exists c',
    handleDragOver getBoundingClientRect y s = Ok (setContainer c' s) /\
    listGroupItems c' = listGroupItems c.
Proof.
  intros Hc Hnd Hrows Hb Hbl Hf Ha.
  assert (Hnot : forall l, Forall (fun r => dragging r = false) l ->
                           filter notDragging l = l /\ filter dragging l = []).
  { intros l Hl. split; [apply filter_all | apply filter_none; exact Hl].
    eapply Forall_impl; [|exact Hl]. intros r Hr. unfold notDragging.
    rewrite Hr. reflexivity. }
  assert (Hyes : filter notDragging block = [] /\ filter dragging block = block).
  { split; [apply filter_none | apply filter_all; exact Hbl].
    eapply Forall_impl; [|exact Hbl]. intros r Hr. unfold notDragging.
    rewrite Hr. reflexivity. }
  destruct (Hnot _ Hb) as [Hb1 Hb2]. destruct (Hnot _ Hf) as [Hf1 Hf2].
  destruct Hyes as [Hbl1 Hbl2].
  assert (Hdragged : filter dragging (listGroupItems c) = block).
  { rewrite Hrows, !filter_app, Hb2, Hbl2, Hf2, app_nil_r. reflexivity. }
  destruct following as [|a following]; simpl in Ha.
  - rewrite (handleDragOver_to_the_end _ y s c Hc Hnd Ha).
    eexists. split; [reflexivity|].
    rewrite listGroupItems_app, listGroupItems_staysPut, listGroupItems_dragged.
    rewrite Hdragged, Hrows, !filter_app, Hb1, Hbl1. simpl.
    rewrite !app_nil_r. reflexivity.
  - destruct (handleDragOver_before_anchor _ y s c a Hc Hnd Ha)
      as (pre & post & E & ->).
    eexists. split; [reflexivity|].
    assert (Hsplit : listGroupItems pre = before ++ block /\
                     listGroupItems post = following).
    { apply (split_unique a).
      - intros Hin. apply listGroupItems_In in Hin.
        unfold distinctNodes in Hnd. rewrite E, map_app in Hnd. simpl in Hnd.
        apply NoDup_remove_2 in Hnd. apply Hnd, in_or_app. left.
        apply (in_map nodeId _ _ Hin).
      - intros Hin.
        pose proof (NoDup_map_inv _ _ (distinctNodes_rows c Hnd)) as Hr.
        rewrite Hrows, app_assoc in Hr. apply NoDup_remove_2 in Hr.
        apply Hr. apply in_or_app. left. exact Hin.
      - rewrite <- app_assoc. rewrite <- Hrows, E, listGroupItems_app.
        reflexivity. }
    destruct Hsplit as [Hpre Hpost].
    rewrite !listGroupItems_app. cbn [listGroupItems].
    rewrite !listGroupItems_staysPut, listGroupItems_dragged, Hdragged.
    rewrite Hpre, Hpost, filter_app, Hb1, Hbl1, app_nil_r.
    destruct (Hnot _ (Forall_inv_tail Hf)) as [Hf1' _].
    rewrite Hf1', Hrows. reflexivity.
Qed.

End DropInPlace.

Lemma handleDragOver_in_place_keeps_row_order_witness :
  exists c',
    handleDragOver stackedLayout (Double.ofZ 25) draggingA = Ok (setContainer c' draggingA) /\
    listGroupItems c' = listGroupItems (childrenOf draggingA).
Proof.
  apply (handleDragOver_in_place_keeps_row_order stackedLayout (Double.ofZ 25) draggingA
           (childrenOf draggingA) []
           [setDragging true (renderRow None 0 (mkLine 1 "A"))]
           [renderRow None 1 (mkLine 2 "B"); renderRow None 2 (mkLine 3 "C")]).
  - reflexivity.
  - unfold distinctNodes. simpl. repeat constructor; simpl; lia.
  - reflexivity.
  - constructor.
  - repeat constructor.
  - repeat constructor.
  - reflexivity.
Defined.

(** ** Starting and committing a drag *)

Lemma nth_map_default {A : Type} (f : A -> bool) l j :
  nth j (map f l) false
  = match nth_error l j with Some x => f x | None => false end.
Proof. revert j; induction l; intros [|j]; simpl; auto. Qed.

(** X8.  The [dragstart] listener of a row, in a view where no row is being
    dragged: if the row's checkbox is checked, the rows that become dragged
    are exactly the checked rows; if it is not, only that row becomes
    dragged, whatever else is checked.  The checkboxes, the texts and the
    order of the children are left alone. *)
Theorem dragStart_picks_the_block (p : nat) (s : TextArranger) (c : list Node)
        (r : Row) (b : bool) :
  container s = Some c -> distinctNodes c ->
  nth_error (listGroupItems c) p = Some r -> checkbox r = Some b ->
  Forall (fun x => dragging x = false) (listGroupItems c) ->
  exists c',
    dragStart p s = Ok (setContainer c' s) /\
    map nodeId c' = map nodeId c /\
    marks c' = marks c /\
    shownTexts c' = shownTexts c /\
    (forall j, nth j (map dragging (listGroupItems c')) false
               = if b then nth j (marks c) false else j =? p).
Proof.
  intros Hc Hnd Hp Hb Hnone. unfold dragStart. rewrite Hc, Hp, Hb.
  destruct b.
  - eexists. split; [reflexivity|].
    split; [apply nodeId_mapRows; intros x; destruct (isChecked x); reflexivity|].
    unfold marks, shownTexts. rewrite listGroupItems_mapRows, !map_map.
    split; [apply map_ext; intros x; destruct (isChecked x) eqn:Ex;
            [unfold isChecked in *; simpl; exact Ex | exact Ex]|].
    split; [apply map_ext; intros x; destruct (isChecked x); reflexivity|].
    intros j. f_equal. apply map_ext_in. intros x Hx.
    rewrite Forall_forall in Hnone. specialize (Hnone x Hx).
    destruct (isChecked x); simpl; [reflexivity | exact Hnone].
  - eexists. split; [reflexivity|].
    split; [apply nodeId_updateRow; reflexivity|].
    unfold marks, shownTexts. rewrite listGroupItems_updateRow, !map_map.
    split; [apply map_ext; intros x; destruct (rowId x =? rowId r); reflexivity|].
    split; [apply map_ext; intros x; destruct (rowId x =? rowId r); reflexivity|].
    intros j. rewrite <- (map_map _ dragging), nth_map_default.
    rewrite (nth_error_update_row _ p r _ (distinctNodes_rows _ Hnd) Hp).
    destruct (j =? p); [reflexivity|].
    destruct (nth_error (listGroupItems c) j) as [x|] eqn:Hj; [|reflexivity].
    rewrite Forall_forall in Hnone. apply Hnone.
    eapply nth_error_In; eassumption.
Qed.

Lemma dragStart_picks_the_block_witness :
  exists c',
    dragStart 0 (setContainer
                   (changeCheckboxes [1; 2] (renderedChildren None docABC))
                   (mounted docABC))
    = Ok (setContainer c'
            (setContainer
               (changeCheckboxes [1; 2] (renderedChildren None docABC))
               (mounted docABC))) /\
    map dragging (listGroupItems c') = [true; false; false].
Proof.
  destruct (dragStart_picks_the_block 0
              (setContainer
                 (changeCheckboxes [1; 2] (renderedChildren None docABC))
                 (mounted docABC))
              (changeCheckboxes [1; 2] (renderedChildren None docABC))
              (renderRow None 0 (mkLine 1 "A")) false)
    as (c' & E & _ & _ & _ & _).
  - reflexivity.
  - unfold distinctNodes. simpl. repeat constructor; simpl; lia.
  - reflexivity.
  - reflexivity.
  - repeat constructor.
  - exists c'. split; [exact E|].
    injection E as E. rewrite <- E. reflexivity.
Defined.

Lemma collectLines_shown i rows :
  Forall (fun r => colText r <> None) rows ->
  map (fun l => Some (text l)) (collectLines i rows) = map colText rows /\
  map lineNumber (collectLines i rows)
  = map Z.of_nat (seq (S i) (length (collectLines i rows))).
Proof.
  intros H; revert i; induction H as [|r rows Hr _ IH]; intros i; simpl;
    [split; reflexivity|].
  destruct (colText r); [|congruence]. simpl.
  destruct (IH (S i)) as [H1 H2]. rewrite H1, H2. split; [reflexivity|].
  f_equal. lia.
Qed.

Lemma shownTexts_rendered pd ls :
  shownTexts (renderedChildren pd ls) = map (fun l => Some (text l)) ls.
Proof. apply (renderItems_colText pd 0 ls). Qed.

Lemma shownTexts_mapRows f c :
  (forall r, colText (f r) = colText r) ->
  shownTexts (mapRows f c) = shownTexts c.
Proof.
  intros Hf. unfold shownTexts. rewrite listGroupItems_mapRows, map_map.
  apply map_ext, Hf.
Qed.

Lemma dragEnd_commit (s : TextArranger) (c : list Node) :
  container s = Some c -> data s <> DataAbsent ->
  Forall (fun r => colText r <> None) (listGroupItems c) ->
  exists s' c',
    dragEnd s = Ok s' /\ container s' = Some c' /\
    map (fun t => Some t) (textsOf s') = shownTexts c /\
    numbered (linesOf s') /\
    data s' = DataLines (linesOf s') /\
    shownTexts c' = shownTexts c /\
    Forall (fun r => checkbox r = Some false /\ dragging r = false)
           (listGroupItems c') /\
    pendingDeleteIndex s' = pendingDeleteIndex s /\
    outputArea s'
    = match outputArea s with
      | None => None
      | Some _ => Some (JsonOf (linesOf s'))
      end.
Proof.
  intros Hc Hd Hrows. unfold dragEnd. rewrite Hc. cbv zeta.
  set (c2 := mapRows (setCheckbox false) (mapRows (setDragging false) c)).
  set (ls' := collectLines 0 (listGroupItems c2)).
  change (data (setContainer c2 s)) with (data s).
  assert (Hshown : shownTexts c2 = shownTexts c).
  { unfold c2. rewrite !shownTexts_mapRows; reflexivity. }
  assert (Hall : Forall (fun r => colText r <> None) (listGroupItems c2)).
  { unfold shownTexts in Hshown. rewrite Forall_forall in *. intros r Hr.
    assert (In (colText r) (map colText (listGroupItems c)))
      by (rewrite <- Hshown; apply in_map, Hr).
    apply in_map_iff in H. destruct H as (x & E & Hx). rewrite <- E. auto. }
  destruct (collectLines_shown 0 _ Hall) as [Htexts Hnum]. fold ls' in Htexts, Hnum.
  assert (Hgo :
            (s2 <- render (setData (DataLines ls') (setContainer c2 s)) ;;
             updateJsonOutput s2)
            = (s2 <- Ok (setContainer (renderedChildren (pendingDeleteIndex s) ls')
                           (setData (DataLines ls') (setContainer c2 s))) ;;
               updateJsonOutput s2)).
  { erewrite render_lines; [reflexivity | reflexivity | reflexivity]. }
  assert (Hres : exists s' c',
             (s2 <- render (setData (DataLines ls') (setContainer c2 s)) ;;
              updateJsonOutput s2) = Ok s' /\ container s' = Some c' /\
             map (fun t => Some t) (textsOf s') = shownTexts c /\
             numbered (linesOf s') /\ data s' = DataLines (linesOf s') /\
             shownTexts c' = shownTexts c /\
             Forall (fun r => checkbox r = Some false /\ dragging r = false)
                    (listGroupItems c') /\
             pendingDeleteIndex s' = pendingDeleteIndex s /\
             outputArea s'
             = match outputArea s with
               | None => None
               | Some _ => Some (JsonOf (linesOf s'))
               end).
  { rewrite Hgo. unfold bind.
    edestruct updateJsonOutput_value as (s' & E & D & C & P & _ & O);
      [| exists s'; eexists; split; [exact E|]].
    - reflexivity.
    - split; [rewrite C; reflexivity|].
      unfold textsOf, linesOf. rewrite D. cbn [data setContainer setData].
      split; [rewrite map_map, <- Hshown; exact Htexts|].
      split; [exact Hnum|]. split; [reflexivity|].
      split; [rewrite shownTexts_rendered, <- Hshown; exact Htexts|].
      split; [apply renderItems_fresh|].
      split; [rewrite P; reflexivity|].
      rewrite O. cbn [outputArea setContainer setData].
      apply mirrored_rendered. exact Hnum. }
  destruct (data s); [congruence | exact Hres | exact Hres].
Qed.

(** X9.  The [dragend] listener (the drag commit), on a component whose rows
    all have their editable cell and whose data object exists: the model's
    lines become the texts the rows show, in the order of the rows in the
    container, numbered [1..N], so an edit typed before or during the drag
    is kept; the view is rendered anew, with the same texts, no row checked
    and none dragged; an output area, when there is one, holds the new line
    list.  A pending delete is not cleared. *)
Theorem dragEnd_commits_the_view_order (s : TextArranger) (c : list Node) :
  container s = Some c -> data s <> DataAbsent ->
  Forall (fun r => colText r <> None) (listGroupItems c) ->
  exists s' c',
    dragEnd s = Ok s' /\ container s' = Some c' /\
    map (fun t => Some t) (textsOf s') = shownTexts c /\
    numbered (linesOf s') /\
    data s' = DataLines (linesOf s') /\
    shownTexts c' = shownTexts c /\
    Forall (fun r => checkbox r = Some false /\ dragging r = false)
           (listGroupItems c') /\
    pendingDeleteIndex s' = pendingDeleteIndex s /\
    outputArea s'
    = match outputArea s with
      | None => None
      | Some _ => Some (JsonOf (linesOf s'))
      end.
Proof. apply dragEnd_commit. Qed.

Lemma dragEnd_commits_the_view_order_witness :
  exists s',
    dragEnd (after (handleDragOver stackedLayout (Double.ofZ 45) draggingA)) = Ok s' /\
    map (fun t => Some t) (textsOf s') = [Some "B"; Some "A"; Some "C"].
Proof.
  destruct (dragEnd_commits_the_view_order
              (after (handleDragOver stackedLayout (Double.ofZ 45) draggingA))
              (childrenOf (after (handleDragOver stackedLayout (Double.ofZ 45) draggingA))))
    as (s' & c' & E & _ & T & _).
  - reflexivity.
  - vm_compute. discriminate.
  - vm_compute. repeat constructor; discriminate.
  - exists s'. split; [exact E | exact T].
Defined.

(** ** Typing and the flush *)

Lemma shownTexts_edit c p r t :
  distinctNodes c -> nth_error (listGroupItems c) p = Some r ->
  colText r <> None ->
  forall j,
    nth_error (shownTexts (updateRow (rowId r) (setTextContent t) c)) j
    = if j =? p then Some (Some t) else nth_error (shownTexts c) j.
Proof.
  intros Hnd Hp Hr j. unfold shownTexts.
  rewrite listGroupItems_updateRow, nth_error_map.
  rewrite (nth_error_update_row _ p r _ (distinctNodes_rows _ Hnd) Hp).
  destruct (j =? p); [|rewrite nth_error_map; reflexivity].
  simpl. destruct (colText r); [reflexivity | congruence].
Qed.

Lemma shownTexts_editable c :
  Forall (fun r => colText r <> None) (listGroupItems c) <->
  Forall (fun o => o <> None) (shownTexts c).
Proof. unfold shownTexts. rewrite Forall_map. reflexivity. Qed.

Lemma editable_after_edit c p r t :
  distinctNodes c -> nth_error (listGroupItems c) p = Some r ->
  Forall (fun x => colText x <> None) (listGroupItems c) ->
  Forall (fun x => colText x <> None)
         (listGroupItems (updateRow (rowId r) (setTextContent t) c)).
Proof.
  intros Hnd Hp H. rewrite listGroupItems_updateRow, Forall_map.
  eapply Forall_impl; [|exact H]. intros x Hx. cbv beta in *.
  destruct (rowId x =? rowId r); [|exact Hx].
  unfold setTextContent. simpl. destruct (colText x); [discriminate | exact Hx].
Qed.

Lemma editText_view (p : nat) (t : string)
      (s : TextArranger) (c : list Node) (r : Row) :
  container s = Some c -> distinctNodes c ->
  nth_error (listGroupItems c) p = Some r ->
  Forall (fun x => colText x <> None) (listGroupItems c) ->
  exists s' c',
    editText p t s = Ok s' /\ container s' = Some c' /\
    data s' = data s /\
    pendingDeleteIndex s' = pendingDeleteIndex s /\
    map nodeId c' = map nodeId c /\
    marks c' = marks c /\
    (forall j, nth_error (shownTexts c') j
               = if j =? p then Some (Some t) else nth_error (shownTexts c) j) /\
    (outputArea s = None -> outputArea s' = None) /\
    (outputArea s <> None ->
     exists ls, outputArea s' = Some (JsonOf ls) /\ numbered ls /\
                map (fun l => Some (text l)) ls = shownTexts c').
Proof.
  intros Hc Hnd Hp Hall.
  assert (Hr : colText r <> None).
  { rewrite Forall_forall in Hall. apply Hall.
    eapply nth_error_In; eassumption. }
  unfold editText. rewrite Hc, Hp.
  destruct (colText r) as [t0|] eqn:Ht0; [|congruence].
  set (c1 := updateRow (rowId r) (setTextContent t) c).
  destruct (updateJsonOutput_value (setContainer c1 s) c1 eq_refl)
    as (s' & E & D & C & P & _ & O).
  exists s', c1. split; [exact E|]. split; [exact C|].
  split; [exact D|]. split; [exact P|].
  split; [apply nodeId_updateRow; reflexivity|].
  split.
  { unfold marks, c1. rewrite listGroupItems_updateRow, map_map.
    apply map_ext. intros x. destruct (rowId x =? rowId r); reflexivity. }
  split.
  { apply shownTexts_edit; [exact Hnd | exact Hp | congruence]. }
  cbn [outputArea setContainer] in O. rewrite O. unfold mirrored. split.
  - intros ->. reflexivity.
  - intros Hout. destruct (outputArea s); [|congruence].
    eexists. split; [reflexivity|].
    destruct (collectLines_shown 0 _ (editable_after_edit c p r t Hnd Hp Hall))
      as [H1 H2].
    split; [exact H2 | exact H1].
Qed.

(** X10.  Typing into the cell of a row changes the view and, when there is
    an output area, the output area, and nothing else: [data.lines] and the
    pending delete are as before.  The output area then holds the texts the
    rows show, the typed text included, numbered [1..N]: it mirrors the
    view, not the model. *)
Theorem editText_reaches_the_output_not_the_model (p : nat) (t : string)
        (s : TextArranger) (c : list Node) (r : Row) :
  container s = Some c -> distinctNodes c ->
  nth_error (listGroupItems c) p = Some r ->
  Forall (fun x => colText x <> None) (listGroupItems c) ->
  exists s' c',
    editText p t s = Ok s' /\ container s' = Some c' /\
    data s' = data s /\
    pendingDeleteIndex s' = pendingDeleteIndex s /\
    map nodeId c' = map nodeId c /\
    marks c' = marks c /\
    (forall j, nth_error (shownTexts c') j
               = if j =? p then Some (Some t) else nth_error (shownTexts c) j) /\
    (outputArea s = None -> outputArea s' = None) /\
    (outputArea s <> None ->
     exists ls, outputArea s' = Some (JsonOf ls) /\ numbered ls /\
                map (fun l => Some (text l)) ls = shownTexts c').
Proof. apply editText_view. Qed.

Lemma editText_reaches_the_output_not_the_model_witness :
  exists s' c',
    editText 1 "edited"
             (after (render (construct (DataLines docABC) [] (Some InitialValue))))
    = Ok s' /\
    container s' = Some c' /\
    data s' = DataLines docABC /\
    shownTexts c' = [Some "A"; Some "edited"; Some "C"] /\
    outputArea s'
    = Some (JsonOf [mkLine 1 "A"; mkLine 2 "edited"; mkLine 3 "C"]).
Proof.
  destruct (editText_reaches_the_output_not_the_model 1 "edited"
              (after (render (construct (DataLines docABC) [] (Some InitialValue))))
              (renderedChildren None docABC)
              (renderRow None 1 (mkLine 2 "B")))
    as (s' & c' & E & C & D & _).
  - reflexivity.
  - unfold distinctNodes. simpl. repeat constructor; simpl; lia.
  - reflexivity.
  - repeat constructor; discriminate.
  - exists s', c'. split; [exact E|]. split; [exact C|]. split; [exact D|].
    injection E as E. subst s'. injection C as C. subst c'.
    split; reflexivity.
Defined.

Lemma flushLines_takes_the_view c old :
  listGroupItems c <> [] ->
  Forall (fun r => colText r <> None) (listGroupItems c) ->
  flushLines c old = collectLines 0 (listGroupItems c).
Proof.
  intros Hne Hall. unfold flushLines.
  destruct (listGroupItems c) as [|r rows]; [congruence|].
  inversion Hall as [|? ? Hr _]; subst. simpl.
  destruct (colText r); [reflexivity | congruence].
Qed.

Lemma texts_from_shown (T : list string) (S : list (option string)) :
  map (fun x => Some x) T = S ->
  forall j, nth_error T j
            = match nth_error S j with
              | Some (Some x) => Some x
              | _ => None
              end.
Proof.
  intros <- j. rewrite nth_error_map. destruct (nth_error T j); reflexivity.
Qed.

(** X11.  An edit typed into a row is not lost by the next operation: after
    typing [t] into row [p] of a view that showed the model, the flush that
    opens [requestDelete] and [cancelDelete] brings [t] into [data.lines] at
    position [p] and leaves the other texts as they were; the lines are
    numbered [1..N]. *)
Theorem edit_survives_the_next_flush (p : nat) (t : string) (index : Z)
        (s : TextArranger) (c : list Node) (ls : list Line) :
  container s = Some c -> data s = DataLines ls -> distinctNodes c ->
  shownTexts c = map (fun l => Some (text l)) ls ->
  p < length ls ->
  exists s1 s2 s3,
    editText p t s = Ok s1 /\
    requestDelete index s1 = Ok s2 /\
    cancelDelete s1 = Ok s3 /\
    textsOf s1 = map text ls /\
    textsOf s2 = textsOf s3 /\
    numbered (linesOf s2) /\ numbered (linesOf s3) /\
    (forall j, nth_error (textsOf s2) j
               = if j =? p then Some t else nth_error (map text ls) j).
Proof.
  intros Hc Hd Hnd Hshown Hp.
  assert (Hall : Forall (fun x => colText x <> None) (listGroupItems c)).
  { apply shownTexts_editable. rewrite Hshown, Forall_map.
    apply Forall_forall. intros; discriminate. }
  assert (Hlen : length (listGroupItems c) = length ls).
  { rewrite <- (length_map colText). fold (shownTexts c).
    rewrite Hshown, length_map. reflexivity. }
  destruct (nth_error (listGroupItems c) p) as [r|] eqn:Hr;
    [| apply nth_error_None in Hr; lia].
  destruct (editText_view p t s c r Hc Hnd Hr Hall)
    as (s1 & c1 & E & C & D & _ & Hids & _ & Hedit & _).
  assert (Hall1 : Forall (fun x => colText x <> None) (listGroupItems c1)).
  { apply shownTexts_editable, Forall_forall. intros o Ho.
    apply In_nth_error in Ho. destruct Ho as (j & Hj). rewrite Hedit in Hj.
    destruct (j =? p); [congruence|].
    apply nth_error_In in Hj. rewrite Hshown in Hj.
    apply in_map_iff in Hj. destruct Hj as (l & <- & _). discriminate. }
  assert (Hne : listGroupItems c1 <> []).
  { intros H0. specialize (Hedit p). unfold shownTexts in Hedit.
    rewrite H0, Nat.eqb_refl in Hedit. simpl in Hedit.
    destruct p; discriminate. }
  pose proof (flushLines_takes_the_view c1 ls Hne Hall1) as Hflush.
  destruct (collectLines_shown 0 _ Hall1) as [Htexts Hnum].
  rewrite <- D in Hd.
  exists s1. eexists. eexists. split; [exact E|].
  rewrite (requestDelete_lines s1 c1 ls index C Hd).
  rewrite (cancelDelete_lines s1 c1 ls C Hd), Hflush.
  split; [reflexivity|]. split; [reflexivity|].
  split; [unfold textsOf, linesOf; rewrite Hd; reflexivity|].
  split; [reflexivity|]. split; [exact Hnum|]. split; [exact Hnum|].
  intros j. unfold textsOf, linesOf. cbn [data setContainer setPendingDeleteIndex setData].
  rewrite (texts_from_shown _ (shownTexts c1)), Hedit
    by (rewrite map_map; exact Htexts).
  destruct (j =? p); [reflexivity|]. symmetry. apply texts_from_shown.
  rewrite map_map. symmetry. exact Hshown.
Qed.

Lemma edit_survives_the_next_flush_witness :
  exists s1 s2 s3,
    editText 1 "edited" (mounted docABC) = Ok s1 /\
    requestDelete 0 s1 = Ok s2 /\
    cancelDelete s1 = Ok s3 /\
    textsOf s1 = map text docABC /\
    textsOf s2 = textsOf s3 /\
    numbered (linesOf s2) /\ numbered (linesOf s3) /\
    (forall j, nth_error (textsOf s2) j
               = if j =? 1 then Some "edited" else nth_error (map text docABC) j).
Proof.
  apply (edit_survives_the_next_flush 1 "edited" 0 (mounted docABC)
           (renderedChildren None docABC) docABC).
  - reflexivity.
  - reflexivity.
  - unfold distinctNodes. simpl. repeat constructor; simpl; lia.
  - reflexivity.
  - simpl. lia.
Defined.

(** ** The controls of a rendered view *)

(** X12.  In a freshly rendered view every control acts on the place it is
    drawn at: the divider that is child [2k] of the container inserts at
    index [k] (so the [N + 1] dividers insert before the first row, between
    two rows and after the last one); the delete button of the row at
    position [p] asks to delete index [p]; and on the row that shows the
    prompt, the confirm button deletes that row's index and the cancel
    button cancels. *)
Theorem rendered_controls_address_their_place (s : TextArranger)
        (ls : list Line) :
  container s = Some (renderedChildren (pendingDeleteIndex s) ls) ->
  (forall k, k <= length ls -> clickDivider (2 * k) s = addLine (Z.of_nat k) s) /\
  (forall p, p < length ls ->
             pendingDeleteIndex s <> Some (Z.of_nat p) ->
             clickDelete p s = requestDelete (Z.of_nat p) s) /\
  (forall p, p < length ls ->
             pendingDeleteIndex s = Some (Z.of_nat p) ->
             clickConfirm p s = deleteLine (Z.of_nat p) s /\
             clickCancel p s = cancelDelete s /\
             confirm s = deleteLine (Z.of_nat p) s /\
             cancel s = cancelDelete s).
Proof.
  intros Hc. split; [|split].
  - intros k Hk. unfold clickDivider. rewrite Hc.
    destruct (rendered_divider (pendingDeleteIndex s) ls k Hk) as (id & ->).
    reflexivity.
  - intros p Hp Hpd.
    destruct (nth_error ls p) as [l|] eqn:Hl; [|apply nth_error_None in Hl; lia].
    unfold clickDelete, rowAt. rewrite Hc, (rendered_row _ _ _ _ Hl). simpl.
    unfold isPending. destruct (pendingDeleteIndex s) as [q|]; [|reflexivity].
    destruct (Z.eqb_spec q (Z.of_nat p)); [congruence | reflexivity].
  - intros p Hp Hpd.
    destruct (nth_error ls p) as [l|] eqn:Hl; [|apply nth_error_None in Hl; lia].
    assert (Hconf : confirming (renderRow (pendingDeleteIndex s) p l) = true).
    { simpl. rewrite Hpd. simpl. apply Z.eqb_refl. }
    unfold clickConfirm, clickCancel, confirm, cancel, rowAt, promptRow.
    rewrite Hc, (rendered_row _ _ _ _ Hl), Hconf.
    unfold renderedChildren. simpl listGroupItems.
    rewrite (find_prompt_some _ 0 ls p l Hl Hpd). auto.
Qed.

Lemma rendered_controls_address_their_place_witness :
  clickDivider 4 (mounted docABC) = addLine 2 (mounted docABC) /\
  clickDelete 1 (mounted docABC) = requestDelete 1 (mounted docABC).
Proof.
  destruct (rendered_controls_address_their_place (mounted docABC) docABC)
    as (H1 & H2 & _).
  - reflexivity.
  - split.
    + apply (H1 2). simpl. lia.
    + apply (H2 1); [simpl; lia | discriminate].
Defined.

(** ** A pending delete and a later insert *)

Lemma nth_error_after_insert {A : Type} (x : A) l k i :
  k <= i -> k <= length l ->
  nth_error (firstn k l ++ x :: skipn k l) (S i) = nth_error l i.
Proof.
  intros Hk Hl. rewrite nth_error_app2 by (rewrite length_firstn; lia).
  rewrite length_firstn. replace (Nat.min k (length l)) with k by lia.
  replace (S i - k) with (S (i - k)) by lia. simpl.
  rewrite nth_error_skipn. f_equal. lia.
Qed.

Lemma nth_error_after_delete {A : Type} (l : list A) i :
  i <= length l ->
  nth_error (firstn i l ++ skipn (S i) l) i = nth_error l (S i).
Proof.
  intros Hi. rewrite nth_error_app2 by (rewrite length_firstn; lia).
  rewrite length_firstn. replace (i - Nat.min i (length l)) with 0 by lia.
  rewrite nth_error_skipn. f_equal. lia.
Qed.

(** X13.  A pending delete is an index, and [addLine] neither clears nor
    shifts it, whatever the view holds.  After [requestDelete(i)], whose
    opening flush captures [N] lines from the view, an insert at [k <= i]
    leaves the prompt on the row at index [i], where a different line now
    sits, and [confirm()] deletes that line: the line that was asked for is
    still in the document, at position [i] again, and the document has [N]
    lines, as many as before the insert. *)
Theorem insert_above_a_pending_delete_redirects_it (s : TextArranger)
        (c : list Node) (ls : list Line) (i k : nat) :
  container s = Some c -> data s = DataLines ls ->
  k <= i -> i < length (flushLines c ls) ->
  syncDataFromDOM s = Ok (setData (DataLines (flushLines c ls)) s) /\
  exists s1 s2 s3,
    requestDelete (Z.of_nat i) s = Ok s1 /\
    textsOf s1 = map text (flushLines c ls) /\
    addLine (Z.of_nat k) s1 = Ok s2 /\
    pendingDeleteIndex s2 = Some (Z.of_nat i) /\
    option_map rowIndex (promptRow s2) = Some i /\
    confirm s2 = Ok s3 /\
    textsOf s3
    = firstn i (firstn k (textsOf s1) ++ "" :: skipn k (textsOf s1))
        ++ skipn (S i) (firstn k (textsOf s1) ++ "" :: skipn k (textsOf s1)) /\
    length (textsOf s3) = length (flushLines c ls) /\
    nth_error (textsOf s3) i = nth_error (textsOf s1) i.
Proof.
  intros Hc Hd Hk Hi. split; [apply syncDataFromDOM_lines; assumption|].
  pose proof (requestDelete_lines s c ls (Z.of_nat i) Hc Hd) as E1.
  set (ls0 := flushLines c ls) in *.
  set (s1 := setContainer (renderedChildren (Some (Z.of_nat i)) ls0)
               (setPendingDeleteIndex (Some (Z.of_nat i))
                  (setData (DataLines ls0) s))) in *.
  assert (T1 : textsOf s1 = map text ls0) by reflexivity.
  pose proof (addLine_lines s1 _ ls0 (Z.of_nat k) eq_refl eq_refl) as E2.
  rewrite flushLines_rendered in E2. cbv zeta in E2.
  set (ls1 := resequence (splice (Z.of_nat k) 0 [newLine] (resequence ls0)))
    in *.
  set (s2 := setContainer (renderedChildren (pendingDeleteIndex s1) ls1)
               (setData (DataLines ls1) s1)) in *.
  assert (Ht1 : map text ls1
                = firstn k (map text ls0) ++ "" :: skipn k (map text ls0)).
  { unfold ls1, resequence. rewrite resequenceFrom_text, splice_map.
    rewrite resequenceFrom_text. unfold splice.
    rewrite length_map, spliceStart_inside by lia.
    rewrite Nat2Z.id, Nat.add_0_r. reflexivity. }
  assert (Hlen1 : length ls1 = S (length ls0)).
  { rewrite <- (length_map text), Ht1, length_app, length_firstn. simpl.
    rewrite length_skipn, length_map. lia. }
  destruct (nth_error ls1 i) as [l|] eqn:Hl;
    [| apply nth_error_None in Hl; lia].
  assert (Hprompt : promptRow s2 = Some (renderRow (Some (Z.of_nat i)) i l)).
  { unfold promptRow, s2. cbn [container setContainer].
    apply (find_prompt_some _ 0 ls1 i l Hl). reflexivity. }
  destruct (deleteLine_lines s2 _ ls1 (Z.of_nat i) eq_refl eq_refl)
    as (s3 & E & D & _).
  rewrite flushLines_rendered in D.
  assert (Ht3 : textsOf s3
                = firstn i (map text ls1) ++ skipn (S i) (map text ls1)).
  { rewrite (textsOf_resequence _ _ D), splice_map.
    unfold resequence. rewrite resequenceFrom_text.
    change (map text []) with (@nil string).
    rewrite splice_delete_inside by (rewrite length_map; lia).
    rewrite Nat2Z.id. reflexivity. }
  exists s1, s2, s3. split; [exact E1|]. split; [exact T1|].
  split; [exact E2|].
  split; [reflexivity|]. split; [rewrite Hprompt; reflexivity|].
  split; [unfold confirm; rewrite Hprompt; exact E|].
  rewrite Ht3, T1, Ht1. split; [reflexivity|]. split.
  - rewrite <- Ht1, length_app, length_firstn, length_skipn, length_map. lia.
  - rewrite nth_error_after_delete
      by (rewrite <- Ht1, length_map; lia).
    apply nth_error_after_insert; [exact Hk | rewrite length_map; lia].
Qed.

Lemma insert_above_a_pending_delete_redirects_it_witness :
  exists s1 s2 s3,
    requestDelete 1 typedIntoB = Ok s1 /\
    addLine 0 s1 = Ok s2 /\
    confirm s2 = Ok s3 /\
    textsOf s3 = [""; "B!"; "C"].
Proof.
  destruct (insert_above_a_pending_delete_redirects_it typedIntoB
              (childrenOf typedIntoB) docABC 1 0)
    as (_ & s1 & s2 & s3 & E1 & T1 & E2 & _ & _ & E3 & T & _);
    try reflexivity.
  - lia.
  - simpl. lia.
  - exists s1, s2, s3. repeat (split; [assumption|]).
    rewrite T, T1. reflexivity.
Defined.

(** ** Toggle-on next to the selection *)

(** X14.  A toggle-on of a row that has a marked neighbour (the row before
    it or the row after it) marks that row and changes no other checkbox:
    the selection grows by exactly that row. *)
Theorem toggle_on_next_to_a_mark_extends_the_selection (c : list Node)
        (p : nat) (r : Row) :
  distinctNodes c ->
  nth_error (listGroupItems c) p = Some r ->
  checkbox r = Some false ->
  (0 < p /\ marked (marks c) (p - 1)) \/ marked (marks c) (p + 1) ->
  forall j, marked (marks (changeCheckbox p c)) j
            <-> j = p \/ marked (marks c) j.
Proof.
  intros Hnd Hp Hb Hadj j. unfold marked.
  rewrite (changeCheckbox_marks c p r false Hnd Hp Hb).
  assert (Hn : neighbourMarked (marks c) p = true).
  { unfold neighbourMarked, marked in *.
    destruct Hadj as [[H0 H1] | H1]; rewrite H1.
    - destruct (Nat.eqb_spec p 0); [lia | reflexivity].
    - apply orb_true_r. }
  rewrite Hn, orb_true_iff, Nat.eqb_eq. reflexivity.
Qed.

Lemma toggle_on_next_to_a_mark_extends_the_selection_witness :
  marked (marks (changeCheckbox 1 (changeCheckbox 2 (renderedChildren None docABC)))) 1 /\
  marked (marks (changeCheckbox 1 (changeCheckbox 2 (renderedChildren None docABC)))) 2.
Proof.
  assert (H : forall j,
             marked (marks (changeCheckbox 1
                              (changeCheckbox 2 (renderedChildren None docABC)))) j
             <-> j = 1 \/
                 marked (marks (changeCheckbox 2 (renderedChildren None docABC))) j).
  { apply (toggle_on_next_to_a_mark_extends_the_selection
             (changeCheckbox 2 (renderedChildren None docABC)) 1
             (renderRow None 1 (mkLine 2 "B"))).
    - unfold distinctNodes. simpl. repeat constructor; simpl; lia.
    - reflexivity.
    - reflexivity.
    - right. reflexivity. }
  split; apply H; [left | right]; reflexivity.
Defined.

(** ** Whole gestures and whole sessions *)

Lemma Permutation_rows c c' :
  Permutation c c' -> Permutation (listGroupItems c) (listGroupItems c').
Proof.
  induction 1 as [| x l l' _ IH | x y l | l l' l'' _ IH1 _ IH2].
  - constructor.
  - destruct x; simpl; [exact IH | constructor; exact IH].
  - destruct x, y; simpl; try apply Permutation_refl. apply perm_swap.
  - eapply Permutation_trans; eassumption.
Qed.

Lemma dragOvers_rearrange moves :
  forall s c,
    container s = Some c -> distinctNodes c ->
    exists c1,
      dragOvers moves s = Ok (setContainer c1 s) /\
      Permutation c c1 /\ distinctNodes c1 /\
      filter staysPut c1 = filter staysPut c /\
      filter draggedNode c1 = filter draggedNode c.
Proof.
  induction moves as [|[lay y] moves IH]; intros s c Hc Hnd.
  - exists c. split; [|auto].
    destruct s as [d ct o pd cs]. simpl in *. subst ct. reflexivity.
  - destruct (handleDragOver_rearranges lay y s c Hc Hnd)
      as (c' & E & Hp & Hnd' & Hs & Hd).
    destruct (IH (setContainer c' s) c' eq_refl Hnd')
      as (c1 & E1 & Hp1 & Hnd1 & Hs1 & Hd1).
    exists c1. cbn [dragOvers]. rewrite E. unfold bind. rewrite E1.
    split; [reflexivity|].
    split; [eapply Permutation_trans; eassumption|].
    split; [exact Hnd1|]. split; congruence.
Qed.

(** X15.  A whole drag never loses, duplicates or rewrites a line.  From a
    view whose rows all have their editable cell, after any number of
    [dragover] events (any layouts, any pointer positions) the drop commits
    exactly the texts the rows showed: the texts of the model are a
    permutation of them, in the order of the rows at the drop; the rows
    that were not dragged are in the order they were in, and so are the
    dragged rows among themselves. *)
Theorem drag_and_drop_permutes_the_lines
        (moves : list ((Row -> DOMRect) * Double.t)) (s : TextArranger)
        (c : list Node) :
  container s = Some c -> distinctNodes c -> data s <> DataAbsent ->
  Forall (fun r => colText r <> None) (listGroupItems c) ->
  exists s1 c1 s2,
    dragOvers moves s = Ok s1 /\ container s1 = Some c1 /\
    dragEnd s1 = Ok s2 /\
    map (fun t => Some t) (textsOf s2) = shownTexts c1 /\
    Permutation (shownTexts c) (shownTexts c1) /\
    filter notDragging (listGroupItems c1)
    = filter notDragging (listGroupItems c) /\
    filter dragging (listGroupItems c1) = filter dragging (listGroupItems c) /\
    numbered (linesOf s2) /\
    length (linesOf s2) = length (listGroupItems c).
Proof.
  intros Hc Hnd Hd Hall.
  destruct (dragOvers_rearrange moves s c Hc Hnd)
    as (c1 & E & Hp & Hnd1 & Hs & Hdr).
  pose proof (Permutation_rows c c1 Hp) as Hrows.
  assert (Hall1 : Forall (fun r => colText r <> None) (listGroupItems c1)).
  { rewrite Forall_forall in *. intros r Hr. apply Hall.
    eapply Permutation_in; [apply Permutation_sym, Hrows | exact Hr]. }
  destruct (dragEnd_commit (setContainer c1 s) c1 eq_refl Hd Hall1)
    as (s2 & c2 & E2 & _ & T & N & _).
  exists (setContainer c1 s), c1, s2.
  split; [exact E|]. split; [reflexivity|]. split; [exact E2|].
  split; [exact T|].
  split; [unfold shownTexts; apply Permutation_map, Hrows|].
  split; [rewrite <- !listGroupItems_staysPut, Hs; reflexivity|].
  split; [rewrite <- !listGroupItems_dragged, Hdr; reflexivity|].
  split; [exact N|].
  rewrite (Permutation_length Hrows).
  rewrite <- (length_map colText (listGroupItems c1)).
  fold (shownTexts c1). rewrite <- T. unfold textsOf.
  rewrite !length_map. reflexivity.
Qed.

Lemma drag_and_drop_permutes_the_lines_witness :
  exists s1 c1 s2,
    dragOvers [(stackedLayout, Double.ofZ 45); (flatLayout, Double.ofZ 5)] draggingA = Ok s1 /\
    container s1 = Some c1 /\
    dragEnd s1 = Ok s2 /\
    map (fun t => Some t) (textsOf s2) = shownTexts c1 /\
    Permutation (shownTexts (childrenOf draggingA)) (shownTexts c1) /\
    filter notDragging (listGroupItems c1)
    = filter notDragging (listGroupItems (childrenOf draggingA)) /\
    filter dragging (listGroupItems c1)
    = filter dragging (listGroupItems (childrenOf draggingA)) /\
    numbered (linesOf s2) /\
    length (linesOf s2) = length (listGroupItems (childrenOf draggingA)).
Proof.
  apply (drag_and_drop_permutes_the_lines
           [(stackedLayout, Double.ofZ 45); (flatLayout, Double.ofZ 5)] draggingA
           (childrenOf draggingA)).
  - reflexivity.
  - unfold distinctNodes. simpl. repeat constructor; simpl; lia.
  - discriminate.
  - repeat constructor; discriminate.
Defined.

(** X16.  On a component mounted on any document, at any point of any
    session of method calls and gestures, no handler throws: every call and
    every gesture returns, and leaves a container whose rows all have
    their checkbox and their editable cell, with no element twice, and a
    model with a line list. *)
Theorem no_handler_throws_once_mounted (ls0 : list Line) (c0 : list Node)
        (out : option TextAreaValue) (es : list Event) (e : Event) :
  exists s' c ls,
    dispatch e (run es (after (render (construct (DataLines ls0) c0 out))))
    = Ok s' /\
    container s' = Some c /\ data s' = DataLines ls /\
    Forall intact (listGroupItems c) /\ distinctNodes c.
Proof.
  destruct (dispatch_mounted e _
              (run_mounted es _ (render_construct_mounted ls0 c0 out)))
    as (s' & E & c & ls & Hc & Hd & Hrows & Hnd).
  exists s', c, ls. auto.
Qed.

(** ** A data object without its lines *)

Lemma collectLines_some i rows r :
  In r rows -> colText r <> None -> collectLines i rows <> [].
Proof.
  revert i; induction rows as [|x rows IH]; intros i Hin Hr; [destruct Hin|].
  simpl. destruct (colText x) eqn:Ex; [discriminate|].
  destruct Hin as [-> | Hin]; [congruence | apply IH; assumption].
Qed.

(** X17.  What the editing methods do when the model is incomplete.  When
    [data] itself is missing, [addLine], [deleteLine], [requestDelete] and
    [cancelDelete] throw a [TypeError] in their opening flush, before
    anything is changed.  When [data] is there but has no [lines]: if no
    row of the view has an editable cell they throw in the same way; if
    some row has one, the flush creates [data.lines] from the view and the
    methods carry on from these lines. *)
Theorem editing_methods_without_lines (s : TextArranger) (c : list Node) :
  container s = Some c ->
  (data s = DataAbsent ->
   forall i, addLine i s = Thrown TypeError s /\
             deleteLine i s = Thrown TypeError s /\
             requestDelete i s = Thrown TypeError s /\
             cancelDelete s = Thrown TypeError s) /\
  (data s = DataNoLines ->
   (forall r, In r (listGroupItems c) -> colText r = None) ->
   forall i, addLine i s = Thrown TypeError s /\
             deleteLine i s = Thrown TypeError s /\
             requestDelete i s = Thrown TypeError s /\
             cancelDelete s = Thrown TypeError s) /\
  (data s = DataNoLines ->
   (exists r, In r (listGroupItems c) /\ colText r <> None) ->
   syncDataFromDOM s
   = Ok (setData (DataLines (collectLines 0 (listGroupItems c))) s) /\
   forall i, exists s1 s2 s3 s4,
     addLine i s = Ok s1 /\
     linesOf s1
     = resequence (splice i 0 [newLine] (collectLines 0 (listGroupItems c))) /\
     deleteLine i s = Ok s2 /\
     linesOf s2
     = resequence (splice i 1 [] (collectLines 0 (listGroupItems c))) /\
     requestDelete i s = Ok s3 /\
     linesOf s3 = collectLines 0 (listGroupItems c) /\
     cancelDelete s = Ok s4 /\
     linesOf s4 = collectLines 0 (listGroupItems c)).
Proof.
  intros Hc. split; [|split].
  - intros Hd i. unfold addLine, deleteLine, requestDelete, cancelDelete,
      syncDataFromDOM. rewrite Hc, Hd. simpl. auto.
  - intros Hd Hnone i.
    unfold addLine, deleteLine, requestDelete, cancelDelete, syncDataFromDOM.
    rewrite Hc, Hd, (collectLines_none 0 _ Hnone). simpl. auto.
  - intros Hd (r & Hin & Hr).
    assert (Hsync : syncDataFromDOM s
                    = Ok (setData (DataLines (collectLines 0 (listGroupItems c))) s)).
    { unfold syncDataFromDOM. rewrite Hc, Hd.
      pose proof (collectLines_some 0 _ r Hin Hr) as Hne.
      destruct (collectLines 0 (listGroupItems c)); [congruence | reflexivity]. }
    split; [exact Hsync|]. intros i.
    set (ls := collectLines 0 (listGroupItems c)) in *.
    set (s0 := setData (DataLines ls) s) in *.
    unfold addLine, deleteLine, requestDelete, cancelDelete.
    rewrite Hsync. unfold bind. cbn [data s0 setData].
    rewrite (render_lines (setData _ s0) c _ Hc eq_refl).
    rewrite (render_lines (setPendingDeleteIndex None (setData _ s0)) c _ Hc eq_refl).
    rewrite (render_lines (setPendingDeleteIndex (Some i) s0) c ls Hc eq_refl).
    rewrite (render_lines (setPendingDeleteIndex None s0) c ls Hc eq_refl).
    edestruct updateJsonOutput_value as (s2 & E2 & D2 & _);
      [| eexists; exists s2; eexists; eexists;
         split; [reflexivity|]; split; [reflexivity|];
         split; [exact E2|]; split; [unfold linesOf; rewrite D2; reflexivity|];
         split; [reflexivity|]; split; [reflexivity|];
         split; reflexivity].
    reflexivity.
Qed.

Lemma editing_methods_without_lines_witness :
  syncDataFromDOM (setData DataNoLines (mounted docABC))
  = Ok (setData (DataLines (collectLines 0 (listGroupItems
                                              (renderedChildren None docABC))))
                (setData DataNoLines (mounted docABC))).
Proof.
  apply (editing_methods_without_lines (setData DataNoLines (mounted docABC))
           (renderedChildren None docABC)).
  - reflexivity.
  - reflexivity.
  - exists (renderRow None 0 (mkLine 1 "A")). split; [left; reflexivity | discriminate].
Defined.

(** ** At most one prompt *)

Lemma renderItems_no_prompt pd k ls :
  (forall p, pd = Some p -> (p < Z.of_nat k)%Z) ->
  filter confirming (listGroupItems (renderItems pd k ls)) = [].
Proof.
  revert k; induction ls as [|l ls IH]; intros k Hpd; simpl; [reflexivity|].
  unfold isPending. destruct pd as [p|].
  - specialize (Hpd p eq_refl).
    destruct (Z.eqb_spec p (Z.of_nat k)); [lia|].
    apply IH. intros q Hq. injection Hq as <-. lia.
  - apply IH. discriminate.
Qed.

Lemma renderItems_promptCount pd k ls :
  length (filter confirming (listGroupItems (renderItems pd k ls))) <= 1.
Proof.
  revert k; induction ls as [|l ls IH]; intros k; simpl; [lia|].
  unfold isPending. destruct pd as [p|]; [|apply IH].
  destruct (Z.eqb_spec p (Z.of_nat k)) as [E|_]; [|apply IH].
  simpl. rewrite renderItems_no_prompt; [simpl; lia|].
  intros q Hq. injection Hq as <-. lia.
Qed.

Lemma rendered_promptCount pd ls : promptCount (renderedChildren pd ls) <= 1.
Proof. apply renderItems_promptCount. Qed.

Lemma filter_map_same {A : Type} (p : A -> bool) (f : A -> A) l :
  (forall x, p (f x) = p x) ->
  length (filter p (map f l)) = length (filter p l).
Proof.
  intros Hf. induction l as [|x l IH]; simpl; [reflexivity|].
  rewrite Hf. destruct (p x); simpl; rewrite IH; reflexivity.
Qed.

Lemma promptCount_mapRows f c :
  (forall r, confirming (f r) = confirming r) ->
  promptCount (mapRows f c) = promptCount c.
Proof.
  intros Hf. unfold promptCount. rewrite listGroupItems_mapRows.
  apply filter_map_same, Hf.
Qed.

Lemma promptCount_updateRow id f c :
  (forall r, confirming (f r) = confirming r) ->
  promptCount (updateRow id f c) = promptCount c.
Proof.
  intros Hf. unfold promptCount. rewrite listGroupItems_updateRow.
  apply filter_map_same. intros x. destruct (rowId x =? id); auto.
Qed.

Lemma promptCount_uncheckOthers i index c :
  promptCount (uncheckOthers i index c) = promptCount c.
Proof.
  unfold promptCount. rewrite listGroupItems_uncheckOthers.
  generalize (listGroupItems c) as rows. intros rows.
  revert i; induction rows as [|r rows IH]; intros i; simpl; [reflexivity|].
  assert (E : confirming (if (Z.of_nat i =? index)%Z then r
                          else setCheckbox false r) = confirming r)
    by (destruct (Z.of_nat i =? index)%Z; reflexivity).
  rewrite E. destruct (confirming r); simpl; rewrite IH; reflexivity.
Qed.

Lemma promptCount_changeCheckbox p c :
  promptCount (changeCheckbox p c) = promptCount c.
Proof.
  unfold changeCheckbox.
  destruct (nth_error (listGroupItems c) p) as [r|]; [|reflexivity].
  destruct (checkbox r) as [b|]; [|reflexivity].
  unfold handleToggle. destruct (negb (negb b)).
  - apply promptCount_updateRow. reflexivity.
  - destruct (_ && _); rewrite ?promptCount_uncheckOthers;
      apply promptCount_updateRow; reflexivity.
Qed.

Lemma Permutation_filter_length {A : Type} (p : A -> bool) l l' :
  Permutation l l' -> length (filter p l) = length (filter p l').
Proof.
  induction 1 as [| x l l' _ IH | x y l | l l' l'' _ IH1 _ IH2]; simpl.
  - reflexivity.
  - destruct (p x); simpl; rewrite IH; reflexivity.
  - destruct (p x), (p y); reflexivity.
  - congruence.
Qed.

(** Either the handler renders the container anew, or it keeps the number
    of rows that show the prompt. *)
Lemma dispatch_prompts e s :
  mountedState s ->
  exists s', dispatch e s = Ok s' /\
             ((exists pd ls, container s' = Some (renderedChildren pd ls)) \/
              promptCount (childrenOf s') = promptCount (childrenOf s)).
Proof.
  intros Hs. pose proof Hs as (c & ls & Hc & Hd & Hrows & Hnd).
  assert (Hadd : forall i, exists s', addLine i s = Ok s' /\
             ((exists pd ls, container s' = Some (renderedChildren pd ls)) \/
              promptCount (childrenOf s') = promptCount (childrenOf s))).
  { intros i. rewrite (addLine_lines s c ls i Hc Hd).
    eexists. split; [reflexivity|]. left. eexists. eexists. reflexivity. }
  assert (Hdel : forall i, exists s', deleteLine i s = Ok s' /\
             ((exists pd ls, container s' = Some (renderedChildren pd ls)) \/
              promptCount (childrenOf s') = promptCount (childrenOf s))).
  { intros i. destruct (deleteLine_lines s c ls i Hc Hd) as (s' & E & _ & C & _).
    exists s'. split; [exact E|]. left. eexists. eexists. exact C. }
  assert (Hreq : forall i, exists s', requestDelete i s = Ok s' /\
             ((exists pd ls, container s' = Some (renderedChildren pd ls)) \/
              promptCount (childrenOf s') = promptCount (childrenOf s))).
  { intros i. rewrite (requestDelete_lines s c ls i Hc Hd).
    eexists. split; [reflexivity|]. left. eexists. eexists. reflexivity. }
  assert (Hcan : exists s', cancelDelete s = Ok s' /\
             ((exists pd ls, container s' = Some (renderedChildren pd ls)) \/
              promptCount (childrenOf s') = promptCount (childrenOf s))).
  { rewrite (cancelDelete_lines s c ls Hc Hd).
    eexists. split; [reflexivity|]. left. eexists. eexists. reflexivity. }
  assert (Hsame : exists s', Ok s = Ok s' /\
             ((exists pd ls, container s' = Some (renderedChildren pd ls)) \/
              promptCount (childrenOf s') = promptCount (childrenOf s)))
    by (exists s; auto).
  destruct e; simpl.
  - apply Hadd.
  - apply Hdel.
  - apply Hreq.
  - exact Hcan.
  - rewrite (render_lines s c ls Hc Hd).
    eexists. split; [reflexivity|]. left. eexists. eexists. reflexivity.
  - unfold clickDivider. rewrite Hc.
    destruct (nth_error c k) as [[id index | r]|]; auto.
  - unfold clickDelete. destruct (rowAt p s) as [r|]; auto.
    destruct (confirming r); auto.
  - unfold clickConfirm. destruct (rowAt p s) as [r|]; auto.
    destruct (confirming r); auto.
  - unfold clickCancel. destruct (rowAt p s) as [r|]; auto.
    destruct (confirming r); auto.
  - rewrite Hc. eexists. split; [reflexivity|]. right.
    unfold childrenOf. rewrite Hc. apply promptCount_changeCheckbox.
  - unfold editText. rewrite Hc.
    destruct (nth_error (listGroupItems c) p) as [r|]; auto.
    destruct (colText r); auto.
    edestruct updateJsonOutput_ok as (s' & E & _ & C & _);
      [| exists s'; split; [exact E|]].
    + reflexivity.
    + right. unfold childrenOf. rewrite C, Hc. cbn [container setContainer].
      apply promptCount_updateRow. reflexivity.
  - unfold dragStart. rewrite Hc.
    destruct (nth_error (listGroupItems c) p) as [r|] eqn:Hp; auto.
    assert (Hr : intact r).
    { rewrite Forall_forall in Hrows. apply Hrows.
      eapply nth_error_In; eassumption. }
    destruct Hr as [Hcb _]. destruct (checkbox r) as [[|]|]; [| |congruence].
    + eexists. split; [reflexivity|]. right. unfold childrenOf. rewrite Hc.
      apply promptCount_mapRows. intros x. destruct (isChecked x); reflexivity.
    + eexists. split; [reflexivity|]. right. unfold childrenOf. rewrite Hc.
      apply promptCount_updateRow. reflexivity.
  - destruct (handleDragOver_rearranges getBoundingClientRect y s c Hc Hnd)
      as (c' & E & Hp & _).
    eexists. split; [exact E|]. right. unfold childrenOf. rewrite Hc.
    unfold promptCount. symmetry.
    apply Permutation_filter_length, Permutation_rows, Hp.
  - destruct (dragEnd_lines s c ls Hc Hd Hrows) as (s' & ls' & E & _ & _ & C).
    exists s'. split; [exact E|]. left. eexists. eexists. exact C.
Qed.

Lemma run_prompts es :
  forall s, mountedState s -> promptCount (childrenOf s) <= 1 ->
            promptCount (childrenOf (run es s)) <= 1.
Proof.
  unfold run. induction es as [|e es IH]; intros s Hs Hp; simpl; [exact Hp|].
  destruct (dispatch_mounted e s Hs) as (s1 & E1 & Hs1).
  destruct (dispatch_prompts e s Hs) as (s' & E & H).
  rewrite E in *. injection E1 as <-. simpl. apply IH; [exact Hs1|].
  destruct H as [(pd & ls & C) | H].
  - unfold childrenOf. rewrite C. apply rendered_promptCount.
  - rewrite H. exact Hp.
Qed.

(** X18.  On a component mounted on any document, at any point of any
    session of method calls and gestures, at most one row shows the confirm
    and cancel buttons. *)
Theorem at_most_one_prompt_in_any_session (ls0 : list Line) (c0 : list Node)
        (out : option TextAreaValue) (es : list Event) :
  promptCount
    (childrenOf (run es (after (render (construct (DataLines ls0) c0 out)))))
  <= 1.
Proof.
  apply run_prompts; [apply render_construct_mounted|].
  apply rendered_promptCount.
Qed.

(** ** The style sheet is injected once *)

Lemma find_append {A : Type} (p : A -> bool) l l' :
  find p (l ++ l')
  = match find p l with Some x => Some x | None => find p l' end.
Proof.
  induction l as [|x l IH]; simpl; [reflexivity|].
  destruct (p x); [reflexivity | exact IH].
Qed.

Lemma getElementById_injected pg :
  getElementById "text-arranger-styles" (injectStyles pg) <> None.
Proof.
  unfold injectStyles.
  destruct (getElementById "text-arranger-styles" pg) eqn:E; [congruence|].
  unfold getElementById in *. cbn [pageHead pageBody]. rewrite <- app_assoc.
  rewrite find_append in *.
  destruct (find _ (pageHead pg)); [discriminate|].
  simpl. discriminate.
Qed.

Lemma injectStyles_idempotent pg : injectStyles (injectStyles pg) = injectStyles pg.
Proof.
  pose proof (getElementById_injected pg) as H.
  unfold injectStyles at 1.
  destruct (getElementById "text-arranger-styles" (injectStyles pg));
    [reflexivity | congruence].
Qed.

Lemma constructAll_injected args :
  forall pg, getElementById "text-arranger-styles" pg <> None ->
             constructAll args pg = pg.
Proof.
  induction args as [|[[d c] out] args IH]; intros pg H; simpl; [reflexivity|].
  assert (E : injectStyles pg = pg).
  { unfold injectStyles.
    destruct (getElementById "text-arranger-styles" pg); [reflexivity | congruence]. }
  rewrite E. apply IH, H.
Qed.

(** X19.  The constructor injects the style sheet once per page.  On a page
    with no element of id [text-arranger-styles], constructing any positive
    number of components appends exactly one [style] element with that id
    to the head and touches nothing else; on a page that already has an
    element with that id, in the head or anywhere else, constructing
    components changes nothing. *)
Theorem styles_are_injected_once
        (args : list (Data * list Node * option TextAreaValue)) (pg : Page) :
  (getElementById "text-arranger-styles" pg = None -> args <> [] ->
   constructAll args pg
   = mkPage (pageHead pg ++ [mkPageElement "text-arranger-styles" styleSheet])
            (pageBody pg)) /\
  (getElementById "text-arranger-styles" pg <> None ->
   constructAll args pg = pg) /\
  injectStyles (injectStyles pg) = injectStyles pg.
Proof.
  split; [|split].
  - intros Hnone Hargs. destruct args as [|[[d c] out] args]; [congruence|].
    simpl. rewrite constructAll_injected by apply getElementById_injected.
    unfold injectStyles. rewrite Hnone. reflexivity.
  - apply constructAll_injected.
  - apply injectStyles_idempotent.
Qed.

(** ** The earlier version of the class *)

Lemma legacy_renderItems_shown k ls :
  shownTexts (Legacy.renderItems k ls) = map (fun l => Some (text l)) ls.
Proof.
  unfold shownTexts. revert k; induction ls; intros k; simpl; [|rewrite IHls];
    reflexivity.
Qed.

Lemma listGroupItems_resequenceRows k c :
  map colText (listGroupItems (Legacy.resequenceRows k c))
  = map colText (listGroupItems c) /\
  map nodeId (Legacy.resequenceRows k c) = map nodeId c /\
  map datasetLineNumber (listGroupItems (Legacy.resequenceRows k c))
  = map Z.of_nat (seq (S k) (length (listGroupItems c))) /\
  map checkbox (listGroupItems (Legacy.resequenceRows k c))
  = map checkbox (listGroupItems c) /\
  map dragging (listGroupItems (Legacy.resequenceRows k c))
  = map dragging (listGroupItems c).
Proof.
  revert k; induction c as [|[id i | r] c IH]; intros k; simpl.
  - repeat split.
  - destruct (IH k) as (H1 & H2 & H3 & H4 & H5). rewrite H2. auto.
  - destruct (IH (S k)) as (H1 & H2 & H3 & H4 & H5).
    rewrite H1, H2, H3, H4, H5. repeat split. f_equal. lia.
Qed.

Lemma collectLines_colText i rows rows' :
  map colText rows = map colText rows' ->
  collectLines i rows = collectLines i rows'.
Proof.
  revert i rows'; induction rows as [|r rows IH]; intros i [|r' rows'] H;
    simpl in *; try discriminate; [reflexivity|].
  injection H as H1 H2. rewrite H1, (IH (S i) rows' H2). reflexivity.
Qed.

Lemma legacy_dragEnd_result s c :
  container s = Some c ->
  exists s' c',
    Legacy.dragEnd s = Ok s' /\ container s' = Some c' /\
    data s' = data s /\
    map nodeId c' = map nodeId c /\
    shownTexts c' = shownTexts c /\
    map datasetLineNumber (listGroupItems c')
    = map Z.of_nat (seq 1 (length (listGroupItems c))) /\
    Forall (fun r => isChecked r = false /\ dragging r = false)
           (listGroupItems c') /\
    outputArea s' = mirrored (outputArea s) c.
Proof.
  intros Hc. unfold Legacy.dragEnd. rewrite Hc. cbv zeta.
  set (c2 := mapRows (setCheckbox false) (mapRows (setDragging false) c)).
  destruct (listGroupItems_resequenceRows 0 c2) as (H1 & H2 & H3 & H4 & H5).
  assert (Hshown2 : shownTexts c2 = shownTexts c)
    by (unfold c2; rewrite !shownTexts_mapRows; reflexivity).
  destruct (updateJsonOutput_value
              (setContainer (Legacy.resequenceRows 0 c2) s) _ eq_refl)
    as (s' & E & D & C & _ & _ & O).
  exists s', (Legacy.resequenceRows 0 c2).
  split; [exact E|]. split; [exact C|]. split; [exact D|].
  split.
  { rewrite H2. unfold c2. rewrite !nodeId_mapRows; reflexivity. }
  split; [unfold shownTexts in *; rewrite H1; exact Hshown2|].
  split.
  { rewrite H3. f_equal. f_equal. unfold c2.
    rewrite !listGroupItems_mapRows, !length_map. reflexivity. }
  split.
  { apply Forall_forall. intros r Hr.
    assert (Hcb : In (checkbox r) (map checkbox (listGroupItems c2)))
      by (rewrite <- H4; apply in_map, Hr).
    assert (Hdr : In (dragging r) (map dragging (listGroupItems c2)))
      by (rewrite <- H5; apply in_map, Hr).
    unfold c2 in Hcb, Hdr. rewrite !listGroupItems_mapRows, !map_map in Hcb, Hdr.
    apply in_map_iff in Hcb. destruct Hcb as (x & Ex & _).
    apply in_map_iff in Hdr. destruct Hdr as (x' & Ex' & _).
    simpl in Ex, Ex'. split; [|congruence].
    unfold isChecked. rewrite <- Ex. destruct (checkbox x); reflexivity. }
  rewrite O. cbn [outputArea setContainer]. unfold mirrored.
  destruct (outputArea s); [|reflexivity]. do 2 f_equal.
  apply collectLines_colText. rewrite H1. exact Hshown2.
Qed.

(** X20.  In the earlier version of the class the drag commit renumbers the
    rows where they are and refreshes the output area, but never writes
    [data.lines]: the rows are the same elements in the same order, showing
    the same texts, with [dataset.lineNumber] now [1..N], unchecked and not
    dragged; the model is what it was before the drag, so a later
    [render()] puts the rows back in the order of the model. *)
Theorem legacy_dragEnd_leaves_the_model (s : TextArranger) (c : list Node)
        (ls : list Line) :
  container s = Some c -> data s = DataLines ls ->
  exists s1 c1 s2 c2,
    Legacy.dragEnd s = Ok s1 /\ container s1 = Some c1 /\
    data s1 = DataLines ls /\
    map nodeId c1 = map nodeId c /\
    shownTexts c1 = shownTexts c /\
    map datasetLineNumber (listGroupItems c1)
    = map Z.of_nat (seq 1 (length (listGroupItems c))) /\
    Forall (fun r => isChecked r = false /\ dragging r = false)
           (listGroupItems c1) /\
    Legacy.render s1 = Ok s2 /\ container s2 = Some c2 /\
    shownTexts c2 = map (fun l => Some (text l)) ls.
Proof.
  intros Hc Hd.
  destruct (legacy_dragEnd_result s c Hc)
    as (s1 & c1 & E & C & D & Hid & Hsh & Hnum & Hfresh & _).
  rewrite Hd in D.
  exists s1, c1. eexists. eexists.
  split; [exact E|]. split; [exact C|]. split; [exact D|].
  split; [exact Hid|]. split; [exact Hsh|]. split; [exact Hnum|].
  split; [exact Hfresh|].
  unfold Legacy.render. rewrite C. cbv zeta.
  change (data (setContainer [] s1)) with (data s1). rewrite D.
  split; [reflexivity|]. split; [reflexivity|].
  apply legacy_renderItems_shown.
Qed.

Lemma legacy_dragEnd_leaves_the_model_witness :
  exists s1 s2 c2,
    Legacy.dragEnd (after (handleDragOver stackedLayout (Double.ofZ 45) draggingA)) = Ok s1 /\
    data s1 = DataLines docABC /\
    option_map shownTexts (container s1)
    = Some [Some "B"; Some "A"; Some "C"] /\
    Legacy.render s1 = Ok s2 /\ container s2 = Some c2 /\
    shownTexts c2 = [Some "A"; Some "B"; Some "C"].
Proof.
  destruct (legacy_dragEnd_leaves_the_model
              (after (handleDragOver stackedLayout (Double.ofZ 45) draggingA))
              (childrenOf (after (handleDragOver stackedLayout (Double.ofZ 45) draggingA)))
              docABC)
    as (s1 & c1 & s2 & c2 & E & C & D & _ & Hsh & _ & _ & R & C2 & Hsh2).
  - reflexivity.
  - reflexivity.
  - exists s1, s2, c2. split; [exact E|]. split; [exact D|].
    split; [rewrite C; simpl; rewrite Hsh; reflexivity|].
    split; [exact R|]. split; [exact C2 | exact Hsh2].
Defined.

(** X21.  The two versions of the class write the same thing to the output
    area when a drag ends: on a view whose rows all have their editable
    cell, the value left by the earlier [dragend] listener, which reads the
    rows it has just renumbered, is the value left by the later one, which
    rebuilds the model and renders first. *)
Theorem both_versions_write_the_same_output (s : TextArranger) (c : list Node) :
  container s = Some c -> data s <> DataAbsent ->
  Forall (fun r => colText r <> None) (listGroupItems c) ->
  exists s1 s2,
    Legacy.dragEnd s = Ok s1 /\ dragEnd s = Ok s2 /\
    outputArea s1 = outputArea s2 /\
    (outputArea s <> None ->
     outputArea s2 = Some (JsonOf (linesOf s2))).
Proof.
  intros Hc Hd Hall.
  destruct (legacy_dragEnd_result s c Hc) as (s1 & c1 & E1 & _ & _ & _ & _ & _ & _ & O1).
  destruct (dragEnd_commit s c Hc Hd Hall)
    as (s2 & c2 & E2 & _ & T & N & _ & _ & _ & _ & O2).
  exists s1, s2. split; [exact E1|]. split; [exact E2|].
  assert (Hlines : linesOf s2 = collectLines 0 (listGroupItems c)).
  { destruct (collectLines_shown 0 _ Hall) as [H1 H2].
    assert (Ht : map text (linesOf s2) = map text (collectLines 0 (listGroupItems c))).
    { apply (f_equal (map (fun o => match o with Some t => t | None => "" end))) in T.
      apply (f_equal (map (fun o => match o with Some t => t | None => "" end))) in H1.
      unfold shownTexts in T. rewrite map_map in T, H1. unfold textsOf in T.
      rewrite map_id in T. rewrite T, <- H1. apply map_ext. reflexivity. }
    rewrite <- (resequence_fixed _ N).
    assert (Hn : numbered (collectLines 0 (listGroupItems c))) by exact H2.
    rewrite <- (resequence_fixed _ Hn).
    apply resequenceFrom_ext, Ht. }
  rewrite O1, O2. unfold mirrored. rewrite Hlines.
  split; [reflexivity|].
  intros Hout. destruct (outputArea s); [reflexivity | congruence].
Qed.

Lemma both_versions_write_the_same_output_witness :
  exists s1 s2,
    Legacy.dragEnd
      (after (render (construct (DataLines docABC) [] (Some InitialValue))))
    = Ok s1 /\
    dragEnd (after (render (construct (DataLines docABC) [] (Some InitialValue))))
    = Ok s2 /\
    outputArea s1 = outputArea s2 /\
    outputArea s2 = Some (JsonOf docABC).
Proof.
  destruct (both_versions_write_the_same_output
              (after (render (construct (DataLines docABC) [] (Some InitialValue))))
              (renderedChildren None docABC))
    as (s1 & s2 & E1 & E2 & O & H).
  - reflexivity.
  - discriminate.
  - repeat constructor; discriminate.
  - exists s1, s2. split; [exact E1|]. split; [exact E2|]. split; [exact O|].
    injection E2 as <-. reflexivity.
Defined.

Lemma styles_are_injected_once_witness :
  constructAll [(DataLines docABC, [], None); (DataAbsent, [], None)] emptyPage
  = mkPage [mkPageElement "text-arranger-styles" styleSheet] [].
Proof.
  apply (styles_are_injected_once
           [(DataLines docABC, [], None); (DataAbsent, [], None)] emptyPage);
    first [reflexivity | discriminate].
Defined.

(** ** Dropping a block before a row *)

Section Drop.

Variable getBoundingClientRect : Row -> DOMRect.

(** X22.  A drop composes the move and the commit.  When the last
    [dragover] found the anchor row [a], the [dragend] listener leaves in
    the model, numbered [1..N], first the texts of the rows before [a] that
    were not dragged, then the texts of the dragged rows in their order,
    then the text of [a] and of the rows after it that were not dragged. *)
Theorem drop_before_anchor_reorders_the_model (y : Double.t) (s : TextArranger)
        (c : list Node) (a : Row) :
  container s = Some c -> distinctNodes c -> data s <> DataAbsent ->
  Forall (fun r => colText r <> None) (listGroupItems c) ->
  getDragAfterElement getBoundingClientRect y c = Some a ->
  exists before following s1 s2,
    listGroupItems c = before ++ a :: following /\
    handleDragOver getBoundingClientRect y s = Ok s1 /\
    dragEnd s1 = Ok s2 /\
    numbered (linesOf s2) /\
    map (fun t => Some t) (textsOf s2)
    = map colText (filter notDragging before
                     ++ filter dragging (listGroupItems c)
                     ++ a :: filter notDragging following).
Proof.
  intros Hc Hnd Hd Hall Ha.
  destruct (handleDragOver_before_anchor getBoundingClientRect y s c a Hc Hnd Ha)
    as (pre & post & E & Hmove).
  set (c1 := filter staysPut pre ++ filter draggedNode c
               ++ Item a :: filter staysPut post) in *.
  assert (Hrows1 : listGroupItems c1
                   = filter notDragging (listGroupItems pre)
                       ++ filter dragging (listGroupItems c)
                       ++ a :: filter notDragging (listGroupItems post)).
  { unfold c1. rewrite !listGroupItems_app. cbn [listGroupItems].
    rewrite !listGroupItems_staysPut, listGroupItems_dragged. reflexivity. }
  assert (Hall1 : Forall (fun r => colText r <> None) (listGroupItems c1)).
  { destruct (handleDragOver_rearranges getBoundingClientRect y s c Hc Hnd)
      as (c' & E' & Hp & _).
    rewrite Hmove in E'. injection E' as E'. rewrite <- E' in Hp.
    rewrite Forall_forall in *. intros r Hr. apply Hall.
    eapply Permutation_in;
      [apply Permutation_sym, Permutation_rows, Hp | exact Hr]. }
  destruct (dragEnd_commit (setContainer c1 s) c1 eq_refl Hd Hall1)
    as (s2 & c2 & E2 & _ & T & N & _).
  exists (listGroupItems pre), (listGroupItems post), (setContainer c1 s), s2.
  split; [rewrite E, listGroupItems_app; reflexivity|].
  split; [exact Hmove|]. split; [exact E2|]. split; [exact N|].
  rewrite T. unfold shownTexts. rewrite Hrows1. reflexivity.
Qed.

End Drop.

Lemma drop_before_anchor_reorders_the_model_witness :
  exists s1 s2,
    handleDragOver stackedLayout (Double.ofZ 5) draggingYZ = Ok s1 /\
    dragEnd s1 = Ok s2 /\
    numbered (linesOf s2) /\
    textsOf s2 = ["Y"; "Z"; "W"; "X"].
Proof.
  destruct (drop_before_anchor_reorders_the_model stackedLayout (Double.ofZ 5) draggingYZ
              (childrenOf draggingYZ) (renderRow None 0 (mkLine 1 "W")))
    as (before & following & s1 & s2 & _ & E1 & E2 & N & _).
  - reflexivity.
  - unfold distinctNodes. simpl. repeat constructor; simpl; lia.
  - discriminate.
  - repeat constructor; discriminate.
  - reflexivity.
  - exists s1, s2. split; [exact E1|]. split; [exact E2|]. split; [exact N|].
    assert (S1 : s1 = after (handleDragOver stackedLayout (Double.ofZ 5)
                               draggingYZ))
      by (rewrite E1; reflexivity).
    assert (S2 : s2 = after (dragEnd s1)) by (rewrite E2; reflexivity).
    rewrite S2, S1. vm_compute. reflexivity.
Defined.

(** ** The delete prompt, from request to confirmation *)



(** X24.  A new delete request replaces the pending one, whatever the view
    holds.  After [requestDelete(i)], whose opening flush captures the lines
    of the view, and then [requestDelete(j)] for a row index [j], the
    pending index is [j], the prompt is on row [j] and on no other row, and
    the document holds the lines the first request captured, in their
    order, numbered [1..N]: the second request changes the document only
    when those lines were not numbered [1..N] already. *)
Theorem requestDelete_replaces_the_pending_request (s : TextArranger)
        (c : list Node) (ls : list Line) (i : Z) (j : nat) :
  container s = Some c -> data s = DataLines ls ->
  j < length (flushLines c ls) ->
  syncDataFromDOM s = Ok (setData (DataLines (flushLines c ls)) s) /\
  exists s1 s2 c2,
    requestDelete i s = Ok s1 /\
    data s1 = DataLines (flushLines c ls) /\
    requestDelete (Z.of_nat j) s1 = Ok s2 /\
    container s2 = Some c2 /\
    data s2 = DataLines (resequence (flushLines c ls)) /\
    textsOf s2 = textsOf s1 /\
    numbered (linesOf s2) /\
    (data s2 = data s1 <-> numbered (flushLines c ls)) /\
    pendingDeleteIndex s2 = Some (Z.of_nat j) /\
    (exists r, nth_error (listGroupItems c2) j = Some r /\
               confirming r = true) /\
    (forall p r, nth_error (listGroupItems c2) p = Some r ->
                 (confirming r = true <-> p = j)).
Proof.
  intros Hc Hd Hj. split; [apply syncDataFromDOM_lines; assumption|].
  pose proof (requestDelete_lines s c ls i Hc Hd) as E1.
  set (ls0 := flushLines c ls) in *.
  set (s1 := setContainer (renderedChildren (Some i) ls0)
               (setPendingDeleteIndex (Some i)
                  (setData (DataLines ls0) s))) in *.
  pose proof (requestDelete_lines s1 _ ls0 (Z.of_nat j) eq_refl eq_refl) as E2.
  rewrite flushLines_rendered in E2.
  assert (Hlen : length (resequence ls0) = length ls0)
    by apply resequenceFrom_length.
  exists s1. eexists. eexists. split; [exact E1|]. split; [reflexivity|].
  split; [exact E2|]. split; [reflexivity|]. split; [reflexivity|].
  split; [apply resequenceFrom_text|].
  split; [apply resequence_numbered|].
  split.
  { cbn [data setContainer setPendingDeleteIndex setData]. split.
    - intros E. injection E as E. rewrite <- E. apply resequence_numbered.
    - intros Hn. rewrite (resequence_fixed _ Hn). reflexivity. }
  split; [reflexivity|]. split.
  - destruct (nth_error (resequence ls0) j) as [l|] eqn:Hl;
      [| apply nth_error_None in Hl; lia].
    exists (renderRow (Some (Z.of_nat j)) j l).
    split; [apply rendered_row, Hl|]. simpl. apply Z.eqb_refl.
  - intros p r Hp. unfold renderedChildren in Hp. simpl listGroupItems in Hp.
    rewrite renderItems_nth in Hp.
    destruct (nth_error (resequence ls0) p); [|discriminate].
    injection Hp as <-. simpl. rewrite Z.eqb_eq. lia.
Qed.

Lemma requestDelete_replaces_the_pending_request_witness :
  exists s1 s2 c2,
    requestDelete 0 (mounted docTens) = Ok s1 /\
    requestDelete 2 s1 = Ok s2 /\
    container s2 = Some c2 /\
    linesOf s2 = [mkLine 1 "A"; mkLine 2 "B"; mkLine 3 "C"] /\
    data s2 = data s1 /\
    pendingDeleteIndex s2 = Some 2%Z /\
    (forall p r, nth_error (listGroupItems c2) p = Some r ->
                 (confirming r = true <-> p = 2)).
Proof.
  destruct (requestDelete_replaces_the_pending_request (mounted docTens)
              (renderedChildren None docTens) docTens 0 2)
    as (_ & s1 & s2 & c2 & E1 & _ & E2 & C & D & _ & _ & I & P & _ & Q);
    try reflexivity.
  - simpl. lia.
  - exists s1, s2, c2. split; [exact E1|]. split; [exact E2|].
    split; [exact C|]. split; [unfold linesOf; rewrite D; reflexivity|].
    split; [apply I; reflexivity|]. split; [exact P | exact Q].
Defined.

(** ** The focus after an insert *)


